(** * Session lifecycle, overdue monitor and occupancy accounting

    A shallow embedding of the session engine of the library attendance
    console: [handleCheckIn], [handleCheckOut], [fetchData] and the
    [monitor] timer callback of [src/App.tsx], [sendOverdueAlert] of
    [src/services/notificationService.ts] and the occupancy figures of
    [src/components/Dashboard.tsx].

    Conventions of the embedding.
    - A JavaScript [Date] is its [getTime()] value: integral milliseconds, [Z].
    - The quotients the code forms from millisecond differences are kept as
      exact rationals ([Q]); on the integral operands that occur here the
      comparisons, [Math.round] and [Math.floor] of the source agree with the
      exact ones.
    - React state is the record [AppState]; a handler is a computation in the
      monad [M], which threads the state, the remote [sessions] relation and
      the log of observable effects, and which can complete abruptly
      ([Throw]) so that the [try]/[catch] blocks of the source are kept.
    - Everything the code obtains from outside (clock readings, replies of
      the hosted store, the behaviour of the browser notification and of the
      edge function) is read from an oracle [Env], indexed by a counter of
      the calls made so far. *)

From Stdlib Require Import ZArith List String Bool Lia QArith Qround Permutation Sorted.
From Stdlib Require Import DecimalString DecimalPos DecimalZ.
Import ListNotations.

Local Open Scope string_scope.
Local Open Scope Z_scope.

(** ** JavaScript numbers and strings *)

Module Js.

(** [Math.round]: nearest integer, ties towards plus infinity. *)
Definition Math_round (q : Q) : Z := Qfloor (q + (1 # 2)).

Definition Math_floor (q : Q) : Z := Qfloor q.

(** [q < r] and [q >= r] on numbers. *)
Definition lt (q r : Q) : bool := negb (Qle_bool r q).
Definition ge (q r : Q) : bool := Qle_bool r q.

(** [(a - b) / 60000] for two [getTime()] values. *)
Definition minutes_between (later earlier : Z) : Q :=
  (inject_Z (later - earlier) / 60000)%Q.

(** Truthiness of a string: every string but the empty one. *)
Definition truthy (s : string) : bool :=
  match s with EmptyString => false | _ => true end.

(** [x || d] for an optional string [x]. *)
Definition or_default (x : option string) (d : string) : string :=
  match x with
  | Some s => if truthy s then s else d
  | None => d
  end.

(** Template-literal rendering of an integral number. *)
Definition to_string (z : Z) : string := NilZero.string_of_int (Z.to_int z).

End Js.

(** ** Data model ([types.ts]) *)

Inductive PatronCategory : Type :=
| Student | AcademicStaff | NonAcademicStaff | ExternalVisitor.

Module Patron.
Record t : Type := mk {
  id : string;
  category : PatronCategory;
  name : string;
  email : string;
  photo : option string
}.
End Patron.

Record Session : Type := mkSession {
  id : string;
  studentId : string;
  studentName : option string;
  checkIn : Z;
  checkOut : option Z;
  duration : option Z;
  notes : option string;
  alertTriggered : option bool
}.

Record NotificationSettings : Type := mkNotificationSettings {
  enabled : bool;
  email : string;
  thresholdMinutes : Z
}.

(** [idConfig] only feeds the patron registry and is left out. *)
Record AppSettings : Type := mkAppSettings {
  dailyCapacity : Z;
  aiInsightsEnabled : bool;
  autoCheckoutEnabled : bool;
  autoCheckoutHours : Z;
  notifications : NotificationSettings
}.

Inductive SyncStatus : Type := online | syncing | offline | error.

Definition DEFAULT_SETTINGS : AppSettings :=
  {| dailyCapacity := 120;
     aiInsightsEnabled := true;
     autoCheckoutEnabled := false;
     autoCheckoutHours := 12;
     notifications :=
       {| enabled := true;
          email := "bhfnmtclibrary@gmail.com";
          thresholdMinutes := 180 |} |}.

(** A row of the hosted [sessions] relation (SQL script of [lib/supabase.ts]). *)
Module SessionRow.
Record t : Type := mk {
  id : string;
  patron_id : string;
  check_in : Z;
  check_out : option Z;
  duration : option Z;
  notes : option string;
  alert_triggered : bool
}.
End SessionRow.

(** The [useState] cells of [App]. *)
Record AppState : Type := mkAppState {
  patrons : list Patron.t;
  activeSessions : list Session;
  sessionHistory : list Session;
  todaySessions : list Session;
  demoMode : bool;
  syncStatus : SyncStatus;
  syncError : option string;
  lastSync : Z;
  appSettings : AppSettings
}.

(** Observable effects of the notification service. *)
Inductive Event : Type :=
| OverdueAlert (studentId : string) (durationMins : Z) (librarianEmail : string)
| BrowserNotification (studentId : string) (hours minutes : Z)
| EdgeFunctionInvoke (studentId : string) (duration : Z) (recipient : string)
| ConsoleLog
| ConsoleWarn (message : string)
| ConsoleError (message : string).

(** What runs: the React state, the hosted relation, the number of oracle
    readings consumed and the effects so far (latest last). *)
Record World : Type := mkWorld {
  app : AppState;
  sessions_table : list SessionRow.t;
  calls : nat;
  log : list Event
}.

(** Reply of the edge function [notify-overdue]. *)
Inductive InvokeReply : Type :=
| InvokeData
| InvokeError (message : string)
| InvokeRejects (message : string).

(** The outside world. *)
Record Env : Type := mkEnv {
  isSupabaseConfigured : bool;
  clock : nat -> Z;
  remote_error : nat -> option string;
  gen_random_uuid : nat -> string;
  notification_granted : bool;
  notification_throws : nat -> option string;
  invoke_reply : nat -> InvokeReply
}.

(** ** State updates *)

Definition with_activeSessions (f : list Session -> list Session) (st : AppState) : AppState :=
  mkAppState (patrons st) (f (activeSessions st)) (sessionHistory st) (todaySessions st)
    (demoMode st) (syncStatus st) (syncError st) (lastSync st) (appSettings st).

Definition with_sessionHistory (f : list Session -> list Session) (st : AppState) : AppState :=
  mkAppState (patrons st) (activeSessions st) (f (sessionHistory st)) (todaySessions st)
    (demoMode st) (syncStatus st) (syncError st) (lastSync st) (appSettings st).

Definition with_todaySessions (f : list Session -> list Session) (st : AppState) : AppState :=
  mkAppState (patrons st) (activeSessions st) (sessionHistory st) (f (todaySessions st))
    (demoMode st) (syncStatus st) (syncError st) (lastSync st) (appSettings st).

Definition with_patrons (ps : list Patron.t) (st : AppState) : AppState :=
  mkAppState ps (activeSessions st) (sessionHistory st) (todaySessions st)
    (demoMode st) (syncStatus st) (syncError st) (lastSync st) (appSettings st).

Definition with_demoMode (b : bool) (st : AppState) : AppState :=
  mkAppState (patrons st) (activeSessions st) (sessionHistory st) (todaySessions st)
    b (syncStatus st) (syncError st) (lastSync st) (appSettings st).

Definition with_syncStatus (s : SyncStatus) (st : AppState) : AppState :=
  mkAppState (patrons st) (activeSessions st) (sessionHistory st) (todaySessions st)
    (demoMode st) s (syncError st) (lastSync st) (appSettings st).

Definition with_syncError (e : option string) (st : AppState) : AppState :=
  mkAppState (patrons st) (activeSessions st) (sessionHistory st) (todaySessions st)
    (demoMode st) (syncStatus st) e (lastSync st) (appSettings st).

Definition with_lastSync (t : Z) (st : AppState) : AppState :=
  mkAppState (patrons st) (activeSessions st) (sessionHistory st) (todaySessions st)
    (demoMode st) (syncStatus st) (syncError st) t (appSettings st).

Definition with_appSettings (a : AppSettings) (st : AppState) : AppState :=
  mkAppState (patrons st) (activeSessions st) (sessionHistory st) (todaySessions st)
    (demoMode st) (syncStatus st) (syncError st) (lastSync st) a.

(** ** The monad of handlers *)

Inductive completion (A : Type) : Type :=
| Normal (a : A)
| Throw (message : string).
Arguments Normal {A} a.
Arguments Throw {A} message.

Definition M (A : Type) : Type := World -> completion A * World.

Definition ret {A} (a : A) : M A := fun w => (Normal a, w).

Definition bind {A B} (c : M A) (k : A -> M B) : M B :=
  fun w =>
    match c w with
    | (Normal a, w') => k a w'
    | (Throw e, w') => (Throw e, w')
    end.

Definition throw {A} (e : string) : M A := fun w => (Throw e, w).

(** [try { c } catch (err) { h err }]: what [c] did before it threw stays. *)
Definition try_catch {A} (c : M A) (h : string -> M A) : M A :=
  fun w =>
    match c w with
    | (Normal a, w') => (Normal a, w')
    | (Throw e, w') => h e w'
    end.

Declare Scope m_scope.
Delimit Scope m_scope with M.
Notation "x <- c ;; k" := (bind c (fun x => k))
  (at level 61, c at next level, right associativity) : m_scope.
Notation "c ;; k" := (bind c (fun _ => k))
  (at level 61, right associativity) : m_scope.
Local Open Scope m_scope.

(** [for (const x of l) body(x)] *)
Fixpoint for_of {A} (l : list A) (body : A -> M unit) : M unit :=
  match l with
  | [] => ret tt
  | x :: rest => body x ;; for_of rest body
  end.

Definition get_app : M AppState := fun w => (Normal (app w), w).

Definition modify_app (f : AppState -> AppState) : M unit :=
  fun w => (Normal tt, mkWorld (f (app w)) (sessions_table w) (calls w) (log w)).

Definition modify_table (f : list SessionRow.t -> list SessionRow.t) : M unit :=
  fun w => (Normal tt, mkWorld (app w) (f (sessions_table w)) (calls w) (log w)).

Definition emit (e : Event) : M unit :=
  fun w => (Normal tt, mkWorld (app w) (sessions_table w) (calls w) (log w ++ [e])%list).

(** One reading of the oracle: the index of the reading, which then advances. *)
Definition next_call : M nat :=
  fun w => (Normal (calls w), mkWorld (app w) (sessions_table w) (S (calls w)) (log w)).

Definition setActiveSessions f := modify_app (with_activeSessions f).
Definition setSessionHistory f := modify_app (with_sessionHistory f).
Definition setTodaySessions f := modify_app (with_todaySessions f).
Definition setPatrons ps := modify_app (with_patrons ps).
Definition setDemoMode b := modify_app (with_demoMode b).
Definition setSyncStatus s := modify_app (with_syncStatus s).
Definition setSyncError e := modify_app (with_syncError e).
Definition setLastSync t := modify_app (with_lastSync t).
Definition setAppSettings a := modify_app (with_appSettings a).

(** ** The hosted [sessions] relation *)

Module Remote.

Definition is_open (r : SessionRow.t) : bool :=
  match SessionRow.check_out r with None => true | Some _ => false end.

(** [.update(patch).eq('id', sessionId)] *)
Definition update_eq_id (sessionId : string) (patch : SessionRow.t -> SessionRow.t)
    (tbl : list SessionRow.t) : list SessionRow.t :=
  map (fun r => if String.eqb (SessionRow.id r) sessionId then patch r else r) tbl.

(** [.insert([{ patron_id, check_in }])]: the other columns take their
    defaults, the identifier is generated by the store. *)
Definition insert (uuid patron_id : string) (check_in : Z)
    (tbl : list SessionRow.t) : list SessionRow.t :=
  (tbl ++ [SessionRow.mk uuid patron_id check_in None None None false])%list.

(** [.select('*').is('check_out', null)] *)
Definition select_active (tbl : list SessionRow.t) : list SessionRow.t := filter is_open tbl.

(** [.select('*').gte('check_in', startOfDay)] *)
Definition select_today (startOfDay : Z) (tbl : list SessionRow.t) : list SessionRow.t :=
  filter (fun r => startOfDay <=? SessionRow.check_in r) tbl.

Definition check_out_key (r : SessionRow.t) : Z :=
  match SessionRow.check_out r with Some t => t | None => 0 end.

Fixpoint insert_desc (r : SessionRow.t) (l : list SessionRow.t) : list SessionRow.t :=
  match l with
  | [] => [r]
  | x :: rest =>
      if check_out_key x <=? check_out_key r then r :: l
      else x :: insert_desc r rest
  end.

Definition order_desc (l : list SessionRow.t) : list SessionRow.t :=
  fold_right insert_desc [] l.

(** [.not('check_out','is',null).order('check_out',{ascending:false}).limit(100)] *)
Definition select_history (tbl : list SessionRow.t) : list SessionRow.t :=
  firstn 100 (order_desc (filter (fun r => negb (is_open r)) tbl)).

Definition close (t d : Z) (n : string) (r : SessionRow.t) : SessionRow.t :=
  SessionRow.mk (SessionRow.id r) (SessionRow.patron_id r) (SessionRow.check_in r)
         (Some t) (Some d) (Some n) (SessionRow.alert_triggered r).

Definition flag_alert (r : SessionRow.t) : SessionRow.t :=
  SessionRow.mk (SessionRow.id r) (SessionRow.patron_id r) (SessionRow.check_in r)
         (SessionRow.check_out r) (SessionRow.duration r) (SessionRow.notes r) true.

End Remote.

(** The three projections [fetchData] builds from the rows it receives. *)
Definition active_of_row (s : SessionRow.t) : Session :=
  mkSession (SessionRow.id s) (SessionRow.patron_id s) None (SessionRow.check_in s)
            None None None (Some (SessionRow.alert_triggered s)).

Definition history_of_row (s : SessionRow.t) : Session :=
  mkSession (SessionRow.id s) (SessionRow.patron_id s) None (SessionRow.check_in s)
            (SessionRow.check_out s) (SessionRow.duration s) (SessionRow.notes s) None.

Definition today_of_row (s : SessionRow.t) : Session :=
  mkSession (SessionRow.id s) (SessionRow.patron_id s) None (SessionRow.check_in s)
            (SessionRow.check_out s) (SessionRow.duration s) (SessionRow.notes s) None.

Definition MOCK_STUDENTS : list Patron.t :=
  [ Patron.mk "ST-001" Student "John Doe" "john@example.com"
      (Some "https://picsum.photos/seed/john/200");
    Patron.mk "ST-002" Student "Jane Smith" "jane@example.com"
      (Some "https://picsum.photos/seed/jane/200");
    Patron.mk "AS-001" AcademicStaff "Robert Brown" "robert@example.com"
      (Some "https://picsum.photos/seed/rob/200");
    Patron.mk "NAS-001" NonAcademicStaff "Emily Davis" "emily@example.com"
      (Some "https://picsum.photos/seed/emily/200");
    Patron.mk "EV-001" ExternalVisitor "Michael Wilson" "mike@example.com"
      (Some "https://picsum.photos/seed/mike/200") ].

Definition AUTO_CHECKOUT_NOTE : string := "Auto-Checkout: System Time Limit Reached".
Definition MANUAL_CHECKOUT_NOTE : string := "Manual Checkout".

(** [!session.alertTriggered] *)
Definition alert_pending (s : Session) : bool :=
  match alertTriggered s with Some true => false | _ => true end.

(** The copy [{ ...sessionToClose, checkOut, duration, notes }]. *)
Definition closedSession (sessionToClose : Session) (checkOutTime dur : Z)
    (n : string) : Session :=
  mkSession (id sessionToClose) (studentId sessionToClose)
            (studentName sessionToClose) (checkIn sessionToClose)
            (Some checkOutTime) (Some dur) (Some n)
            (alertTriggered sessionToClose).

Definition has_id (sessionId : string) (s : Session) : bool :=
  String.eqb (id s) sessionId.

(** ** The handlers of [App] *)

Section Handlers.

Variable env : Env.

(** [new Date()] and [Date.now()] *)
Definition new_Date : M Z :=
  k <- next_call ;; ret (clock env k).

(** A write to the hosted relation; the reply's [error] is returned. *)
Definition supabase_update (sessionId : string) (patch : SessionRow.t -> SessionRow.t)
    : M (option string) :=
  k <- next_call ;;
  match remote_error env k with
  | Some e => ret (Some e)
  | None => modify_table (Remote.update_eq_id sessionId patch) ;; ret None
  end.

Definition supabase_insert (patron_id : string) (check_in : Z)
    : M (option string) :=
  k <- next_call ;;
  match remote_error env k with
  | Some e => ret (Some e)
  | None =>
      modify_table (Remote.insert (gen_random_uuid env k) patron_id check_in) ;;
      ret None
  end.

(** [!demoMode && isSupabaseConfigured] *)
Definition connected (st : AppState) : bool :=
  negb (demoMode st) && isSupabaseConfigured env.

(** [handleCheckOut] (App.tsx, 312-339).  The ref [activeSessionsRef] is
    copied from the state cell after every render (line 201), so the
    handler reads the cell. *)
Definition handleCheckOut (sessionId : string) (notes : option string) : M unit :=
  st <- get_app ;;
  match find (has_id sessionId) (activeSessions st) with
  | None => ret tt
  | Some sessionToClose =>
      try_catch
        (checkOutTime <- new_Date ;;
         let duration :=
           Js.Math_round (Js.minutes_between checkOutTime (checkIn sessionToClose)) in
         if connected st then
           error <- supabase_update sessionId
                      (Remote.close checkOutTime (Z.max 1 duration)
                         (Js.or_default notes MANUAL_CHECKOUT_NOTE)) ;;
           match error with
           | Some e => throw e
           | None => ret tt
           end
         else
           setActiveSessions (filter (fun s => negb (has_id sessionId s))) ;;
           let closed := closedSession sessionToClose checkOutTime
                           (Z.max 1 duration)
                           (Js.or_default notes MANUAL_CHECKOUT_NOTE) in
           setSessionHistory (cons closed) ;;
           setTodaySessions (map (fun s => if has_id sessionId s then closed else s)))
        (fun err => setSyncStatus error ;; setSyncError (Some err))
  end.

(** [handleCheckIn] (App.tsx, 341-363). *)
Definition handleCheckIn (studentId_ : string) : M unit :=
  st <- get_app ;;
  if existsb (fun s => String.eqb (studentId s) studentId_) (activeSessions st)
  then ret tt
  else
    now <- new_Date ;;
    try_catch
      (if connected st then
         error <- supabase_insert studentId_ now ;;
         match error with
         | Some e => throw e
         | None => ret tt
         end
       else
         let student :=
           find (fun s => String.eqb (Patron.id s) studentId_) (patrons st) in
         stamp <- new_Date ;;
         let tempId := ("local-" ++ Js.to_string stamp)%string in
         let newSession :=
           mkSession tempId studentId_ (option_map Patron.name student) now
                     None None None None in
         setActiveSessions (fun prev => (prev ++ [newSession])%list) ;;
         setTodaySessions (fun prev => (prev ++ [newSession])%list))
      (fun err => setSyncStatus error ;; setSyncError (Some err)).

(** [fetchData] (App.tsx, 208-296).  The rows of [patrons] and [settings],
    which other parts of the console own, are arguments; [startOfDay] is
    local midnight of the day of the call. *)
Definition fetchData (silent : bool) (startOfDay : Z)
    (patronRes : list Patron.t) (settingsRes : option AppSettings) : M unit :=
  st <- get_app ;;
  if demoMode st || negb (isSupabaseConfigured env) then
    (if (List.length (patrons st) =? 0)%nat then setPatrons MOCK_STUDENTS else ret tt) ;;
    setSyncStatus offline
  else
    (if negb silent then setSyncStatus syncing else ret tt) ;;
    try_catch
      (k <- next_call ;;
       match remote_error env k with
       | Some e => throw e
       | None =>
           tbl <- (fun w => (Normal (sessions_table w), w)) ;;
           setPatrons patronRes ;;
           setActiveSessions (fun _ => map active_of_row (Remote.select_active tbl)) ;;
           setSessionHistory (fun _ => map history_of_row (Remote.select_history tbl)) ;;
           setTodaySessions (fun _ => map today_of_row (Remote.select_today startOfDay tbl)) ;;
           match settingsRes with
           | Some a => setAppSettings a
           | None => ret tt
           end ;;
           setSyncStatus online ;;
           t <- new_Date ;;
           setLastSync t
       end)
      (fun err => setSyncStatus error ;; setSyncError (Some err)).

(** [saveGlobalSettings] (App.tsx, 365-388): offline the cell is set; online
    the row is written and comes back through [fetchData]. *)
Definition saveGlobalSettings (newSettings : AppSettings) : M unit :=
  st <- get_app ;;
  if demoMode st || negb (isSupabaseConfigured env) then setAppSettings newSettings
  else
    k <- next_call ;;
    match remote_error env k with
    | Some e => setSyncStatus error ;; setSyncError (Some e)
    | None => ret tt
    end.

(** [sendOverdueAlert] (notificationService.ts, 10-41).  The first event
    records the call itself. *)
Definition sendOverdueAlert (student : Patron.t) (durationMins : Z)
    (librarianEmail : string) : M unit :=
  emit (OverdueAlert (Patron.id student) durationMins librarianEmail) ;;
  k <- next_call ;;
  try_catch
    ((if notification_granted env then
        match notification_throws env k with
        | Some e => throw e
        | None =>
            emit (BrowserNotification (Patron.id student)
                    (durationMins / 60) (Z.rem durationMins 60))
        end
      else ret tt) ;;
     if isSupabaseConfigured env && Js.truthy librarianEmail
        && negb (String.eqb librarianEmail "undefined")
     then
       try_catch
         (emit (EdgeFunctionInvoke (Patron.id student) durationMins librarianEmail) ;;
          match invoke_reply env k with
          | InvokeData => emit ConsoleLog
          | InvokeError e => throw e
          | InvokeRejects e => throw e
          end)
         (fun err => emit (ConsoleWarn err))
     else ret tt)
    (fun globalErr => emit (ConsoleError globalErr)).

(** The body of the loop of [monitor] (App.tsx, 396-412).  [st] is the
    render the timer callback closed over. *)
Definition monitor_body (st : AppState) (now : Z) (session : Session) : M unit :=
  let durationMins := Js.minutes_between now (checkIn session) in
  if Js.lt durationMins 0 then ret tt
  else if autoCheckoutEnabled (appSettings st)
          && Js.ge durationMins (inject_Z (autoCheckoutHours (appSettings st) * 60))
  then handleCheckOut (id session) (Some AUTO_CHECKOUT_NOTE)
  else if enabled (notifications (appSettings st))
          && alert_pending session
          && Js.ge durationMins
               (inject_Z (thresholdMinutes (notifications (appSettings st))))
  then
    match find (fun p => String.eqb (Patron.id p) (studentId session)) (patrons st) with
    | Some patron =>
        sendOverdueAlert patron (Js.Math_floor durationMins)
          (email (notifications (appSettings st))) ;;
        if negb (demoMode st)
        then _ <- supabase_update (id session) Remote.flag_alert ;; ret tt
        else ret tt
    | None => ret tt
    end
  else ret tt.

(** [monitor] (App.tsx, 391-413), one tick of the timer. *)
Definition monitor : M unit :=
  st <- get_app ;;
  let current := activeSessions st in
  if (List.length current =? 0)%nat then ret tt
  else
    now <- new_Date ;;
    for_of current (monitor_body st now).

End Handlers.

(** The local close of the offline branch of [handleCheckOut]. *)
Definition close_locally (sessionId : string) (closed : Session) (st : AppState) : AppState :=
  with_todaySessions (map (fun s => if has_id sessionId s then closed else s))
    (with_sessionHistory (cons closed)
       (with_activeSessions (filter (fun s => negb (has_id sessionId s))) st)).

Definition checkout_duration (now : Z) (s : Session) : Z :=
  Z.max 1 (Js.Math_round (Js.minutes_between now (checkIn s))).

Definition sync_failed (e : string) (st : AppState) : AppState :=
  with_syncError (Some e) (with_syncStatus error st).

(** The session the offline branch of [handleCheckIn] creates. *)
Definition newSession (env : Env) (w : World) (studentId_ : string) : Session :=
  mkSession ("local-" ++ Js.to_string (clock env (S (calls w))))%string studentId_
    (option_map Patron.name
       (find (fun s => String.eqb (Patron.id s) studentId_) (patrons (app w))))
    (clock env (calls w)) None None None None.

(** ** Occupancy figures ([Dashboard.tsx], 66-69) *)

Module Dashboard.

(** The value of a numeric expression: a rational, or one of the three
    special values a division by zero brings in. *)
Inductive number : Type :=
| Finite (q : Q)
| Infinity
| NegInfinity
| NaN.

(** [a / b] on integral operands. *)
Definition div (a b : Z) : number :=
  if b =? 0 then
    (if a =? 0 then NaN else if 0 <? a then Infinity else NegInfinity)
  else Finite (inject_Z a / inject_Z b)%Q.

(** [x * 100] *)
Definition times100 (x : number) : number :=
  match x with
  | Finite q => Finite (q * 100)%Q
  | other => other
  end.

(** [Math.min(x, 100)] *)
Definition min100 (x : number) : number :=
  match x with
  | Finite q => if Qle_bool q 100 then Finite q else Finite 100
  | Infinity => Finite 100
  | NegInfinity => NegInfinity
  | NaN => NaN
  end.

Definition capacity (appSettings : AppSettings) : Z := dailyCapacity appSettings.

Definition remainingSeats (activeSessions : list Session) (appSettings : AppSettings) : Z :=
  Z.max 0 (capacity appSettings - Z.of_nat (List.length activeSessions)).

Definition occupancyPercentage (activeSessions : list Session)
    (appSettings : AppSettings) : number :=
  min100 (times100 (div (Z.of_nat (List.length activeSessions)) (capacity appSettings))).

(** [getStudent] and the counters of lines 71-92. *)
Definition getStudent (students : list Patron.t) (id_ : string) : option Patron.t :=
  find (fun s => String.eqb (Patron.id s) id_) students.

Definition is_student (students : list Patron.t) (s : Session) : bool :=
  match getStudent students (studentId s) with
  | Some p => match Patron.category p with Student => true | _ => false end
  | None => false
  end.

Definition activeStudentsCount (activeSessions : list Session)
    (students : list Patron.t) : Z :=
  Z.of_nat (List.length (filter (is_student students) activeSessions)).

Definition activeOthersCount (activeSessions : list Session)
    (students : list Patron.t) : Z :=
  Z.of_nat (List.length activeSessions) - activeStudentsCount activeSessions students.

Definition todayVisits (todaySessions : list Session) : Z :=
  Z.of_nat (List.length todaySessions).

(** The object [{ Student, Staff, Visitor }] of [visitsByCategory]. *)
Record Visits : Type := mkVisits {
  of_Student : Z;
  of_Staff : Z;
  of_Visitor : Z
}.

(** One turn of the [forEach]: [cat === 'Student'], else
    [cat?.includes('Staff')] (the two staff categories), else visitor, which
    is also where a session of an unknown patron goes. *)
Definition count_visit (students : list Patron.t) (stats : Visits) (session : Session)
    : Visits :=
  match option_map Patron.category (getStudent students (studentId session)) with
  | Some Student =>
      mkVisits (of_Student stats + 1) (of_Staff stats) (of_Visitor stats)
  | Some AcademicStaff | Some NonAcademicStaff =>
      mkVisits (of_Student stats) (of_Staff stats + 1) (of_Visitor stats)
  | Some ExternalVisitor | None =>
      mkVisits (of_Student stats) (of_Staff stats) (of_Visitor stats + 1)
  end.

Definition visitsByCategory (todaySessions : list Session)
    (students : list Patron.t) : Visits :=
  fold_left (count_visit students) todaySessions (mkVisits 0 0 0).

End Dashboard.

(** ** Runs of the console *)

(** A session is active when its check-out is absent. *)
Definition is_active (s : Session) : bool :=
  match checkOut s with None => true | Some _ => false end.

(** What can happen to the store: the lifecycle calls, a tick of the monitor,
    a resynchronisation (the change feed calls [fetchData (true)]), a change
    of the settings, and the two switches of [demoMode] (sign-out, login). *)
Inductive Op : Type :=
| CheckIn (studentId : string)
| CheckOut (sessionId : string) (notes : option string)
| Tick
| Fetch (silent : bool) (startOfDay : Z) (patronRes : list Patron.t)
        (settingsRes : option AppSettings)
| SaveSettings (newSettings : AppSettings)
| SignOut
| Login.

Definition run_op (env : Env) (op : Op) : M unit :=
  match op with
  | CheckIn p => handleCheckIn env p
  | CheckOut sid notes => handleCheckOut env sid notes
  | Tick => monitor env
  | Fetch silent startOfDay patronRes settingsRes =>
      fetchData env silent startOfDay patronRes settingsRes
  | SaveSettings a => saveGlobalSettings env a
  | SignOut => setDemoMode true
  | Login => setDemoMode false
  end.

Definition exec (env : Env) (ops : list Op) (w : World) : World :=
  fold_left (fun w op => snd (run_op env op w)) ops w.

(** The console at start-up, over a hosted relation holding [tbl]. *)
Definition initial (env : Env) (tbl : list SessionRow.t) : World :=
  mkWorld
    (mkAppState [] [] [] [] (negb (isSupabaseConfigured env)) online None
       (clock env 0) DEFAULT_SETTINGS)
    tbl 1 [].

Inductive reachable (env : Env) (tbl : list SessionRow.t) : World -> Prop :=
| reachable_initial : reachable env tbl (initial env tbl)
| reachable_step w op :
    reachable env tbl w -> reachable env tbl (snd (run_op env op w)).

(** At most one active session per patron, in each view of the store. *)
Definition one_active_per_patron (w : World) : Prop :=
  NoDup (map studentId (filter is_active (activeSessions (app w)))) /\
  NoDup (map studentId (filter is_active (todaySessions (app w)))) /\
  NoDup (map SessionRow.patron_id (Remote.select_active (sessions_table w))).

(** The local active set shows every open row of the hosted relation. *)
Definition sees_open_rows (w : World) : Prop :=
  forall r, In r (Remote.select_active (sessions_table w)) ->
            In (SessionRow.patron_id r) (map studentId (activeSessions (app w))).

(** Runs in which a check-in sent to the hosted store is only issued from a
    local view that shows every open row. *)
Inductive reachable_in_step (env : Env) (tbl : list SessionRow.t) : World -> Prop :=
| in_step_initial : reachable_in_step env tbl (initial env tbl)
| in_step_check_in w p :
    reachable_in_step env tbl w ->
    (connected env (app w) = true -> sees_open_rows w) ->
    reachable_in_step env tbl (snd (handleCheckIn env p w))
| in_step_other w op :
    reachable_in_step env tbl w ->
    (forall p, op <> CheckIn p) ->
    reachable_in_step env tbl (snd (run_op env op w)).

(** The guards of the loop body, on integers. *)
Definition skew (now : Z) (s : Session) : bool := now <? checkIn s.

Definition auto_due (st : AppState) (now : Z) (s : Session) : bool :=
  autoCheckoutEnabled (appSettings st)
  && (autoCheckoutHours (appSettings st) * 60 * 60000 <=? now - checkIn s).

Definition alert_due (st : AppState) (now : Z) (s : Session) : bool :=
  enabled (notifications (appSettings st)) && alert_pending s
  && (thresholdMinutes (notifications (appSettings st)) * 60000 <=? now - checkIn s).

(** A row closed by the automatic check-out of [s]. *)
Definition auto_closed (s : Session) (r : SessionRow.t) : Prop :=
  exists t, SessionRow.check_out r = Some t /\
            SessionRow.duration r = Some (checkout_duration t s) /\
            SessionRow.notes r = Some AUTO_CHECKOUT_NOTE.

(** The calls of the alert dispatcher recorded in a log. *)
Definition is_alert_call (e : Event) : bool :=
  match e with OverdueAlert _ _ _ => true | _ => false end.

Definition alert_calls (l : list Event) : list Event := filter is_alert_call l.

(** Two outside worlds that differ at most in what the browser notification
    and the edge function do. *)
Definition same_but_delivery (e1 e2 : Env) : Prop :=
  isSupabaseConfigured e1 = isSupabaseConfigured e2 /\
  (forall k, clock e1 k = clock e2 k) /\
  (forall k, remote_error e1 k = remote_error e2 k) /\
  (forall k, gen_random_uuid e1 k = gen_random_uuid e2 k).

(** Two worlds that agree but for the log, whose alert calls they share. *)
Definition agree (a b : World) : Prop :=
  app a = app b /\ sessions_table a = sessions_table b /\ calls a = calls b /\
  alert_calls (log a) = alert_calls (log b).

(** ** Concrete runs *)

Module Scenario.

Definition minutes (m : Z) : Z := m * 60000.

(** An outside world in which the store and the delivery never fail and the
    clock shows [times]. *)
Definition quiet (times : nat -> Z) : Env :=
  mkEnv true times (fun _ => None)
    (fun k => ("uuid-" ++ Js.to_string (Z.of_nat k))%string)
    false (fun _ => None) (fun _ => InvokeData).

(** Check-in at 0, a tick at 181 minutes, a tick at 182 minutes. *)
Definition clockB (k : nat) : Z :=
  match k with
  | 0%nat | 1%nat | 2%nat => 0
  | 3%nat | 4%nat => minutes 181
  | _ => minutes 182
  end.

Definition envB : Env := quiet clockB.

(** Offline start: sign-out, the mock patrons, one check-in. *)
Definition offline_check_in : list Op :=
  [SignOut; Fetch true 0 [] None; CheckIn "ST-001"].

(** A clock that advances by one minute at each reading. *)
Definition every_minute (k : nat) : Z := minutes (Z.of_nat k).

Definition envS : Env := quiet every_minute.

(** The state after the offline check-in, and the session it created. *)
Definition checked_in : World := exec envB offline_check_in (initial envB []).

Definition john : Session :=
  mkSession "local-0" "ST-001" (Some "John Doe") 0 None None None None.

(** The same with automatic check-out after one hour. *)
Definition one_hour_limit : AppSettings :=
  mkAppSettings 120 true true 1 (mkNotificationSettings true "bhfnmtclibrary@gmail.com" 180).

Definition checked_in_limited : World :=
  exec envB [SignOut; Fetch true 0 [] None; SaveSettings one_hour_limit; CheckIn "ST-001"]
    (initial envB []).

(** A clock that falls back: check-in at minute 10, tick at minute 5. *)
Definition clockK (k : nat) : Z :=
  match k with
  | 1%nat | 2%nat => minutes 10
  | _ => minutes 5
  end.

Definition envK : Env := quiet clockK.

Definition checked_in_ahead : World := exec envK offline_check_in (initial envK []).

Definition john_ahead : Session :=
  mkSession "local-600000" "ST-001" (Some "John Doe") 600000 None None None None.

(** Online: one check-in, then the resynchronisation. *)
Definition online_checked_in : World :=
  exec envS [CheckIn "ST-001"; Fetch true 0 MOCK_STUDENTS None] (initial envS []).

(** A store that refuses every request, and a browser that shows
    notifications. *)
Definition failing : Env :=
  mkEnv true every_minute (fun _ => Some "network down")
    (fun k => ("uuid-" ++ Js.to_string (Z.of_nat k))%string)
    false (fun _ => None) (fun _ => InvokeData).

Definition notifying : Env :=
  mkEnv false clockB (fun _ => None)
    (fun k => ("uuid-" ++ Js.to_string (Z.of_nat k))%string)
    true (fun _ => None) (fun _ => InvokeData).

Definition jane : Patron.t :=
  Patron.mk "ST-002" Student "Jane Smith" "jane@example.com"
    (Some "https://picsum.photos/seed/jane/200").

(** Online: one check-in, not yet resynchronised. *)
Definition online_before_refresh : World :=
  exec envS [CheckIn "ST-001"] (initial envS []).

End Scenario.

(** The invariant of the three views of the store: the active set holds
    active sessions only, of pairwise distinct patrons; so do the active
    entries of today's list, each of which is in the active set by id and
    patron; and the open rows of the hosted relation have pairwise distinct
    patrons. *)
Definition store_inv (active today : list Session) (tbl : list SessionRow.t) : Prop :=
  Forall (fun s => is_active s = true) active /\
  NoDup (map studentId active) /\
  NoDup (map studentId (filter is_active today)) /\
  (forall x, In x today -> is_active x = true ->
     exists y, In y active /\ id y = id x /\ studentId y = studentId x) /\
  NoDup (map SessionRow.patron_id (Remote.select_active tbl)).

Definition Inv (w : World) : Prop :=
  store_inv (activeSessions (app w)) (todaySessions (app w)) (sessions_table w).

(** A clock whose readings strictly increase. *)
Definition advancing (env : Env) : Prop :=
  forall i j, (i < j)%nat -> clock env i < clock env j.

(** The ids of the active set are pairwise distinct, each made offline from
    a clock reading already consumed. *)
Definition local_ids (env : Env) (w : World) : Prop :=
  NoDup (map id (activeSessions (app w))) /\
  forall s, In s (activeSessions (app w)) ->
    exists k, (k < calls w)%nat /\
              id s = ("local-" ++ Js.to_string (clock env k))%string.

(** ** The cards of the active sessions ([ActiveSessions.tsx]) *)

Module ActiveSessions.

(** The three numbers [formatDuration] renders as [h m s]. *)
Definition duration_parts (now checkIn : Z) : Z * Z * Z :=
  let diff := now - checkIn in
  (Js.Math_floor (inject_Z diff / 3600000),
   Js.Math_floor (inject_Z (Z.rem diff 3600000) / 60000),
   Js.Math_floor (inject_Z (Z.rem diff 60000) / 1000)).

Definition formatDuration (now checkIn : Z) : string :=
  let '(hours, mins, secs) := duration_parts now checkIn in
  (Js.to_string hours ++ "h " ++ Js.to_string mins ++ "m "
   ++ Js.to_string secs ++ "s")%string.

(** [remainingMs] and the two numbers [getTimeRemaining] renders. *)
Definition remainingMs (now checkIn limitHours : Z) : Z :=
  Z.max 0 (limitHours * 3600000 - (now - checkIn)).

Definition remaining_parts (now checkIn limitHours : Z) : Z * Z :=
  let r := remainingMs now checkIn limitHours in
  (Js.Math_floor (inject_Z r / 60000),
   Js.Math_floor (inject_Z (Z.rem r 60000) / 1000)).

Definition getTimeRemaining (now checkIn limitHours : Z) : string :=
  let '(mins, secs) := remaining_parts now checkIn limitHours in
  (Js.to_string mins ++ "m " ++ Js.to_string secs ++ "s")%string.

(** The flags of a card (lines 84-89). *)
Definition durationMins (now : Z) (session : Session) : Z :=
  Js.Math_floor (Js.minutes_between now (checkIn session)).

Definition isOverdue (appSettings : AppSettings) (now : Z) (session : Session) : bool :=
  thresholdMinutes (notifications appSettings) <=? durationMins now session.

Definition isNearingLimit (appSettings : AppSettings) (now : Z) (session : Session)
    : bool :=
  autoCheckoutEnabled appSettings
  && (autoCheckoutHours appSettings * 60 - durationMins now session <=? 30)
  && (0 <? autoCheckoutHours appSettings * 60 - durationMins now session).

(** [handleQuickOut]: the cell [confirmingId] after the click, and what the
    click does to the store. *)
Definition handleQuickOut (env : Env) (confirmingId : option string)
    (sessionId : string) : option string * M unit :=
  match confirmingId with
  | Some c =>
      if String.eqb c sessionId
      then (None, handleCheckOut env sessionId None)
      else (Some sessionId, ret tt)
  | None => (Some sessionId, ret tt)
  end.

End ActiveSessions.

(** ** The check-in desk ([CheckIn.tsx]) *)

Module CheckIn.

(** [getDuration]: [mins] and the two numbers of [display]. *)
Definition getDuration (now checkIn : Z) : Z * (Z * Z) :=
  let diff := now - checkIn in
  let mins := Js.Math_floor (inject_Z diff / 60000) in
  let hrs := Js.Math_floor (inject_Z mins / 60) in
  let m := Z.rem mins 60 in
  (mins, (hrs, m)).

(** What a scanned badge does once its patron is found in the registry
    (the [try] block of [onScanSuccess]): check-out of the patron's session
    if the active set has one, check-in otherwise. *)
Definition scan_action (env : Env) (student : Patron.t) : M unit :=
  bind get_app (fun st =>
    match find (fun s => String.eqb (studentId s) (Patron.id student))
               (activeSessions st) with
    | Some activeSession =>
        handleCheckOut env (id activeSession) (Some "Badge Scanner Checkout")
    | None => handleCheckIn env (Patron.id student)
    end).

End CheckIn.

(** ** The connection probe ([lib/supabase.ts]) *)

Module Supabase.

(** [s.includes(sub)] *)
Fixpoint includes (s sub : string) : bool :=
  String.prefix sub s
  || match s with
     | EmptyString => false
     | String _ rest => includes rest sub
     end.

Definition quote : string := String (Ascii.ascii_of_nat 34) EmptyString.

Definition SCHEMA_MISSING_MARK : string :=
  ("relation " ++ quote ++ "patrons" ++ quote ++ " does not exist")%string.

(** [verifyDatabaseConnection]: the probe query replies through the same
    oracle as the other requests. *)
Definition verifyDatabaseConnection (env : Env) : M (bool * string) :=
  if negb (isSupabaseConfigured env)
  then ret (false, "Supabase configuration missing.")
  else
    try_catch
      (bind next_call (fun k =>
         match remote_error env k with
         | Some message =>
             if includes message SCHEMA_MISSING_MARK
             then ret (false, "Schema missing. Please run the SQL setup.")
             else throw message
         | None => ret (true, "Cloud Database Connected")
         end))
      (fun message =>
         ret (false, if Js.truthy message then message else "Connection failed.")).

End Supabase.

(** The table rows keep their place and their identity. *)
Definition same_identity (r r' : SessionRow.t) : Prop :=
  SessionRow.id r' = SessionRow.id r /\ SessionRow.patron_id r' = SessionRow.patron_id r /\
  SessionRow.check_in r' = SessionRow.check_in r /\
  (SessionRow.check_out r <> None -> SessionRow.check_out r' <> None) /\
  (SessionRow.alert_triggered r = true -> SessionRow.alert_triggered r' = true).

Definition grows_from (tbl tbl' : list SessionRow.t) : Prop :=
  exists changed added,
    tbl' = (changed ++ added)%list /\ Forall2 same_identity tbl changed.

(** A closed record carries a duration of at least a minute and a note that
    is not empty; an open record carries neither. *)
Definition closing_fields (check_out duration : option Z) (notes : option string)
    : Prop :=
  match check_out with
  | Some _ =>
      (exists d, duration = Some d /\ 1 <= d) /\
      (exists n, notes = Some n /\ n <> EmptyString)
  | None => duration = None /\ notes = None
  end.

Definition row_well_formed (r : SessionRow.t) : Prop :=
  closing_fields (SessionRow.check_out r) (SessionRow.duration r) (SessionRow.notes r).

Definition session_well_formed (s : Session) : Prop :=
  closing_fields (checkOut s) (duration s) (notes s).

Definition well_formed (w : World) : Prop :=
  Forall row_well_formed (sessions_table w) /\
  Forall session_well_formed (activeSessions (app w)) /\
  Forall session_well_formed (sessionHistory (app w)) /\
  Forall session_well_formed (todaySessions (app w)) /\
  Forall (fun s => is_active s = false) (sessionHistory (app w)).

(** The condition under which [sendOverdueAlert] calls the edge function. *)
Definition mail_gate (env : Env) (librarianEmail : string) : bool :=
  isSupabaseConfigured env && Js.truthy librarianEmail
  && negb (String.eqb librarianEmail "undefined").

Definition is_invoke (e : Event) : bool :=
  match e with EdgeFunctionInvoke _ _ _ => true | _ => false end.

Definition is_notification (e : Event) : bool :=
  match e with BrowserNotification _ _ _ => true | _ => false end.

(** What a call of the dispatcher made at a tick must look like: it goes to
    the configured address, for a registered patron, for a session of the
    snapshot whose flag is not set, with the whole minutes elapsed, which
    have reached the threshold. *)
Definition alert_justified (st : AppState) (now : Z) (snapshot : list Session)
    (e : Event) : Prop :=
  match e with
  | OverdueAlert sid mins recipient =>
      enabled (notifications (appSettings st)) = true /\
      recipient = email (notifications (appSettings st)) /\
      thresholdMinutes (notifications (appSettings st)) <= mins /\
      (exists p, In p (patrons st) /\ Patron.id p = sid) /\
      (exists s, In s snapshot /\ studentId s = sid /\
                 mins = (now - checkIn s) / 60000 /\ alert_pending s = true)
  | _ => True
  end.

(** The time a closed session was closed at. *)
Definition closed_at (s : Session) : Z :=
  match checkOut s with Some t => t | None => 0 end.

(** Most recent first. *)
Definition later_row (a b : SessionRow.t) : Prop :=
  Remote.check_out_key b <= Remote.check_out_key a.

Definition later_first (a b : Session) : Prop := closed_at b <= closed_at a.

(** The three classes the dashboard sorts a visit into. *)
Definition category_of (students : list Patron.t) (s : Session)
    : option PatronCategory :=
  option_map Patron.category (Dashboard.getStudent students (studentId s)).

Definition counts_as_student (students : list Patron.t) (s : Session) : bool :=
  match category_of students s with Some Student => true | _ => false end.

Definition counts_as_staff (students : list Patron.t) (s : Session) : bool :=
  match category_of students s with
  | Some AcademicStaff | Some NonAcademicStaff => true
  | _ => false
  end.

Definition counts_as_visitor (students : list Patron.t) (s : Session) : bool :=
  match category_of students s with
  | Some ExternalVisitor | None => true
  | _ => false
  end.

Definition count (p : Session -> bool) (l : list Session) : Z :=
  Z.of_nat (List.length (filter p l)).

(** * Properties *)

Module JsFacts.

Lemma Math_floor_minutes (a b : Z) :
  Js.Math_floor (Js.minutes_between a b) = (a - b) / 60000.
Proof.
  unfold Js.Math_floor, Js.minutes_between, Qdiv, Qmult, Qinv, inject_Z. cbn.
  rewrite Z.mul_1_r. reflexivity.
Qed.

Lemma Math_round_minutes (a b : Z) :
  Js.Math_round (Js.minutes_between a b) = (a - b + 30000) / 60000.
Proof.
  unfold Js.Math_round, Js.minutes_between, Qdiv, Qmult, Qinv, Qplus, inject_Z. cbn.
  rewrite Z.mul_1_r.
  replace ((a - b) * 2 + 60000) with ((a - b + 30000) * 2) by lia.
  change 120000 with (60000 * 2).
  apply Z.div_mul_cancel_r; lia.
Qed.

Lemma lt_minutes_0 (a b : Z) :
  Js.lt (Js.minutes_between a b) 0 = (a <? b).
Proof.
  unfold Js.lt, Js.minutes_between, Qle_bool, Qdiv, Qmult, Qinv, inject_Z. cbn.
  destruct (Z.ltb_spec a b), (Z.leb_spec 0 ((a - b) * 1 * 1)); simpl; try reflexivity; lia.
Qed.

Lemma ge_minutes (a b m : Z) :
  Js.ge (Js.minutes_between a b) (inject_Z m) = (m * 60000 <=? a - b).
Proof.
  unfold Js.ge, Js.minutes_between, Qle_bool, Qdiv, Qmult, Qinv, inject_Z. cbn.
  destruct (Z.leb_spec (m * 60000) ((a - b) * 1 * 1)), (Z.leb_spec (m * 60000) (a - b));
    try reflexivity; lia.
Qed.

End JsFacts.

(** ** What one call of a handler does *)

Ltac run_m :=
  unfold bind, ret, throw, try_catch, get_app, modify_app, modify_table,
    new_Date, next_call, emit, setActiveSessions, setSessionHistory,
    setTodaySessions, setSyncStatus, setSyncError, setPatrons, setLastSync,
    setAppSettings, setDemoMode; cbn.

Section HandlerFacts.

Variable env : Env.

Lemma handleCheckOut_not_found sessionId notes w :
  find (has_id sessionId) (activeSessions (app w)) = None ->
  handleCheckOut env sessionId notes w = (Normal tt, w).
Proof.
  intros H. unfold handleCheckOut. run_m. rewrite H. reflexivity.
Qed.

Lemma handleCheckOut_offline sessionId notes w s :
  find (has_id sessionId) (activeSessions (app w)) = Some s ->
  connected env (app w) = false ->
  handleCheckOut env sessionId notes w =
  (Normal tt,
   mkWorld
     (close_locally sessionId
        (closedSession s (clock env (calls w))
           (checkout_duration (clock env (calls w)) s)
           (Js.or_default notes MANUAL_CHECKOUT_NOTE))
        (app w))
     (sessions_table w) (S (calls w)) (log w)).
Proof.
  intros H Hc. unfold handleCheckOut. run_m. rewrite H. run_m. rewrite Hc.
  reflexivity.
Qed.

Lemma handleCheckOut_online_ok sessionId notes w s :
  find (has_id sessionId) (activeSessions (app w)) = Some s ->
  connected env (app w) = true ->
  remote_error env (S (calls w)) = None ->
  handleCheckOut env sessionId notes w =
  (Normal tt,
   mkWorld (app w)
     (Remote.update_eq_id sessionId
        (Remote.close (clock env (calls w))
           (checkout_duration (clock env (calls w)) s)
           (Js.or_default notes MANUAL_CHECKOUT_NOTE))
        (sessions_table w))
     (S (S (calls w))) (log w)).
Proof.
  intros H Hc Hr. unfold handleCheckOut. run_m. rewrite H. run_m. rewrite Hc.
  unfold supabase_update. run_m. rewrite Hr. reflexivity.
Qed.

Lemma handleCheckOut_online_error sessionId notes w s e :
  find (has_id sessionId) (activeSessions (app w)) = Some s ->
  connected env (app w) = true ->
  remote_error env (S (calls w)) = Some e ->
  handleCheckOut env sessionId notes w =
  (Normal tt,
   mkWorld (sync_failed e (app w)) (sessions_table w) (S (S (calls w))) (log w)).
Proof.
  intros H Hc Hr. unfold handleCheckOut. run_m. rewrite H. run_m. rewrite Hc.
  unfold supabase_update. run_m. rewrite Hr. reflexivity.
Qed.

Lemma handleCheckOut_Normal sessionId notes w :
  fst (handleCheckOut env sessionId notes w) = Normal tt.
Proof.
  destruct (find (has_id sessionId) (activeSessions (app w))) as [s|] eqn:H.
  - destruct (connected env (app w)) eqn:Hc.
    + destruct (remote_error env (S (calls w))) as [e|] eqn:Hr.
      * erewrite handleCheckOut_online_error; eauto.
      * erewrite handleCheckOut_online_ok; eauto.
    + erewrite handleCheckOut_offline; eauto.
  - rewrite handleCheckOut_not_found; auto.
Qed.

Lemma handleCheckIn_guard studentId_ w :
  existsb (fun s => String.eqb (studentId s) studentId_) (activeSessions (app w)) = true ->
  handleCheckIn env studentId_ w = (Normal tt, w).
Proof.
  intros H. unfold handleCheckIn. run_m. rewrite H. reflexivity.
Qed.

Lemma handleCheckIn_offline studentId_ w :
  existsb (fun s => String.eqb (studentId s) studentId_) (activeSessions (app w)) = false ->
  connected env (app w) = false ->
  handleCheckIn env studentId_ w =
  (Normal tt,
   mkWorld
     (with_todaySessions (fun prev => prev ++ [newSession env w studentId_])%list
        (with_activeSessions (fun prev => prev ++ [newSession env w studentId_])%list (app w)))
     (sessions_table w) (S (S (calls w))) (log w)).
Proof.
  intros H Hc. unfold handleCheckIn. run_m. rewrite H. run_m. rewrite Hc.
  reflexivity.
Qed.

Lemma handleCheckIn_online_ok studentId_ w :
  existsb (fun s => String.eqb (studentId s) studentId_) (activeSessions (app w)) = false ->
  connected env (app w) = true ->
  remote_error env (S (calls w)) = None ->
  handleCheckIn env studentId_ w =
  (Normal tt,
   mkWorld (app w)
     (Remote.insert (gen_random_uuid env (S (calls w))) studentId_
        (clock env (calls w)) (sessions_table w))
     (S (S (calls w))) (log w)).
Proof.
  intros H Hc Hr. unfold handleCheckIn. run_m. rewrite H. run_m. rewrite Hc.
  unfold supabase_insert. run_m. rewrite Hr. reflexivity.
Qed.

Lemma handleCheckIn_online_error studentId_ w e :
  existsb (fun s => String.eqb (studentId s) studentId_) (activeSessions (app w)) = false ->
  connected env (app w) = true ->
  remote_error env (S (calls w)) = Some e ->
  handleCheckIn env studentId_ w =
  (Normal tt,
   mkWorld (sync_failed e (app w)) (sessions_table w) (S (S (calls w))) (log w)).
Proof.
  intros H Hc Hr. unfold handleCheckIn. run_m. rewrite H. run_m. rewrite Hc.
  unfold supabase_insert. run_m. rewrite Hr. reflexivity.
Qed.

End HandlerFacts.

Section FetchFacts.

Variable env : Env.

Lemma connected_true st :
  connected env st = true -> demoMode st = false /\ isSupabaseConfigured env = true.
Proof.
  unfold connected. destruct (demoMode st), (isSupabaseConfigured env); simpl; intuition congruence.
Qed.

Lemma fetchData_online_ok silent startOfDay patronRes settingsRes w :
  connected env (app w) = true ->
  remote_error env (calls w) = None ->
  let w' := snd (fetchData env silent startOfDay patronRes settingsRes w) in
  activeSessions (app w') = map active_of_row (Remote.select_active (sessions_table w)) /\
  todaySessions (app w') = map today_of_row (Remote.select_today startOfDay (sessions_table w)) /\
  sessionHistory (app w') = map history_of_row (Remote.select_history (sessions_table w)) /\
  demoMode (app w') = demoMode (app w) /\
  sessions_table w' = sessions_table w.
Proof.
  intros Hc Hr. apply connected_true in Hc. destruct Hc as [Hd Hs].
  unfold fetchData. run_m. rewrite Hd, Hs. cbn.
  destruct silent, settingsRes; run_m; rewrite Hr; cbn; auto.
Qed.

(** Whatever branch [fetchData] takes, the lists of sessions are either left
    as they were or replaced by the projections of the hosted relation. *)
Lemma fetchData_cases silent startOfDay patronRes settingsRes w :
  let w' := snd (fetchData env silent startOfDay patronRes settingsRes w) in
  sessions_table w' = sessions_table w /\
  ((activeSessions (app w') = activeSessions (app w) /\
    todaySessions (app w') = todaySessions (app w)) \/
   (activeSessions (app w') = map active_of_row (Remote.select_active (sessions_table w)) /\
    todaySessions (app w') = map today_of_row (Remote.select_today startOfDay (sessions_table w)))).
Proof.
  unfold fetchData. run_m.
  destruct (demoMode (app w) || negb (isSupabaseConfigured env)).
  - destruct (List.length (patrons (app w)) =? 0)%nat; cbn; auto.
  - destruct silent; cbn; destruct (remote_error env (calls w)); cbn;
      destruct settingsRes; cbn; auto.
Qed.

End FetchFacts.

(** ** Ids and the active set *)

Lemma find_has_id_none_filter sessionId l :
  find (has_id sessionId) (filter (fun s => negb (has_id sessionId s)) l) = None.
Proof.
  induction l as [|x l IH]; simpl; auto.
  destruct (has_id sessionId x) eqn:E; simpl; auto. rewrite E. exact IH.
Qed.

Lemma find_has_id_In sessionId l s :
  find (has_id sessionId) l = Some s -> In s l /\ id s = sessionId.
Proof.
  intros H. apply find_some in H. destruct H as [H1 H2]. split; auto.
  unfold has_id in H2. apply String.eqb_eq. exact H2.
Qed.

(** In a list with pairwise distinct ids each member is the one its id
    resolves to. *)
Lemma find_has_id_unique l s :
  NoDup (map id l) -> In s l -> find (has_id (id s)) l = Some s.
Proof.
  induction l as [|x l IH]; simpl; intros Hnd Hin; [contradiction|].
  inversion Hnd as [|? ? Hx Hl]; subst.
  destruct Hin as [->|Hin].
  - unfold has_id. rewrite String.eqb_refl. reflexivity.
  - destruct (has_id (id s) x) eqn:E.
    + exfalso. apply Hx. unfold has_id in E. apply String.eqb_eq in E.
      rewrite E. apply in_map. exact Hin.
    + auto.
Qed.

Lemma find_active_row_none sessionId note t d tbl :
  find (has_id sessionId)
    (map active_of_row
       (Remote.select_active
          (Remote.update_eq_id sessionId (Remote.close t d note) tbl))) = None.
Proof.
  induction tbl as [|r tbl IH]; simpl; auto.
  destruct (String.eqb (SessionRow.id r) sessionId) eqn:E; simpl.
  - exact IH.
  - destruct (Remote.is_open r); simpl; auto.
    unfold has_id at 1. simpl. rewrite E. exact IH.
Qed.

(** ** Check-in and check-out guards *)

(** C5, as stated, fails online.  Patron ST-001 is checked in: the hosted
    relation holds the open row, the local active set does not show it
    before the next refresh.  Checking the patron in again at that moment is
    accepted and creates a second open row. *)
Lemma check_in_before_refresh_adds_session :
  let w1 := snd (handleCheckIn Scenario.envS "ST-001" (initial Scenario.envS [])) in
  let w2 := snd (handleCheckIn Scenario.envS "ST-001" w1) in
  map (fun r => (SessionRow.patron_id r, SessionRow.check_out r)) (sessions_table w1)
    = [("ST-001", None)] /\
  activeSessions (app w1) = [] /\
  map (fun r => (SessionRow.patron_id r, SessionRow.check_out r)) (sessions_table w2)
    = [("ST-001", None); ("ST-001", None)] /\
  handleCheckIn Scenario.envS "ST-001" w1 <> (Normal tt, w1).
Proof.
  intros w1 w2. repeat split; try (vm_compute; reflexivity).
  intros H.
  apply (f_equal (fun r => List.length (sessions_table (snd r)))) in H.
  vm_compute in H. discriminate.
Qed.

(** C5, amended.  Checking in a patron who has a session in the active set
    of the client does nothing at all: the state, the hosted relation and
    the log after the call are those before it, and the call completes
    normally.  When the active set shows every open row of the hosted
    relation, that covers every patron with an open row. *)
Theorem check_in_of_present_patron_is_noop (env : Env) (w : World) (p : string) :
  ((exists s, In s (activeSessions (app w)) /\ studentId s = p) ->
   handleCheckIn env p w = (Normal tt, w)) /\
  (sees_open_rows w ->
   (exists r, In r (Remote.select_active (sessions_table w)) /\ SessionRow.patron_id r = p) ->
   handleCheckIn env p w = (Normal tt, w)).
Proof.
  assert (Hlocal : (exists s, In s (activeSessions (app w)) /\ studentId s = p) ->
                   handleCheckIn env p w = (Normal tt, w)).
  { intros [s [Hin Hp]]. apply handleCheckIn_guard.
    apply existsb_exists. exists s. split; auto.
    apply String.eqb_eq. exact Hp. }
  split; [exact Hlocal|].
  intros Hsees (r & Hr & Hp). apply Hlocal.
  apply Hsees in Hr. apply in_map_iff in Hr. destruct Hr as (s & Hs & Hin).
  exists s. split; [exact Hin|]. congruence.
Qed.

(** C6, as stated, fails online.  A session is closed (its row carries the
    check-out of minute 5 and a duration of 4 minutes); the local active set
    still lists it before the next refresh.  Checking it out again at that
    moment is accepted and overwrites the row with the time and the duration
    of the second call. *)
Lemma check_out_before_refresh_overwrites :
  let w1 := snd (handleCheckOut Scenario.envS "uuid-2" None Scenario.online_checked_in) in
  let w2 := snd (handleCheckOut Scenario.envS "uuid-2" None w1) in
  map (fun r => (SessionRow.id r, SessionRow.check_out r, SessionRow.duration r)) (sessions_table w1)
    = [("uuid-2", Some (Scenario.minutes 5), Some 4)] /\
  map id (activeSessions (app w1)) = ["uuid-2"] /\
  map (fun r => (SessionRow.id r, SessionRow.check_out r, SessionRow.duration r)) (sessions_table w2)
    = [("uuid-2", Some (Scenario.minutes 7), Some 6)] /\
  handleCheckOut Scenario.envS "uuid-2" None w1 <> (Normal tt, w1).
Proof.
  intros w1 w2. repeat split; try (vm_compute; reflexivity).
  intros H.
  apply (f_equal (fun r => map SessionRow.check_out (sessions_table (snd r)))) in H.
  vm_compute in H. discriminate.
Qed.

(** C6, amended.  Checking out an id that no session of the active set of
    the client carries does nothing: the world after the call is the world
    before it and the call completes normally.  A session that was closed is
    out of the active set at once offline, and online once the local view
    has been refreshed; from then on closing it again, at whatever later
    time, leaves the first close as it was. *)
Theorem check_out_of_absent_session_is_noop
    (env : Env) (w : World) (sessionId : string) (notes notes' : option string) :
  ((forall s, In s (activeSessions (app w)) -> id s <> sessionId) ->
   handleCheckOut env sessionId notes w = (Normal tt, w)) /\
  (connected env (app w) = false ->
   let w1 := snd (handleCheckOut env sessionId notes w) in
   handleCheckOut env sessionId notes' w1 = (Normal tt, w1)) /\
  (forall silent startOfDay patronRes settingsRes s,
   connected env (app w) = true ->
   find (has_id sessionId) (activeSessions (app w)) = Some s ->
   remote_error env (S (calls w)) = None ->
   remote_error env (S (S (calls w))) = None ->
   let w1 := snd (handleCheckOut env sessionId notes w) in
   let w2 := snd (fetchData env silent startOfDay patronRes settingsRes w1) in
   sessions_table w2 = sessions_table w1 /\
   handleCheckOut env sessionId notes' w2 = (Normal tt, w2)).
Proof.
  split; [|split].
  - intros H. apply handleCheckOut_not_found.
    destruct (find (has_id sessionId) (activeSessions (app w))) as [s|] eqn:E; auto.
    apply find_has_id_In in E. destruct E as [Hin Hid].
    exfalso. exact (H s Hin Hid).
  - intros Hc w1. subst w1.
    destruct (find (has_id sessionId) (activeSessions (app w))) as [s|] eqn:E.
    + rewrite (handleCheckOut_offline env _ _ _ _ E Hc). cbn [snd].
      apply handleCheckOut_not_found. cbn. apply find_has_id_none_filter.
    + rewrite (handleCheckOut_not_found env _ _ _ E). cbn [snd].
      apply handleCheckOut_not_found. exact E.
  - intros silent startOfDay patronRes settingsRes s Hc E Hr1 Hr2 w1 w2.
    subst w2 w1.
    rewrite (handleCheckOut_online_ok env _ _ _ _ E Hc Hr1). cbn [snd].
    match goal with
    | |- context [fetchData env ?a ?b ?c ?d ?w0] =>
        destruct (fetchData_online_ok env a b c d w0 Hc Hr2)
          as (Ha & _ & _ & _ & Ht)
    end.
    cbv zeta in Ha, Ht. cbn [sessions_table app calls] in Ha, Ht.
    split; [exact Ht|].
    apply handleCheckOut_not_found. rewrite Ha.
    apply find_active_row_none.
Qed.

(** C2. Closing the session [s] an id resolves to records the duration
    [max (1, round ((now - checkIn) / 60000))], where [now] is the clock
    reading of the call: offline on the closed copy put in front of the
    history, online (when the write succeeds) on every row of that id.  The
    rounding is to the nearest minute, halves upwards, and the duration is
    at least one minute in every case, so in particular when
    [checkIn < now]. *)
Theorem check_out_records_duration
    (env : Env) (w : World) (sessionId : string) (notes : option string) (s : Session) :
  find (has_id sessionId) (activeSessions (app w)) = Some s ->
  let now := clock env (calls w) in
  let d := Z.max 1 (Js.Math_round (inject_Z (now - checkIn s) / 60000)) in
  let w' := snd (handleCheckOut env sessionId notes w) in
  d = Z.max 1 ((now - checkIn s + 30000) / 60000) /\
  (checkIn s < now -> 1 <= d) /\
  (connected env (app w) = false ->
   exists c, sessionHistory (app w') = c :: sessionHistory (app w) /\
             id c = id s /\ checkIn c = checkIn s /\
             checkOut c = Some now /\ duration c = Some d) /\
  (connected env (app w) = true -> remote_error env (S (calls w)) = None ->
   forall r, In r (sessions_table w) -> SessionRow.id r = sessionId ->
   exists r', In r' (sessions_table w') /\ SessionRow.id r' = sessionId /\
              SessionRow.check_in r' = SessionRow.check_in r /\
              SessionRow.check_out r' = Some now /\ SessionRow.duration r' = Some d).
Proof.
  intros E now d w'.
  assert (Hd : d = Z.max 1 ((now - checkIn s + 30000) / 60000)).
  { unfold d. f_equal. apply (JsFacts.Math_round_minutes now (checkIn s)). }
  split; [exact Hd|]. split; [intros _; unfold d; lia|]. split.
  - intros Hc. subst w'. rewrite (handleCheckOut_offline env _ _ _ _ E Hc). cbn.
    eexists. split; [reflexivity|]. cbn. auto.
  - intros Hc Hr r Hin Hid. subst w'.
    rewrite (handleCheckOut_online_ok env _ _ _ _ E Hc Hr). cbn.
    exists (Remote.close now d (Js.or_default notes MANUAL_CHECKOUT_NOTE) r).
    split; [|cbn; auto].
    unfold Remote.update_eq_id. apply in_map_iff. exists r. split; auto.
    rewrite Hid, String.eqb_refl. reflexivity.
Qed.

Lemma filter_out_unique_id sessionId l s :
  NoDup (map id l) ->
  find (has_id sessionId) l = Some s ->
  exists l1 l2, l = (l1 ++ s :: l2)%list /\
                filter (fun x => negb (has_id sessionId x)) l = (l1 ++ l2)%list.
Proof.
  induction l as [|x l IH]; simpl; intros Hnd E; [discriminate|].
  inversion Hnd as [|? ? Hx Hl]; subst.
  destruct (has_id sessionId x) eqn:Ex.
  - injection E as ->. exists [], l. split; auto. simpl.
    assert (Hall : forall y, In y l -> negb (has_id sessionId y) = true).
    { intros y Hy. destruct (has_id sessionId y) eqn:Ey; auto.
      exfalso. apply Hx. unfold has_id in Ex, Ey.
      apply String.eqb_eq in Ex. apply String.eqb_eq in Ey.
      rewrite Ex, <- Ey. apply in_map. exact Hy. }
    clear -Hall. induction l as [|y l IH]; simpl; auto.
    rewrite (Hall y (or_introl eq_refl)). f_equal. apply IH.
    intros z Hz. apply Hall. right. exact Hz.
  - destruct (IH Hl E) as (l1 & l2 & H1 & H2).
    exists (x :: l1), l2. simpl. rewrite <- H1, H2. auto.
Qed.


(** ** The notification service and the monitor, call by call *)

Section MonitorFacts.

Variable env : Env.

(** [sendOverdueAlert] completes normally whatever the browser and the edge
    function do; it touches neither the state nor the hosted relation, and
    uses one reading of the oracle. *)
Lemma sendOverdueAlert_run student durationMins librarianEmail w :
  exists evs,
    sendOverdueAlert env student durationMins librarianEmail w =
    (Normal tt,
     mkWorld (app w) (sessions_table w) (S (calls w))
       (log w ++ OverdueAlert (Patron.id student) durationMins librarianEmail :: evs)) /\
    alert_calls evs = [].
Proof.
  unfold sendOverdueAlert. run_m.
  destruct (notification_granted env);
    [destruct (notification_throws env (calls w))|];
    cbn;
    destruct (isSupabaseConfigured env && Js.truthy librarianEmail
              && negb (String.eqb librarianEmail "undefined"));
    cbn; try destruct (invoke_reply env (calls w)); cbn;
    eexists; rewrite <- ?app_assoc; cbn; (split; [reflexivity|]); reflexivity.
Qed.

Lemma for_of_app {A} (l1 l2 : list A) (body : A -> M unit) w :
  for_of (l1 ++ l2) body w = (for_of l1 body ;; for_of l2 body) w.
Proof.
  revert w. induction l1 as [|x l1 IH]; intros w; simpl.
  - reflexivity.
  - unfold bind. destruct (body x w) as [[[]|e] w1]; auto.
Qed.

(** A loop whose body always completes normally visits every element. *)
Lemma for_of_total {A} (l : list A) (body : A -> M unit) :
  (forall x w, fst (body x w) = Normal tt) ->
  forall w,
    for_of l body w = (Normal tt, fold_left (fun w x => snd (body x w)) l w).
Proof.
  intros Hb. induction l as [|x l IH]; intros w; simpl; auto.
  unfold bind. specialize (Hb x w). destruct (body x w) as [c w1].
  simpl in Hb. subst c. apply IH.
Qed.

Lemma monitor_body_unfold st now s :
  monitor_body env st now s =
  if skew now s then ret tt
  else if auto_due st now s then handleCheckOut env (id s) (Some AUTO_CHECKOUT_NOTE)
  else if alert_due st now s then
    match find (fun p => String.eqb (Patron.id p) (studentId s)) (patrons st) with
    | Some patron =>
        sendOverdueAlert env patron ((now - checkIn s) / 60000)
          (email (notifications (appSettings st))) ;;
        if negb (demoMode st)
        then _ <- supabase_update env (id s) Remote.flag_alert ;; ret tt
        else ret tt
    | None => ret tt
    end
  else ret tt.
Proof.
  unfold monitor_body, skew, auto_due, alert_due.
  rewrite JsFacts.lt_minutes_0, !JsFacts.ge_minutes, JsFacts.Math_floor_minutes.
  reflexivity.
Qed.

Lemma supabase_update_run sessionId patch w :
  exists tbl,
    supabase_update env sessionId patch w =
    (Normal (remote_error env (calls w)),
     mkWorld (app w) tbl (S (calls w)) (log w)) /\
    (tbl = sessions_table w \/ tbl = Remote.update_eq_id sessionId patch (sessions_table w)).
Proof.
  unfold supabase_update. run_m.
  destruct (remote_error env (calls w)); cbn; eexists; split; eauto.
Qed.

Lemma monitor_body_Normal st now s w :
  fst (monitor_body env st now s w) = Normal tt.
Proof.
  rewrite monitor_body_unfold.
  destruct (skew now s); [reflexivity|].
  destruct (auto_due st now s); [apply handleCheckOut_Normal|].
  destruct (alert_due st now s); [|reflexivity].
  destruct (find _ (patrons st)) as [patron|]; [|reflexivity].
  unfold bind at 1.
  destruct (sendOverdueAlert_run patron ((now - checkIn s) / 60000)
              (email (notifications (appSettings st))) w) as (evs & -> & _).
  destruct (negb (demoMode st)); [|reflexivity].
  unfold bind.
  match goal with
  | |- context [supabase_update env ?a ?b ?w0] =>
      destruct (supabase_update_run a b w0) as (tbl & -> & _)
  end.
  reflexivity.
Qed.

Lemma monitor_unfold w :
  monitor env w =
  if (List.length (activeSessions (app w)) =? 0)%nat then (Normal tt, w)
  else for_of (activeSessions (app w))
         (monitor_body env (app w) (clock env (calls w)))
         (mkWorld (app w) (sessions_table w) (S (calls w)) (log w)).
Proof.
  unfold monitor. run_m.
  destruct (List.length (activeSessions (app w)) =? 0)%nat; reflexivity.
Qed.

Lemma monitor_Normal w : fst (monitor env w) = Normal tt.
Proof.
  rewrite monitor_unfold.
  destruct (List.length (activeSessions (app w)) =? 0)%nat; [reflexivity|].
  rewrite for_of_total; [reflexivity|].
  intros x w0. apply monitor_body_Normal.
Qed.

End MonitorFacts.

(** ** Shapes of the world after a call *)

Section Shapes.

Variable env : Env.

(** The four outcomes of [handleCheckOut]. *)
Lemma handleCheckOut_cases sessionId notes w :
  let w' := snd (handleCheckOut env sessionId notes w) in
  (app w' = app w /\ sessions_table w' = sessions_table w) \/
  (exists s closed,
      find (has_id sessionId) (activeSessions (app w)) = Some s /\
      connected env (app w) = false /\
      is_active closed = false /\
      app w' = close_locally sessionId closed (app w) /\
      sessions_table w' = sessions_table w) \/
  (exists t d n,
      connected env (app w) = true /\
      app w' = app w /\
      sessions_table w' =
        Remote.update_eq_id sessionId (Remote.close t d n) (sessions_table w)) \/
  (exists e, app w' = sync_failed e (app w) /\ sessions_table w' = sessions_table w).
Proof.
  destruct (find (has_id sessionId) (activeSessions (app w))) as [s|] eqn:E.
  - destruct (connected env (app w)) eqn:Hc.
    + destruct (remote_error env (S (calls w))) as [e|] eqn:Hr.
      * rewrite (handleCheckOut_online_error env _ _ _ _ _ E Hc Hr). cbn [snd].
        right. right. right. exists e. auto.
      * rewrite (handleCheckOut_online_ok env _ _ _ _ E Hc Hr). cbn [snd].
        right. right. left. do 3 eexists. split; [reflexivity|]. split; reflexivity.
    + rewrite (handleCheckOut_offline env _ _ _ _ E Hc). cbn [snd].
      right. left. do 2 eexists. split; [reflexivity|]. split; [reflexivity|].
      split; [|split; reflexivity]. reflexivity.
  - rewrite (handleCheckOut_not_found env _ _ _ E). left. auto.
Qed.

(** The loop body either is a check-out of the session's id, or leaves the
    state alone and at most raises the alert flag of the rows of that id;
    a check-out adds nothing to the log. *)
Lemma monitor_body_cases st now x w :
  let w' := snd (monitor_body env st now x w) in
  (skew now x = false /\ auto_due st now x = true /\
   w' = snd (handleCheckOut env (id x) (Some AUTO_CHECKOUT_NOTE) w)) \/
  (auto_due st now x && negb (skew now x) = false /\
   app w' = app w /\
   (sessions_table w' = sessions_table w \/
    sessions_table w' =
      Remote.update_eq_id (id x) Remote.flag_alert (sessions_table w))).
Proof.
  rewrite monitor_body_unfold.
  destruct (skew now x); [right; cbn; rewrite andb_false_r; auto|].
  destruct (auto_due st now x); [left; auto|].
  right. split; [reflexivity|].
  destruct (alert_due st now x); [|cbn; auto].
  destruct (find _ (patrons st)) as [patron|]; [|cbn; auto].
  unfold bind.
  destruct (sendOverdueAlert_run env patron ((now - checkIn x) / 60000)
              (email (notifications (appSettings st))) w) as (evs & -> & _).
  destruct (negb (demoMode st)); [|cbn; auto].
  match goal with
  | |- context [supabase_update env ?a ?b ?w0] =>
      destruct (supabase_update_run env a b w0) as (tbl & -> & Ht)
  end.
  cbn. cbn in Ht. auto.
Qed.

Lemma for_of_invariant {A} (P : World -> Prop) (l : list A) (body : A -> M unit) :
  (forall x w, In x l -> P w -> P (snd (body x w))) ->
  forall w, P w -> P (snd (for_of l body w)).
Proof.
  induction l as [|x l IH]; intros Hb w Hw; simpl; auto.
  unfold bind.
  pose proof (Hb x w (or_introl eq_refl) Hw) as H1.
  destruct (body x w) as [[[]|e] w1]; simpl in *; auto.
Qed.

End Shapes.

Lemma lt_iff (q r : Q) : Js.lt q r = true <-> (q < r)%Q.
Proof.
  unfold Js.lt. rewrite negb_true_iff. split; intros H.
  - apply Qnot_le_lt. intros Hle. apply Qle_bool_iff in Hle. congruence.
  - destruct (Qle_bool r q) eqn:E; auto.
    apply Qle_bool_iff in E. exfalso. exact (Qlt_not_le _ _ H E).
Qed.

Lemma ge_iff (q r : Q) : Js.ge q r = true <-> (r <= q)%Q.
Proof. unfold Js.ge. apply Qle_bool_iff. Qed.

Lemma skew_iff now s :
  skew now s = true <-> (Js.minutes_between now (checkIn s) < 0)%Q.
Proof. unfold skew. rewrite <- JsFacts.lt_minutes_0. apply lt_iff. Qed.

Lemma skew_false_iff now s :
  skew now s = false <-> (0 <= Js.minutes_between now (checkIn s))%Q.
Proof.
  rewrite <- not_true_iff_false, skew_iff. split.
  - apply Qnot_lt_le.
  - intros H H'. exact (Qlt_not_le _ _ H' H).
Qed.

Lemma auto_due_iff st now s :
  auto_due st now s = true <->
  autoCheckoutEnabled (appSettings st) = true /\
  (inject_Z (autoCheckoutHours (appSettings st) * 60)
   <= Js.minutes_between now (checkIn s))%Q.
Proof.
  unfold auto_due. rewrite andb_true_iff, <- ge_iff, JsFacts.ge_minutes.
  reflexivity.
Qed.

Lemma alert_due_iff st now s :
  alert_due st now s = true <->
  enabled (notifications (appSettings st)) = true /\
  alert_pending s = true /\
  (inject_Z (thresholdMinutes (notifications (appSettings st)))
   <= Js.minutes_between now (checkIn s))%Q.
Proof.
  unfold alert_due. rewrite !andb_true_iff, <- ge_iff, JsFacts.ge_minutes.
  tauto.
Qed.

Lemma NoDup_map_id_eq (l : list Session) x y :
  NoDup (map id l) -> In x l -> In y l -> id x = id y -> x = y.
Proof.
  induction l as [|a l IH]; simpl; intros Hnd Hx Hy E; [contradiction|].
  inversion Hnd as [|? ? Ha Hl]; subst.
  destruct Hx as [->|Hx], Hy as [->|Hy]; auto.
  - exfalso. apply Ha. rewrite E. apply in_map. exact Hy.
  - exfalso. apply Ha. rewrite <- E. apply in_map. exact Hx.
Qed.

Section Keeps.

Variable env : Env.

Lemma handleCheckOut_keeps sessionId notes w s :
  id s <> sessionId ->
  In s (activeSessions (app w)) ->
  In s (activeSessions (app (snd (handleCheckOut env sessionId notes w)))).
Proof.
  intros Hne Hin.
  destruct (handleCheckOut_cases env sessionId notes w)
    as [[-> _]|[(s0 & c & _ & _ & _ & -> & _)|[(t & d & n & _ & -> & _)|(e & -> & _)]]];
    cbn; auto.
  apply filter_In. split; auto.
  unfold has_id. apply negb_true_iff. apply String.eqb_neq. exact Hne.
Qed.

Lemma monitor_body_keeps st now x w s :
  id s <> id x ->
  In s (activeSessions (app w)) ->
  In s (activeSessions (app (snd (monitor_body env st now x w)))).
Proof.
  intros Hne Hin.
  destruct (monitor_body_cases env st now x w) as [(_ & _ & ->)|(_ & -> & _)]; auto.
  apply handleCheckOut_keeps; auto.
Qed.

Lemma monitor_body_skew st now s w :
  skew now s = true -> monitor_body env st now s w = (Normal tt, w).
Proof. intros H. rewrite monitor_body_unfold, H. reflexivity. Qed.

Lemma for_of_skip {A} (pre post : list A) (x : A) (body : A -> M unit) :
  (forall w, body x w = (Normal tt, w)) ->
  forall w, for_of (pre ++ x :: post) body w = for_of (pre ++ post) body w.
Proof.
  intros Hx w. rewrite !for_of_app. unfold bind.
  destruct (for_of pre body w) as [[[]|e] w1]; auto.
  simpl. unfold bind. rewrite Hx. reflexivity.
Qed.

End Keeps.


(** ** A tick as a fold over the snapshot *)

Lemma fold_left_invariant {A B} (P : A -> Prop) (f : A -> B -> A) (l : list B) :
  (forall x a, In x l -> P a -> P (f a x)) ->
  forall a, P a -> P (fold_left f l a).
Proof.
  induction l as [|x l IH]; intros Hf a Ha; simpl; auto.
  apply IH.
  - intros y b Hy. apply Hf. right. exact Hy.
  - apply Hf; [left; reflexivity|exact Ha].
Qed.

Lemma monitor_fold env w :
  activeSessions (app w) <> [] ->
  snd (monitor env w) =
  fold_left (fun w0 x => snd (monitor_body env (app w) (clock env (calls w)) x w0))
    (activeSessions (app w))
    (mkWorld (app w) (sessions_table w) (S (calls w)) (log w)).
Proof.
  intros Hne. rewrite monitor_unfold.
  destruct (activeSessions (app w)) as [|a l] eqn:E; [congruence|].
  cbn [List.length Nat.eqb].
  rewrite for_of_total; [reflexivity|].
  intros x w0. apply monitor_body_Normal.
Qed.

(** Filtering keeps keys pairwise distinct. *)
Lemma filter_keeps_distinct {K V : Type} (keep : V -> bool) (key : V -> K) :
  forall items, NoDup (map key items) -> NoDup (map key (filter keep items)).
Proof.
  intros items Hdistinct.
  induction items as [|v items IH]; [constructor|].
  simpl in Hdistinct. apply NoDup_cons_iff in Hdistinct.
  destruct Hdistinct as [Hfresh Hrest]. simpl.
  destruct (keep v); [|exact (IH Hrest)].
  simpl. apply NoDup_cons; [|exact (IH Hrest)].
  intros Hv. apply Hfresh.
  apply in_map_iff in Hv. destruct Hv as (u & Hu & Hin).
  apply in_map_iff. exists u. split; [exact Hu|].
  apply filter_In in Hin. exact (proj1 Hin).
Qed.

Lemma ids_apart (pre post : list Session) s x :
  NoDup (map id (pre ++ s :: post)) -> In x (pre ++ post) -> id x <> id s.
Proof.
  rewrite map_app. simpl. intros H Hx E.
  apply NoDup_remove_2 in H. apply H. rewrite <- map_app, <- E.
  apply in_map. exact Hx.
Qed.

Lemma update_eq_id_other sessionId patch tbl r i :
  (forall x, SessionRow.id (patch x) = SessionRow.id x) ->
  i <> sessionId ->
  In r (Remote.update_eq_id sessionId patch tbl) -> SessionRow.id r = i -> In r tbl.
Proof.
  intros Hp Hne Hin Hi. unfold Remote.update_eq_id in Hin.
  apply in_map_iff in Hin. destruct Hin as (r0 & Hr & Hin).
  destruct (String.eqb (SessionRow.id r0) sessionId) eqn:E.
  - apply String.eqb_eq in E. exfalso. apply Hne.
    rewrite <- Hi, <- Hr, Hp. exact E.
  - subst r. exact Hin.
Qed.

Section AutoCheckout.

Variable env : Env.
Variable st : AppState.
Variable now : Z.

Let step (w0 : World) (x : Session) : World := snd (monitor_body env st now x w0).

Lemma auto_turn s w0 :
  skew now s = false -> auto_due st now s = true ->
  monitor_body env st now s w0 = handleCheckOut env (id s) (Some AUTO_CHECKOUT_NOTE) w0.
Proof. intros H1 H2. rewrite monitor_body_unfold, H1, H2. reflexivity. Qed.

Lemma handleCheckOut_log sessionId notes w0 :
  log (snd (handleCheckOut env sessionId notes w0)) = log w0.
Proof.
  destruct (find (has_id sessionId) (activeSessions (app w0))) as [s|] eqn:E.
  - destruct (connected env (app w0)) eqn:Hc.
    + destruct (remote_error env (S (calls w0))) as [e|] eqn:Hr.
      * rewrite (handleCheckOut_online_error env _ _ _ _ _ E Hc Hr). reflexivity.
      * rewrite (handleCheckOut_online_ok env _ _ _ _ E Hc Hr). reflexivity.
    + rewrite (handleCheckOut_offline env _ _ _ _ E Hc). reflexivity.
  - rewrite (handleCheckOut_not_found env _ _ _ E). reflexivity.
Qed.

(** Offline, before the turn of [s]: it stays resolvable by its id. *)
Lemma offline_prefix (l : list Session) s w0 :
  (forall x, In x l -> id x <> id s) ->
  In s (activeSessions (app w0)) /\ NoDup (map id (activeSessions (app w0))) /\
  connected env (app w0) = false ->
  let w1 := fold_left step l w0 in
  In s (activeSessions (app w1)) /\ NoDup (map id (activeSessions (app w1))) /\
  connected env (app w1) = false.
Proof.
  intros Hl H0.
  apply (fold_left_invariant
           (fun w1 => In s (activeSessions (app w1)) /\
                      NoDup (map id (activeSessions (app w1))) /\
                      connected env (app w1) = false)); auto.
  intros x a Hx (Hin & Hnd & Hc). unfold step.
  destruct (monitor_body_cases env st now x a) as [(_ & _ & ->)|(_ & -> & _)]; auto.
  destruct (handleCheckOut_cases env (id x) (Some AUTO_CHECKOUT_NOTE) a)
    as [[-> _]|[(s0 & c & _ & _ & _ & -> & _)|[(t & d & n & _ & -> & _)|(e & -> & _)]]];
    auto.
  cbn. split; [|split; [apply filter_keeps_distinct; exact Hnd|exact Hc]].
  apply filter_In. split; auto.
  unfold has_id. apply negb_true_iff, String.eqb_neq, not_eq_sym, Hl. exact Hx.
Qed.

(** Offline, after the turn of [s]: the closed copy stays in the history and
    no session of that id comes back. *)
Lemma offline_suffix (l : list Session) (sid : string) closed w0 :
  In closed (sessionHistory (app w0)) /\
  (forall x, In x (activeSessions (app w0)) -> id x <> sid) ->
  let w1 := fold_left step l w0 in
  In closed (sessionHistory (app w1)) /\
  (forall x, In x (activeSessions (app w1)) -> id x <> sid).
Proof.
  intros H0.
  apply (fold_left_invariant
           (fun w1 => In closed (sessionHistory (app w1)) /\
                      (forall x, In x (activeSessions (app w1)) -> id x <> sid))); auto.
  intros x a _ (Hin & Hact). unfold step.
  destruct (monitor_body_cases env st now x a) as [(_ & _ & ->)|(_ & -> & _)]; auto.
  destruct (handleCheckOut_cases env (id x) (Some AUTO_CHECKOUT_NOTE) a)
    as [[-> _]|[(s0 & c & _ & _ & _ & -> & _)|[(t & d & n & _ & -> & _)|(e & -> & _)]]];
    auto.
  cbn. split; [right; exact Hin|].
  intros y Hy. apply filter_In in Hy. apply Hact. tauto.
Qed.

(** Online, the local lists stay as they are during a tick. *)
Lemma online_prefix (l : list Session) (active : list Session) w0 :
  activeSessions (app w0) = active /\ connected env (app w0) = true ->
  let w1 := fold_left step l w0 in
  activeSessions (app w1) = active /\ connected env (app w1) = true.
Proof.
  intros H0.
  apply (fold_left_invariant
           (fun w1 => activeSessions (app w1) = active /\
                      connected env (app w1) = true)); auto.
  intros x a _ (Ha & Hc). unfold step.
  destruct (monitor_body_cases env st now x a) as [(_ & _ & ->)|(_ & -> & _)]; auto.
  destruct (handleCheckOut_cases env (id x) (Some AUTO_CHECKOUT_NOTE) a)
    as [[-> _]|[(s0 & c & _ & Hoff & _)|[(t & d & n & _ & -> & _)|(e & -> & _)]]];
    auto.
  congruence.
Qed.

(** Online, after the turn of [s]: its rows stay as the check-out left them. *)
Lemma online_suffix (l : list Session) s w0 :
  (forall x, In x l -> id x <> id s) ->
  (forall r, In r (sessions_table w0) -> SessionRow.id r = id s -> auto_closed s r) ->
  let w1 := fold_left step l w0 in
  forall r, In r (sessions_table w1) -> SessionRow.id r = id s -> auto_closed s r.
Proof.
  intros Hl H0.
  apply (fold_left_invariant
           (fun w1 => forall r, In r (sessions_table w1) -> SessionRow.id r = id s ->
                                auto_closed s r)); auto.
  intros x a Hx Ha r. unfold step.
  apply Hl in Hx.
  assert (Hne : id s <> id x) by congruence.
  destruct (monitor_body_cases env st now x a) as [(_ & _ & ->)|(_ & _ & [->| ->])]; auto.
  - destruct (handleCheckOut_cases env (id x) (Some AUTO_CHECKOUT_NOTE) a)
      as [[_ ->]|[(s0 & c & _ & _ & _ & _ & ->)|[(t & d & n & _ & _ & ->)|(e & _ & ->)]]];
      auto.
    intros Hin Hid. apply Ha; auto.
    apply (update_eq_id_other (id x) (Remote.close t d n) _ r (id s)); auto.
  - intros Hin Hid. apply Ha; auto.
    apply (update_eq_id_other (id x) Remote.flag_alert _ r (id s)); auto.
Qed.

End AutoCheckout.

Lemma update_eq_id_hit sessionId patch tbl r :
  (forall x, SessionRow.id (patch x) = SessionRow.id x) ->
  In r (Remote.update_eq_id sessionId patch tbl) -> SessionRow.id r = sessionId ->
  exists r0, In r0 tbl /\ r = patch r0.
Proof.
  intros Hp Hin Hid. unfold Remote.update_eq_id in Hin.
  apply in_map_iff in Hin. destruct Hin as (r0 & Hr & Hin).
  exists r0. split; auto.
  destruct (String.eqb (SessionRow.id r0) sessionId) eqn:E; auto.
  apply String.eqb_neq in E. subst r. contradiction.
Qed.

(** C4. At a tick, for a session [s] of the snapshot whose elapsed time is
    not negative (it passed the clock-skew guard, which is always so when
    the configured hours are not negative), with automatic check-out enabled
    and elapsed minutes at least the configured hours times 60: the turn of
    [s] is exactly a check-out of its id with the system note, and adds
    nothing to the log, so no alert is raised for it in that turn.  With
    pairwise distinct ids, when the tick ends: offline, the active set holds
    no session of that id and the history holds the closed copy of [s],
    closed at some clock reading [t] with the duration of the check-out rule
    and the system note; online, if the store accepts the writes, every row
    of that id is closed in that way. *)
Theorem auto_checkout_closes_and_skips_alert
    (env : Env) (w : World) (pre post : list Session) (s : Session) :
  activeSessions (app w) = (pre ++ s :: post)%list ->
  NoDup (map id (activeSessions (app w))) ->
  let now := clock env (calls w) in
  let w' := snd (monitor env w) in
  autoCheckoutEnabled (appSettings (app w)) = true ->
  (0 <= Js.minutes_between now (checkIn s))%Q ->
  (inject_Z (autoCheckoutHours (appSettings (app w)) * 60)
   <= Js.minutes_between now (checkIn s))%Q ->
  (forall w0,
     monitor_body env (app w) now s w0 =
       handleCheckOut env (id s) (Some AUTO_CHECKOUT_NOTE) w0 /\
     log (snd (monitor_body env (app w) now s w0)) = log w0) /\
  (connected env (app w) = false ->
   exists t,
     In (mkSession (id s) (studentId s) (studentName s) (checkIn s) (Some t)
           (Some (Z.max 1 (Js.Math_round (Js.minutes_between t (checkIn s)))))
           (Some AUTO_CHECKOUT_NOTE) (alertTriggered s))
        (sessionHistory (app w')) /\
     forall x, In x (activeSessions (app w')) -> id x <> id s) /\
  (connected env (app w) = true -> (forall k, remote_error env k = None) ->
   forall r, In r (sessions_table w') -> SessionRow.id r = id s ->
   exists t, SessionRow.check_out r = Some t /\
             SessionRow.duration r =
               Some (Z.max 1 (Js.Math_round (Js.minutes_between t (checkIn s)))) /\
             SessionRow.notes r = Some AUTO_CHECKOUT_NOTE).
Proof.
  intros Hl Hnd now w' Hen Hpos Hdue.
  assert (Hskew : skew now s = false) by (apply skew_false_iff; exact Hpos).
  assert (Hauto : auto_due (app w) now s = true) by (apply auto_due_iff; auto).
  assert (Hturn : forall w0,
             monitor_body env (app w) now s w0 =
             handleCheckOut env (id s) (Some AUTO_CHECKOUT_NOTE) w0).
  { intros w0. apply auto_turn; assumption. }
  assert (Hw' : w' =
            fold_left (fun w0 x => snd (monitor_body env (app w) now x w0)) post
              (snd (handleCheckOut env (id s) (Some AUTO_CHECKOUT_NOTE)
                 (fold_left (fun w0 x => snd (monitor_body env (app w) now x w0)) pre
                    (mkWorld (app w) (sessions_table w) (S (calls w)) (log w)))))).
  { unfold w'. rewrite monitor_fold.
    - rewrite Hl, fold_left_app. simpl. rewrite Hturn. reflexivity.
    - rewrite Hl. destruct pre; discriminate. }
  assert (Hpre : forall x, In x pre -> id x <> id s).
  { intros x Hx. apply (ids_apart pre post). { rewrite <- Hl. exact Hnd. }
    apply in_or_app. auto. }
  assert (Hpost : forall x, In x post -> id x <> id s).
  { intros x Hx. apply (ids_apart pre post). { rewrite <- Hl. exact Hnd. }
    apply in_or_app. auto. }
  assert (Hs : In s (activeSessions (app w))) by (rewrite Hl; apply in_elt).
  set (w1 := mkWorld (app w) (sessions_table w) (S (calls w)) (log w)) in *.
  set (wp := fold_left (fun w0 x => snd (monitor_body env (app w) now x w0)) pre w1) in *.
  split; [|split].
  - intros w0. rewrite Hturn. split; [reflexivity|]. apply handleCheckOut_log.
  - intros Hc.
    destruct (offline_prefix env (app w) now pre s w1 Hpre) as (Hin & Hnd' & Hc'); auto.
    fold wp in Hin, Hnd', Hc'.
    pose proof (find_has_id_unique _ _ Hnd' Hin) as Hfind.
    exists (clock env (calls wp)). rewrite Hw'.
    apply offline_suffix.
    rewrite (handleCheckOut_offline env _ _ _ _ Hfind Hc'). cbn. split; [left; reflexivity|].
    intros x Hx. apply filter_In in Hx. destruct Hx as [_ Hx].
    unfold has_id in Hx. apply negb_true_iff, String.eqb_neq in Hx. exact Hx.
  - intros Hc Hok r.
    destruct (online_prefix env (app w) now pre (activeSessions (app w)) w1) as (Ha & Hc'); auto.
    fold wp in Ha, Hc'.
    assert (Hfind : find (has_id (id s)) (activeSessions (app wp)) = Some s).
    { rewrite Ha. apply find_has_id_unique; auto. }
    rewrite Hw'.
    intros Hin Hid.
    assert (Hclosed : auto_closed s r); [|exact Hclosed].
    revert r Hin Hid. apply online_suffix; auto.
    rewrite (handleCheckOut_online_ok env _ _ _ _ Hfind Hc' (Hok _)). cbn [snd sessions_table].
    intros r Hin Hid.
    apply update_eq_id_hit in Hin; auto.
    destruct Hin as (r0 & _ & ->).
    exists (clock env (calls wp)). cbn. auto.
Qed.

(** ** Failures of delivery do not reach the monitor *)

Section Isolation.

Variables env env' : Env.
Hypothesis Hsame : same_but_delivery env env'.

Lemma connected_same st : connected env st = connected env' st.
Proof. unfold connected. destruct Hsame as (-> & _). reflexivity. Qed.

Lemma agree_intro sa ta ca la lb :
  alert_calls la = alert_calls lb ->
  agree (mkWorld sa ta ca la) (mkWorld sa ta ca lb).
Proof. unfold agree. cbn. auto. Qed.

Lemma handleCheckOut_agree sessionId notes a b :
  agree a b ->
  agree (snd (handleCheckOut env sessionId notes a))
        (snd (handleCheckOut env' sessionId notes b)).
Proof.
  destruct a as [sa ta ca la], b as [sb tb cb lb].
  intros (H1 & H2 & H3 & H4). cbn in H1, H2, H3. subst sb tb cb.
  destruct Hsame as (_ & Hclock & Hremote & _).
  set (wa := mkWorld sa ta ca la). set (wb := mkWorld sa ta ca lb).
  destruct (find (has_id sessionId) (activeSessions sa)) as [s|] eqn:E.
  - destruct (connected env sa) eqn:Hc.
    + pose proof Hc as Hc'. rewrite connected_same in Hc'.
      destruct (remote_error env (S ca)) as [e|] eqn:Hr.
      * rewrite (handleCheckOut_online_error env sessionId notes wa s e E Hc Hr).
        rewrite (handleCheckOut_online_error env' sessionId notes wb s e E Hc');
          [|cbn; rewrite <- Hremote; exact Hr].
        apply agree_intro. exact H4.
      * rewrite (handleCheckOut_online_ok env sessionId notes wa s E Hc Hr).
        rewrite (handleCheckOut_online_ok env' sessionId notes wb s E Hc');
          [|cbn; rewrite <- Hremote; exact Hr].
        cbn [app sessions_table calls log wa wb]. rewrite Hclock.
        apply agree_intro. exact H4.
    + pose proof Hc as Hc'. rewrite connected_same in Hc'.
      rewrite (handleCheckOut_offline env sessionId notes wa s E Hc).
      rewrite (handleCheckOut_offline env' sessionId notes wb s E Hc').
      cbn [app sessions_table calls log wa wb]. rewrite Hclock.
      apply agree_intro. exact H4.
  - rewrite (handleCheckOut_not_found env sessionId notes wa E).
    rewrite (handleCheckOut_not_found env' sessionId notes wb E).
    apply agree_intro. exact H4.
Qed.

Lemma alert_calls_app l1 l2 : alert_calls (l1 ++ l2) = (alert_calls l1 ++ alert_calls l2)%list.
Proof. apply filter_app. Qed.

Lemma monitor_body_agree st now x a b :
  agree a b ->
  agree (snd (monitor_body env st now x a)) (snd (monitor_body env' st now x b)).
Proof.
  intros Hab. rewrite !monitor_body_unfold.
  destruct (skew now x); [exact Hab|].
  destruct (auto_due st now x); [apply handleCheckOut_agree; exact Hab|].
  destruct (alert_due st now x); [|exact Hab].
  destruct (find _ (patrons st)) as [patron|]; [|exact Hab].
  destruct a as [sa ta ca la], b as [sb tb cb lb].
  destruct Hab as (H1 & H2 & H3 & H4). cbn in H1, H2, H3. subst sb tb cb.
  cbn [log] in H4.
  unfold bind.
  destruct (sendOverdueAlert_run env patron ((now - checkIn x) / 60000)
              (email (notifications (appSettings st))) (mkWorld sa ta ca la))
    as (evs & -> & Hevs).
  destruct (sendOverdueAlert_run env' patron ((now - checkIn x) / 60000)
              (email (notifications (appSettings st))) (mkWorld sa ta ca lb))
    as (evs' & -> & Hevs').
  cbn [app sessions_table calls log].
  assert (Hlog : alert_calls
                   (la ++ OverdueAlert (Patron.id patron) ((now - checkIn x) / 60000)
                            (email (notifications (appSettings st))) :: evs) =
                 alert_calls
                   (lb ++ OverdueAlert (Patron.id patron) ((now - checkIn x) / 60000)
                            (email (notifications (appSettings st))) :: evs')).
  { rewrite !alert_calls_app, H4.
    change (alert_calls (?e :: ?l)) with (e :: alert_calls l).
    rewrite Hevs, Hevs'. reflexivity. }
  destruct (negb (demoMode st)); [|apply agree_intro; exact Hlog].
  unfold supabase_update. run_m.
  destruct Hsame as (_ & _ & Hremote & _). rewrite <- Hremote.
  destruct (remote_error env (S ca)); cbn; apply agree_intro; exact Hlog.
Qed.

Lemma monitor_agree w : agree (snd (monitor env w)) (snd (monitor env' w)).
Proof.
  destruct (activeSessions (app w)) as [|x l] eqn:E.
  - rewrite !monitor_unfold, E. cbn. unfold agree. auto.
  - rewrite !monitor_fold by (rewrite E; discriminate).
    destruct Hsame as (_ & Hclock & _). rewrite <- Hclock.
    generalize (activeSessions (app w)).
    assert (H0 : agree (mkWorld (app w) (sessions_table w) (S (calls w)) (log w))
                       (mkWorld (app w) (sessions_table w) (S (calls w)) (log w))).
    { apply agree_intro. reflexivity. }
    revert H0.
    generalize (mkWorld (app w) (sessions_table w) (S (calls w)) (log w)) at 1 3.
    generalize (mkWorld (app w) (sessions_table w) (S (calls w)) (log w)).
    intros b a Hab l0. revert a b Hab.
    induction l0 as [|y l0 IH]; intros a b Hab; simpl; auto.
    apply IH. apply monitor_body_agree. exact Hab.
Qed.

End Isolation.


(** A session whose flag is set gets no call of the dispatcher. *)
Lemma flagged_session_never_dispatched env st now s w :
  alertTriggered s = Some true ->
  alert_calls (log (snd (monitor_body env st now s w))) = alert_calls (log w).
Proof.
  intros Hflag. rewrite monitor_body_unfold.
  destruct (skew now s); [reflexivity|].
  destruct (auto_due st now s); [rewrite handleCheckOut_log; reflexivity|].
  unfold alert_due, alert_pending. rewrite Hflag, andb_false_r. reflexivity.
Qed.

(** Offline a tick never changes a session of the active set: those that
    remain are members of the set it started from, flags included. *)
Lemma offline_tick_keeps_flags env w s :
  In s (activeSessions (app (snd (monitor env w)))) -> In s (activeSessions (app w)).
Proof.
  rewrite monitor_unfold.
  destruct (List.length (activeSessions (app w)) =? 0)%nat; [auto|].
  apply (for_of_invariant
           (fun w0 => In s (activeSessions (app w0)) -> In s (activeSessions (app w)))).
  - intros x a _ Ha.
    destruct (monitor_body_cases env (app w) (clock env (calls w)) x a)
      as [(_ & _ & ->)|(_ & -> & _)]; auto.
    destruct (handleCheckOut_cases env (id x) (Some AUTO_CHECKOUT_NOTE) a)
      as [[-> _]|[(s0 & c & _ & _ & _ & -> & _)|[(t & d & n & _ & -> & _)|(e & -> & _)]]];
      auto.
    cbn. intros Hin. apply filter_In in Hin. tauto.
  - cbn. auto.
Qed.

(** C3, at the failing run.  Offline, with the default settings (alerts
    enabled, threshold 180 minutes): patron ST-001 checks in at 0; the tick
    at 181 minutes calls the dispatcher; the flag of the session is still
    unset afterwards, and the tick at 182 minutes calls the dispatcher for
    the same session again. *)
Theorem demo_mode_alert_repeats :
  let w1 := exec Scenario.envB (Scenario.offline_check_in ++ [Tick]) (initial Scenario.envB []) in
  let w2 := snd (monitor Scenario.envB w1) in
  demoMode (app w1) = true /\
  map studentId (activeSessions (app w1)) = ["ST-001"] /\
  alert_calls (log w1) = [OverdueAlert "ST-001" 181 "bhfnmtclibrary@gmail.com"] /\
  map alertTriggered (activeSessions (app w1)) = [None] /\
  alert_calls (log w2) =
    [OverdueAlert "ST-001" 181 "bhfnmtclibrary@gmail.com";
     OverdueAlert "ST-001" 182 "bhfnmtclibrary@gmail.com"].
Proof. vm_compute. repeat split. Qed.

(** Online, by contrast, the alert of a tick raises the flag of the rows of
    the session, and after the next resynchronisation the flag gates every
    later turn of that session. *)
Lemma update_keeps_flags sessionId patch tbl sid :
  (forall r, SessionRow.id (patch r) = SessionRow.id r) ->
  (forall r, SessionRow.alert_triggered r = true -> SessionRow.alert_triggered (patch r) = true) ->
  (forall r, In r tbl -> SessionRow.id r = sid -> SessionRow.alert_triggered r = true) ->
  forall r, In r (Remote.update_eq_id sessionId patch tbl) -> SessionRow.id r = sid ->
            SessionRow.alert_triggered r = true.
Proof.
  intros Hid Hflag Htbl r Hin Hr. unfold Remote.update_eq_id in Hin.
  apply in_map_iff in Hin. destruct Hin as (r0 & Hr0 & Hin).
  destruct (String.eqb (SessionRow.id r0) sessionId); subst r.
  - apply Hflag. apply Htbl; auto. rewrite <- Hid. exact Hr.
  - apply Htbl; auto.
Qed.

Lemma online_alert_raises_flag env w pre s post patron :
  activeSessions (app w) = (pre ++ s :: post)%list ->
  demoMode (app w) = false ->
  (forall k, remote_error env k = None) ->
  let now := clock env (calls w) in
  skew now s = false -> auto_due (app w) now s = false ->
  alert_due (app w) now s = true ->
  find (fun p => String.eqb (Patron.id p) (studentId s)) (patrons (app w)) = Some patron ->
  forall r, In r (sessions_table (snd (monitor env w))) -> SessionRow.id r = id s ->
            SessionRow.alert_triggered r = true.
Proof.
  intros Hl Hdemo Hok now Hskew Hauto Halert Hfind.
  rewrite monitor_fold by (rewrite Hl; destruct pre; discriminate).
  rewrite Hl, fold_left_app. simpl. fold now.
  apply (fold_left_invariant
           (fun w0 => forall r, In r (sessions_table w0) -> SessionRow.id r = id s ->
                                SessionRow.alert_triggered r = true)).
  - intros x a _ Ha.
    destruct (monitor_body_cases env (app w) now x a)
      as [(_ & _ & ->)|(_ & _ & [->| ->])]; auto.
    + destruct (handleCheckOut_cases env (id x) (Some AUTO_CHECKOUT_NOTE) a)
        as [[_ ->]|[(s0 & c & _ & _ & _ & _ & ->)|[(t & d & n & _ & _ & ->)|(e & _ & ->)]]];
        auto.
      apply update_keeps_flags; auto.
    + apply update_keeps_flags; auto.
  - rewrite monitor_body_unfold, Hskew, Hauto, Halert, Hfind, Hdemo.
    cbn [negb]. unfold bind.
    match goal with
    | |- context [sendOverdueAlert env ?p ?m ?e ?w0] =>
        destruct (sendOverdueAlert_run env p m e w0) as (evs & -> & _)
    end.
    unfold supabase_update. run_m. rewrite Hok. cbn.
    intros r Hin Hr. unfold Remote.update_eq_id in Hin.
    apply in_map_iff in Hin. destruct Hin as (r0 & Hr0 & _).
    destruct (String.eqb (SessionRow.id r0) (id s)) eqn:E; subst r; [reflexivity|].
    apply String.eqb_neq in E. contradiction.
Qed.

Lemma refreshed_flag_gates_turn env silent startOfDay patronRes settingsRes w sid :
  connected env (app w) = true ->
  remote_error env (calls w) = None ->
  (forall r, In r (sessions_table w) -> SessionRow.id r = sid -> SessionRow.alert_triggered r = true) ->
  let w' := snd (fetchData env silent startOfDay patronRes settingsRes w) in
  forall x, In x (activeSessions (app w')) -> id x = sid ->
  forall st now w0,
    alert_calls (log (snd (monitor_body env st now x w0))) = alert_calls (log w0).
Proof.
  intros Hc Hr Hflag w' x Hx Hid st now w0.
  apply flagged_session_never_dispatched.
  destruct (fetchData_online_ok env silent startOfDay patronRes settingsRes w Hc Hr)
    as (Ha & _).
  fold w' in Ha. rewrite Ha in Hx. apply in_map_iff in Hx.
  destruct Hx as (r & <- & Hin). cbn. f_equal.
  apply filter_In in Hin. apply Hflag; [tauto|exact Hid].
Qed.

(** ** The invariant of the store *)

Lemma NoDup_map_filter_sub {A B} (f : A -> B) (p q : A -> bool) (l : list A) :
  (forall x, In x l -> q x = true -> p x = true) ->
  NoDup (map f (filter p l)) -> NoDup (map f (filter q l)).
Proof.
  induction l as [|x l IH]; simpl; intros Hsub H; auto.
  assert (Hsub' : forall y, In y l -> q y = true -> p y = true) by auto.
  destruct (q x) eqn:Eq.
  - rewrite (Hsub x (or_introl eq_refl) Eq) in H. simpl in *.
    inversion H as [|? ? Hx Hl]; subst. constructor; auto.
    intros Hin. apply Hx. apply in_map_iff in Hin. destruct Hin as (y & Hy & Hin).
    apply filter_In in Hin. destruct Hin as [Hin Hq].
    rewrite <- Hy. apply in_map. apply filter_In. auto.
  - destruct (p x); simpl in H; auto.
    inversion H; subst. auto.
Qed.

Lemma NoDup_snoc {A} (l : list A) (x : A) :
  NoDup l -> ~ In x l -> NoDup (l ++ [x]).
Proof.
  intros Hl Hx. apply NoDup_app.
  - exact Hl.
  - constructor; [simpl; tauto|constructor].
  - intros y Hy [<-|[]]. contradiction.
Qed.

Lemma existsb_studentId_false p (l : list Session) :
  existsb (fun s => String.eqb (studentId s) p) l = false ->
  ~ In p (map studentId l).
Proof.
  intros H Hin. apply in_map_iff in Hin. destruct Hin as (s & Hs & Hin).
  assert (Ht : existsb (fun s => String.eqb (studentId s) p) l = true).
  { apply existsb_exists. exists s. split; auto. apply String.eqb_eq. exact Hs. }
  congruence.
Qed.

Lemma filter_active_replace sessionId closed (l : list Session) :
  is_active closed = false ->
  filter is_active (map (fun s => if has_id sessionId s then closed else s) l) =
  filter (fun s => negb (has_id sessionId s) && is_active s) l.
Proof.
  intros Hc. induction l as [|x l IH]; simpl; auto.
  destruct (has_id sessionId x); simpl.
  - rewrite Hc. exact IH.
  - destruct (is_active x); simpl; rewrite IH; reflexivity.
Qed.

Lemma Forall_active_filter (l : list Session) :
  Forall (fun s => is_active s = true) l -> filter is_active l = l.
Proof.
  induction 1 as [|x l Hx _ IH]; simpl; auto. rewrite Hx, IH. reflexivity.
Qed.

Section StoreInvariant.

Variables (active today : list Session) (tbl : list SessionRow.t).
Hypothesis H : store_inv active today tbl.

(** The offline close. *)
Lemma store_inv_close_locally sessionId closed :
  is_active closed = false ->
  store_inv (filter (fun s => negb (has_id sessionId s)) active)
            (map (fun s => if has_id sessionId s then closed else s) today) tbl.
Proof.
  intros Hc. destruct H as (Ha & Hp & Ht & Hin & Hr).
  split; [|split; [|split; [|split]]]; auto.
  - apply Forall_forall. intros x Hx. apply filter_In in Hx.
    rewrite Forall_forall in Ha. apply Ha. tauto.
  - apply filter_keeps_distinct. exact Hp.
  - rewrite filter_active_replace by exact Hc.
    apply (NoDup_map_filter_sub studentId is_active); auto.
    intros x _ Hx. apply andb_true_iff in Hx. tauto.
  - intros x Hx Hact. apply in_map_iff in Hx. destruct Hx as (x0 & Hx0 & Hx).
    destruct (has_id sessionId x0) eqn:E; subst x; [congruence|].
    destruct (Hin x0 Hx Hact) as (y & Hy & Hid & Hst).
    exists y. split; auto. apply filter_In. split; auto.
    unfold has_id in *. rewrite Hid, E. reflexivity.
Qed.

(** A write to the rows of one id that keeps the patron and opens nothing. *)
Lemma store_inv_update sessionId patch :
  (forall r, SessionRow.patron_id (patch r) = SessionRow.patron_id r) ->
  (forall r, Remote.is_open (patch r) = true -> Remote.is_open r = true) ->
  store_inv active today (Remote.update_eq_id sessionId patch tbl).
Proof.
  intros Hpat Hopen. destruct H as (Ha & Hp & Ht & Hin & Hr).
  split; [|split; [|split; [|split]]]; auto.
  unfold Remote.select_active, Remote.update_eq_id in *.
  clear -Hr Hpat Hopen.
  assert (Hsub : forall l p,
             In p (map SessionRow.patron_id (filter Remote.is_open
                (map (fun r => if String.eqb (SessionRow.id r) sessionId then patch r else r) l))) ->
             In p (map SessionRow.patron_id (filter Remote.is_open l))).
  { induction l as [|r l IH]; simpl; auto. intros p.
    destruct (String.eqb (SessionRow.id r) sessionId).
    - destruct (Remote.is_open (patch r)) eqn:E.
      + rewrite (Hopen r E). simpl. rewrite Hpat. intros [->|Hp]; auto.
      + intros Hp. destruct (Remote.is_open r); simpl; auto.
    - destruct (Remote.is_open r); simpl; auto. intros [->|Hp]; auto. }
  induction tbl as [|r l IH]; simpl in *; [constructor|].
  destruct (String.eqb (SessionRow.id r) sessionId).
  - destruct (Remote.is_open (patch r)) eqn:E.
    + rewrite (Hopen r E) in Hr. simpl in *. rewrite Hpat.
      inversion Hr; subst. constructor; auto.
    + destruct (Remote.is_open r); simpl in Hr; auto. inversion Hr; auto.
  - destruct (Remote.is_open r); simpl in *; auto.
    inversion Hr; subst. constructor; auto.
Qed.

(** The offline check-in. *)
Lemma store_inv_check_in_locally p ns :
  existsb (fun s => String.eqb (studentId s) p) active = false ->
  is_active ns = true -> studentId ns = p ->
  store_inv (active ++ [ns]) (today ++ [ns]) tbl.
Proof.
  intros Hex Hact Hst. destruct H as (Ha & Hp & Ht & Hin & Hr).
  apply existsb_studentId_false in Hex.
  split; [|split; [|split; [|split]]]; auto.
  - apply Forall_app. split; auto.
  - rewrite map_app. simpl. apply NoDup_snoc; auto. rewrite Hst. exact Hex.
  - rewrite filter_app. simpl. rewrite Hact, map_app. simpl.
    apply NoDup_snoc; auto. rewrite Hst. intros Hp'. apply Hex.
    apply in_map_iff in Hp'. destruct Hp' as (x & Hx & Hx').
    apply filter_In in Hx'. destruct Hx' as [Hx1 Hx2].
    destruct (Hin x Hx1 Hx2) as (y & Hy & _ & Hys).
    rewrite <- Hx, <- Hys. apply in_map. exact Hy.
  - intros x Hx Hxa. apply in_app_or in Hx. destruct Hx as [Hx|[<-|[]]].
    + destruct (Hin x Hx Hxa) as (y & Hy & Hid & Hys).
      exists y. split; auto. apply in_or_app. auto.
    + exists ns. split; auto. apply in_or_app. right. left. reflexivity.
Qed.

(** The check-in sent to the store, from a view that shows every open row. *)
Lemma store_inv_insert uuid p t :
  existsb (fun s => String.eqb (studentId s) p) active = false ->
  (forall r, In r (Remote.select_active tbl) ->
             In (SessionRow.patron_id r) (map studentId active)) ->
  store_inv active today (Remote.insert uuid p t tbl).
Proof.
  intros Hex Hsees. destruct H as (Ha & Hp & Ht & Hin & Hr).
  apply existsb_studentId_false in Hex.
  split; [|split; [|split; [|split]]]; auto.
  unfold Remote.insert, Remote.select_active in *.
  rewrite filter_app. simpl. rewrite map_app. simpl.
  apply NoDup_snoc; auto.
  intros Hp'. apply Hex. apply in_map_iff in Hp'. destruct Hp' as (r & Hr1 & Hr2).
  rewrite <- Hr1. apply Hsees. exact Hr2.
Qed.

(** The resynchronisation. *)
Lemma store_inv_fetch startOfDay :
  store_inv (map active_of_row (Remote.select_active tbl))
            (map today_of_row (Remote.select_today startOfDay tbl)) tbl.
Proof.
  destruct H as (Ha & Hp & Ht & Hin & Hr).
  assert (Hf : forall l, filter is_active (map today_of_row l) =
                         map today_of_row (filter Remote.is_open l)).
  { induction l as [|r l IH]; simpl; auto.
    unfold is_active at 1, Remote.is_open at 1. simpl.
    destruct (SessionRow.check_out r); simpl; rewrite IH; reflexivity. }
  split; [|split; [|split; [|split]]]; auto.
  - apply Forall_forall. intros x Hx. apply in_map_iff in Hx.
    destruct Hx as (r & <- & _). reflexivity.
  - rewrite map_map. simpl. exact Hr.
  - rewrite Hf, map_map. simpl. unfold Remote.select_today.
    unfold Remote.select_active in Hr.
    assert (Hc : forall (l : list SessionRow.t) p q,
               filter p (filter q l) = filter q (filter p l)).
    { induction l as [|r l IH]; simpl; auto. intros p q.
      destruct (p r) eqn:Ep, (q r) eqn:Eq; simpl; rewrite ?Ep, ?Eq, IH; reflexivity. }
    rewrite Hc. apply filter_keeps_distinct. exact Hr.
  - intros x Hx Hact. apply in_map_iff in Hx. destruct Hx as (r & <- & Hr').
    exists (active_of_row r). split; [|split; reflexivity].
    apply in_map. apply filter_In. apply filter_In in Hr'. split; [tauto|].
    unfold is_active in Hact. simpl in Hact. unfold Remote.is_open.
    destruct (SessionRow.check_out r); auto.
Qed.

End StoreInvariant.

(** ** Every operation keeps the invariant *)

Section Preservation.

Variable env : Env.

Lemma handleCheckIn_cases p w :
  let w' := snd (handleCheckIn env p w) in
  (app w' = app w /\ sessions_table w' = sessions_table w) \/
  (existsb (fun s => String.eqb (studentId s) p) (activeSessions (app w)) = false /\
   exists ns, is_active ns = true /\ studentId ns = p /\
     app w' = with_todaySessions (fun prev => prev ++ [ns])%list
                (with_activeSessions (fun prev => prev ++ [ns])%list (app w)) /\
     sessions_table w' = sessions_table w) \/
  (existsb (fun s => String.eqb (studentId s) p) (activeSessions (app w)) = false /\
   connected env (app w) = true /\
   exists uuid t, app w' = app w /\
     sessions_table w' = Remote.insert uuid p t (sessions_table w)) \/
  (exists e, app w' = sync_failed e (app w) /\ sessions_table w' = sessions_table w).
Proof.
  destruct (existsb (fun s => String.eqb (studentId s) p) (activeSessions (app w))) eqn:E.
  - rewrite (handleCheckIn_guard env _ _ E). left. auto.
  - destruct (connected env (app w)) eqn:Hc.
    + destruct (remote_error env (S (calls w))) as [e|] eqn:Hr.
      * rewrite (handleCheckIn_online_error env _ _ _ E Hc Hr).
        right. right. right. exists e. auto.
      * rewrite (handleCheckIn_online_ok env _ _ E Hc Hr).
        right. right. left. split; [reflexivity|]. split; [reflexivity|].
        do 2 eexists. split; reflexivity.
    + rewrite (handleCheckIn_offline env _ _ E Hc).
      right. left. split; [reflexivity|].
      exists (newSession env w p). repeat split.
Qed.

Lemma saveGlobalSettings_frame a w :
  let w' := snd (saveGlobalSettings env a w) in
  activeSessions (app w') = activeSessions (app w) /\
  todaySessions (app w') = todaySessions (app w) /\
  sessions_table w' = sessions_table w.
Proof.
  unfold saveGlobalSettings. run_m.
  destruct (demoMode (app w) || negb (isSupabaseConfigured env)); cbn; auto.
  destruct (remote_error env (calls w)); cbn; auto.
Qed.

Lemma Inv_eq w w' :
  activeSessions (app w') = activeSessions (app w) ->
  todaySessions (app w') = todaySessions (app w) ->
  sessions_table w' = sessions_table w ->
  Inv w -> Inv w'.
Proof. unfold Inv. intros -> -> ->. auto. Qed.

Lemma Inv_handleCheckOut sessionId notes w :
  Inv w -> Inv (snd (handleCheckOut env sessionId notes w)).
Proof.
  intros H. unfold Inv.
  destruct (handleCheckOut_cases env sessionId notes w)
    as [[-> ->]|[(s0 & c & _ & _ & Hc & -> & ->)|[(t & d & n & _ & -> & ->)|(e & -> & ->)]]];
    auto.
  - apply (store_inv_close_locally _ _ _ H). exact Hc.
  - apply (store_inv_update _ _ _ H); auto. cbn. discriminate.
Qed.

Lemma Inv_monitor_body st now x w :
  Inv w -> Inv (snd (monitor_body env st now x w)).
Proof.
  intros H.
  destruct (monitor_body_cases env st now x w)
    as [(_ & _ & ->)|(_ & Ha & [Ht|Ht])].
  - apply Inv_handleCheckOut. exact H.
  - unfold Inv. rewrite Ha, Ht. exact H.
  - unfold Inv. rewrite Ha, Ht. apply (store_inv_update _ _ _ H); auto.
Qed.

Lemma Inv_monitor w : Inv w -> Inv (snd (monitor env w)).
Proof.
  intros H. rewrite monitor_unfold.
  destruct (List.length (activeSessions (app w)) =? 0)%nat; [exact H|].
  apply for_of_invariant; [|exact H].
  intros x w0 _. apply Inv_monitor_body.
Qed.

Lemma Inv_handleCheckIn p w :
  Inv w -> (connected env (app w) = true -> sees_open_rows w) ->
  Inv (snd (handleCheckIn env p w)).
Proof.
  intros H Hsees. unfold Inv.
  destruct (handleCheckIn_cases p w)
    as [[-> ->]|[(E & ns & Hact & Hst & -> & ->)
                |[(E & Hc & uuid & t & -> & ->)|(e & -> & ->)]]];
    auto.
  - apply (store_inv_check_in_locally _ _ _ H p); auto.
  - apply (store_inv_insert _ _ _ H); auto. apply Hsees. exact Hc.
Qed.

Lemma Inv_fetchData silent startOfDay patronRes settingsRes w :
  Inv w -> Inv (snd (fetchData env silent startOfDay patronRes settingsRes w)).
Proof.
  intros H. unfold Inv.
  destruct (fetchData_cases env silent startOfDay patronRes settingsRes w)
    as (-> & [(-> & ->)|(-> & ->)]); auto.
  apply (store_inv_fetch _ _ _ H).
Qed.

Lemma Inv_run_op op w :
  Inv w -> (forall p, op <> CheckIn p) -> Inv (snd (run_op env op w)).
Proof.
  intros H Hop.
  destruct op as [p|sessionId notes0| |silent startOfDay patronRes settingsRes|newSettings| |];
    simpl.
  - exfalso. exact (Hop _ eq_refl).
  - apply Inv_handleCheckOut. exact H.
  - apply Inv_monitor. exact H.
  - apply Inv_fetchData. exact H.
  - destruct (saveGlobalSettings_frame newSettings w) as (Ha & Ht & Hr).
    exact (Inv_eq _ _ Ha Ht Hr H).
  - exact H.
  - exact H.
Qed.

Lemma Inv_initial tbl :
  NoDup (map SessionRow.patron_id (Remote.select_active tbl)) -> Inv (initial env tbl).
Proof.
  intros H. unfold Inv, store_inv. cbn.
  repeat split; auto; try constructor. intros x [].
Qed.

Lemma Inv_reachable_in_step tbl w :
  NoDup (map SessionRow.patron_id (Remote.select_active tbl)) ->
  reachable_in_step env tbl w -> Inv w.
Proof.
  intros Htbl Hr. induction Hr as [|w p _ IH Hsees|w op _ IH Hop].
  - apply Inv_initial. exact Htbl.
  - apply Inv_handleCheckIn; auto.
  - apply Inv_run_op; auto.
Qed.

Lemma Inv_one_active_per_patron w : Inv w -> one_active_per_patron w.
Proof.
  intros (Ha & Hp & Ht & _ & Hr). unfold one_active_per_patron.
  rewrite (Forall_active_filter _ Ha). auto.
Qed.

(** The part of the invariant that needs no side condition. *)
Lemma active_only_reachable tbl w :
  reachable env tbl w ->
  Forall (fun s => is_active s = true) (activeSessions (app w)).
Proof.
  intros Hr. induction Hr as [|w op _ IH].
  - constructor.
  - destruct op as [p|sessionId notes0| |silent startOfDay patronRes settingsRes|newSettings| |];
      simpl.
    + destruct (handleCheckIn_cases p w)
        as [[-> _]|[(_ & ns & Hact & _ & -> & _)|[(_ & _ & u & t & -> & _)|(e & -> & _)]]];
        auto.
      cbn. apply Forall_app. auto.
    + destruct (handleCheckOut_cases env sessionId notes0 w)
        as [[-> _]|[(s0 & c & _ & _ & _ & -> & _)|[(t & d & n & _ & -> & _)|(e & -> & _)]]];
        auto.
      cbn. apply Forall_forall. intros x Hx. apply filter_In in Hx.
      rewrite Forall_forall in IH. apply IH. tauto.
    + rewrite monitor_unfold.
      destruct (List.length (activeSessions (app w)) =? 0)%nat; [exact IH|].
      apply (for_of_invariant
               (fun w0 => Forall (fun s => is_active s = true) (activeSessions (app w0))));
        [|exact IH].
      intros x a _ Ha.
      destruct (monitor_body_cases env (app w) (clock env (calls w)) x a)
        as [(_ & _ & ->)|(_ & -> & _)]; auto.
      destruct (handleCheckOut_cases env (id x) (Some AUTO_CHECKOUT_NOTE) a)
        as [[-> _]|[(s0 & c & _ & _ & _ & -> & _)|[(t & d & n & _ & -> & _)|(e & -> & _)]]];
        auto.
      cbn. apply Forall_forall. intros y Hy. apply filter_In in Hy.
      rewrite Forall_forall in Ha. apply Ha. tauto.
    + destruct (fetchData_cases env silent startOfDay patronRes settingsRes w)
        as (_ & [(-> & _)|(-> & _)]); auto.
      apply Forall_forall. intros x Hx. apply in_map_iff in Hx.
      destruct Hx as (r & <- & _). reflexivity.
    + destruct (saveGlobalSettings_frame newSettings w) as (-> & _). exact IH.
    + exact IH.
    + exact IH.
Qed.

End Preservation.

Lemma reachable_exec env tbl ops w :
  reachable env tbl w -> reachable env tbl (exec env ops w).
Proof.
  revert w. induction ops as [|op ops IH]; intros w H; simpl; auto.
  apply IH. apply reachable_step. exact H.
Qed.


(** Without a configured store every run is of that kind. *)
Lemma reachable_offline_in_step env tbl w :
  isSupabaseConfigured env = false ->
  reachable env tbl w -> reachable_in_step env tbl w.
Proof.
  intros Hoff Hr. induction Hr as [|w op _ IH].
  - apply in_step_initial.
  - destruct op as [p|sessionId notes0| |silent startOfDay patronRes settingsRes|newSettings| |];
      try (apply in_step_other; [exact IH|intros p; discriminate]).
    simpl. apply in_step_check_in; [exact IH|].
    unfold connected. rewrite Hoff, andb_false_r. discriminate.
Qed.


Lemma percentage_below (n cap : Z) :
  0 < cap ->
  Qle_bool (inject_Z n / inject_Z cap * 100) 100 = (n <=? cap).
Proof.
  intros Hc. destruct cap as [|p|p]; try lia.
  unfold Qle_bool, Qdiv, Qmult, Qinv, inject_Z. cbn -[Z.mul Pos.mul Z.leb].
  rewrite !Pos2Z.inj_mul.
  destruct (Z.leb_spec (n * 1 * 100 * 1) (100 * (1 * Z.pos p * 1))),
           (Z.leb_spec n (Z.pos p)); try reflexivity; lia.
Qed.

(** C8. For any list of sessions handed to the dashboard and any settings:
    [remainingSeats] is [max (0, dailyCapacity - activeTotal)], where
    [activeTotal] is the length of the list; [occupancyPercentage] is
    [min (activeTotal / dailyCapacity * 100, 100)], which for a positive
    capacity is the exact ratio when the sessions fit and 100 otherwise
    (and, for capacity 0, 100 when the list is not empty and NaN when it
    is); [remainingSeats + activeTotal] is at most the capacity when
    [activeTotal] is, and [remainingSeats] is 0 otherwise.  The list the
    dashboard is handed is the active set of a reachable state: all its
    sessions have their check-out absent, so [activeTotal] is the number of
    sessions with check-out absent. *)
Theorem occupancy_figures (active : list Session) (settings : AppSettings) :
  let activeTotal := Z.of_nat (List.length active) in
  let cap := dailyCapacity settings in
  ((exists env tbl w, reachable env tbl w /\ activeSessions (app w) = active) ->
   activeTotal = Z.of_nat (List.length (filter is_active active))) /\
  Dashboard.remainingSeats active settings = Z.max 0 (cap - activeTotal) /\
  Dashboard.occupancyPercentage active settings =
    Dashboard.min100 (Dashboard.times100 (Dashboard.div activeTotal cap)) /\
  (0 < cap -> activeTotal <= cap ->
   Dashboard.occupancyPercentage active settings =
     Dashboard.Finite (inject_Z activeTotal / inject_Z cap * 100)) /\
  (0 < cap -> cap < activeTotal ->
   Dashboard.occupancyPercentage active settings = Dashboard.Finite 100) /\
  (cap = 0 -> 0 < activeTotal ->
   Dashboard.occupancyPercentage active settings = Dashboard.Finite 100) /\
  (cap = 0 -> activeTotal = 0 ->
   Dashboard.occupancyPercentage active settings = Dashboard.NaN) /\
  (activeTotal <= cap ->
   Dashboard.remainingSeats active settings + activeTotal <= cap) /\
  (cap < activeTotal -> Dashboard.remainingSeats active settings = 0).
Proof.
  intros activeTotal cap.
  unfold Dashboard.remainingSeats, Dashboard.occupancyPercentage, Dashboard.capacity.
  fold activeTotal cap.
  split.
  { intros (env & tbl & w & Hr & Hw).
    pose proof (active_only_reachable env tbl w Hr) as Ha. rewrite Hw in Ha.
    rewrite (Forall_active_filter _ Ha). reflexivity. }
  split; [reflexivity|]. split; [reflexivity|].
  split; [|split; [|split; [|split; [|split]]]].
  - intros Hc Hle. unfold Dashboard.div.
    destruct (Z.eqb_spec cap 0); [lia|]. cbn [Dashboard.times100 Dashboard.min100].
    rewrite percentage_below by exact Hc.
    destruct (Z.leb_spec activeTotal cap); [reflexivity|lia].
  - intros Hc Hlt. unfold Dashboard.div.
    destruct (Z.eqb_spec cap 0); [lia|]. cbn [Dashboard.times100 Dashboard.min100].
    rewrite percentage_below by exact Hc.
    destruct (Z.leb_spec activeTotal cap); [lia|reflexivity].
  - intros Hc Hn. unfold Dashboard.div. rewrite Hc. cbn [Z.eqb].
    destruct (Z.eqb_spec activeTotal 0); [lia|].
    destruct (Z.ltb_spec 0 activeTotal); [reflexivity|lia].
  - intros Hc Hn. unfold Dashboard.div. rewrite Hc, Hn. reflexivity.
  - lia.
  - lia.
Qed.

(** ** Offline ids are pairwise distinct under an advancing clock *)

Lemma to_string_inj z1 z2 : Js.to_string z1 = Js.to_string z2 -> z1 = z2.
Proof.
  unfold Js.to_string. intros H.
  assert (Hn : forall z, Z.to_int z <> Decimal.Pos Decimal.Nil /\
                         Z.to_int z <> Decimal.Neg Decimal.Nil).
  { intros z. destruct z; simpl; split; try discriminate; intros E; injection E;
      apply Unsigned.to_uint_nonnil. }
  apply DecimalZ.to_int_inj.
  assert (E : Some (Z.to_int z1) = Some (Z.to_int z2)).
  { rewrite <- (NilZero.isi (Z.to_int z1)), <- (NilZero.isi (Z.to_int z2)); try apply Hn.
    rewrite H. reflexivity. }
  injection E. auto.
Qed.

Section OfflineIds.

Variable env : Env.
Hypothesis Hoff : isSupabaseConfigured env = false.
Hypothesis Hclock : advancing env.

Lemma never_connected st : connected env st = false.
Proof. unfold connected. rewrite Hoff. apply andb_false_r. Qed.

Lemma local_ids_shrink w w' :
  local_ids env w -> (calls w <= calls w')%nat ->
  (exists f, activeSessions (app w') = filter f (activeSessions (app w))) ->
  local_ids env w'.
Proof.
  intros (Hnd & Hid) Hcalls (f & Hf). unfold local_ids. rewrite Hf. split.
  - apply filter_keeps_distinct. exact Hnd.
  - intros s Hs. apply filter_In in Hs. destruct (Hid s (proj1 Hs)) as (k & Hk & Hks).
    exists k. split; [lia|exact Hks].
Qed.

Lemma local_ids_same w w' :
  local_ids env w -> (calls w <= calls w')%nat ->
  activeSessions (app w') = activeSessions (app w) ->
  local_ids env w'.
Proof.
  intros (Hnd & Hid) Hcalls Hf. unfold local_ids. rewrite Hf. split; [exact Hnd|].
  intros s Hs. destruct (Hid s Hs) as (k & Hk & Hks). exists k. split; [lia|exact Hks].
Qed.

Lemma handleCheckOut_calls sessionId notes w :
  (calls w <= calls (snd (handleCheckOut env sessionId notes w)))%nat.
Proof.
  destruct (find (has_id sessionId) (activeSessions (app w))) as [s|] eqn:E.
  - rewrite (handleCheckOut_offline env _ _ _ _ E (never_connected _)). cbn. lia.
  - rewrite (handleCheckOut_not_found env _ _ _ E). cbn. lia.
Qed.

Lemma local_ids_handleCheckOut sessionId notes w :
  local_ids env w -> local_ids env (snd (handleCheckOut env sessionId notes w)).
Proof.
  intros H.
  destruct (find (has_id sessionId) (activeSessions (app w))) as [s|] eqn:E.
  - rewrite (handleCheckOut_offline env _ _ _ _ E (never_connected _)).
    apply (local_ids_shrink w); [exact H|cbn; lia|].
    eexists. reflexivity.
  - rewrite (handleCheckOut_not_found env _ _ _ E). exact H.
Qed.

Lemma monitor_body_calls st now x w :
  (calls w <= calls (snd (monitor_body env st now x w)))%nat.
Proof.
  rewrite monitor_body_unfold.
  destruct (skew now x); [cbn; lia|].
  destruct (auto_due st now x); [apply handleCheckOut_calls|].
  destruct (alert_due st now x); [|cbn; lia].
  destruct (find _ (patrons st)) as [patron|]; [|cbn; lia].
  unfold bind.
  destruct (sendOverdueAlert_run env patron ((now - checkIn x) / 60000)
              (email (notifications (appSettings st))) w) as (evs & -> & _).
  destruct (negb (demoMode st)); [|cbn; lia].
  match goal with
  | |- context [supabase_update env ?a ?b ?w0] =>
      destruct (supabase_update_run env a b w0) as (tbl & -> & _)
  end.
  cbn. lia.
Qed.

Lemma local_ids_monitor w : local_ids env w -> local_ids env (snd (monitor env w)).
Proof.
  intros H. rewrite monitor_unfold.
  destruct (List.length (activeSessions (app w)) =? 0)%nat; [exact H|].
  apply (for_of_invariant (local_ids env)).
  - intros x a _ Ha.
    destruct (monitor_body_cases env (app w) (clock env (calls w)) x a)
      as [(_ & _ & ->)|(_ & Happ & _)].
    + apply local_ids_handleCheckOut. exact Ha.
    + apply (local_ids_same a); [exact Ha|apply monitor_body_calls|].
      rewrite Happ. reflexivity.
  - apply (local_ids_same w); [exact H|cbn; lia|reflexivity].
Qed.

Lemma local_ids_handleCheckIn p w :
  local_ids env w -> local_ids env (snd (handleCheckIn env p w)).
Proof.
  intros H.
  destruct (existsb (fun s => String.eqb (studentId s) p) (activeSessions (app w))) eqn:E.
  - rewrite (handleCheckIn_guard env _ _ E). exact H.
  - rewrite (handleCheckIn_offline env _ _ E (never_connected _)).
    destruct H as (Hnd & Hid). unfold local_ids. cbn. split.
    + rewrite map_app. simpl. apply NoDup_snoc; [exact Hnd|].
      intros Hin. apply in_map_iff in Hin. destruct Hin as (s & Hs & Hin).
      destruct (Hid s Hin) as (k & Hk & Hks). rewrite Hks in Hs.
      injection Hs as Hs. apply to_string_inj in Hs.
      assert (Hlt : clock env k < clock env (S (calls w))) by (apply Hclock; lia).
      lia.
    + intros s Hs. apply in_app_or in Hs. destruct Hs as [Hs|[<-|[]]].
      * destruct (Hid s Hs) as (k & Hk & Hks). exists k. split; [lia|exact Hks].
      * exists (S (calls w)). split; [lia|reflexivity].
Qed.

(** Without a configured store and with an advancing clock, the ids of the
    active set are pairwise distinct in every reachable state. *)
Lemma offline_ids_distinct w :
  reachable env [] w -> NoDup (map id (activeSessions (app w))).
Proof.
  intros Hr.
  assert (H : local_ids env w); [|exact (proj1 H)].
  induction Hr as [|w op _ IH].
  - split; [constructor|intros s []].
  - destruct op as [p|sessionId notes0| |silent startOfDay patronRes settingsRes|newSettings| |];
      simpl.
    + apply local_ids_handleCheckIn. exact IH.
    + apply local_ids_handleCheckOut. exact IH.
    + apply local_ids_monitor. exact IH.
    + apply (local_ids_same w); [exact IH| |].
      * unfold fetchData. run_m. rewrite Hoff. cbn. rewrite orb_true_r.
        destruct (List.length (patrons (app w)) =? 0)%nat; cbn; lia.
      * unfold fetchData. run_m. rewrite Hoff. cbn. rewrite orb_true_r.
        destruct (List.length (patrons (app w)) =? 0)%nat; reflexivity.
    + apply (local_ids_same w); [exact IH| |].
      * unfold saveGlobalSettings. run_m. rewrite Hoff. cbn. rewrite orb_true_r.
        cbn. lia.
      * unfold saveGlobalSettings. run_m. rewrite Hoff. cbn. rewrite orb_true_r.
        reflexivity.
    + exact IH.
    + exact IH.
Qed.

End OfflineIds.

(** ** The theorems at concrete runs *)


Lemma check_out_records_duration_witness :
  find (has_id "local-0") (activeSessions (app Scenario.checked_in)) = Some Scenario.john /\
  Z.max 1 (Js.Math_round (inject_Z (clock Scenario.envB 3 - 0) / 60000)) = 181 /\
  exists c,
    sessionHistory (app (snd (handleCheckOut Scenario.envB "local-0" None Scenario.checked_in)))
      = c :: sessionHistory (app Scenario.checked_in) /\
    duration c = Some 181.
Proof.
  assert (H : find (has_id "local-0") (activeSessions (app Scenario.checked_in))
              = Some Scenario.john) by reflexivity.
  split; [exact H|].
  destruct (check_out_records_duration Scenario.envB Scenario.checked_in "local-0" None
              Scenario.john H) as (Hd & _ & Hoff & _).
  split; [vm_compute; reflexivity|].
  destruct (Hoff eq_refl) as (c & Hc & _ & _ & _ & Hdur).
  exists c. split; [exact Hc|]. rewrite Hdur. vm_compute. reflexivity.
Defined.

Lemma auto_checkout_closes_and_skips_alert_witness :
  activeSessions (app Scenario.checked_in_limited) = ([] ++ Scenario.john :: [])%list /\
  exists t,
    In (mkSession "local-0" "ST-001" (Some "John Doe") 0 (Some t)
          (Some (Z.max 1 (Js.Math_round (Js.minutes_between t 0))))
          (Some AUTO_CHECKOUT_NOTE) None)
       (sessionHistory (app (snd (monitor Scenario.envB Scenario.checked_in_limited)))).
Proof.
  assert (Hl : activeSessions (app Scenario.checked_in_limited)
               = ([] ++ Scenario.john :: [])%list) by reflexivity.
  split; [exact Hl|].
  assert (Hnd : NoDup (map id (activeSessions (app Scenario.checked_in_limited)))).
  { vm_compute. constructor; [simpl; tauto|constructor]. }
  assert (Hpos : (0 <= Js.minutes_between (clock Scenario.envB (calls Scenario.checked_in_limited))
                         (checkIn Scenario.john))%Q).
  { apply Qle_bool_iff. reflexivity. }
  assert (Hdue : (inject_Z (autoCheckoutHours (appSettings (app Scenario.checked_in_limited)) * 60)
                  <= Js.minutes_between (clock Scenario.envB (calls Scenario.checked_in_limited))
                       (checkIn Scenario.john))%Q).
  { apply Qle_bool_iff. reflexivity. }
  destruct (auto_checkout_closes_and_skips_alert Scenario.envB Scenario.checked_in_limited
              [] [] Scenario.john Hl Hnd eq_refl Hpos Hdue) as (_ & Hoff & _).
  destruct (Hoff eq_refl) as (t & Hin & _).
  exists t. exact Hin.
Defined.

Lemma check_in_of_present_patron_is_noop_witness :
  (exists s, In s (activeSessions (app Scenario.checked_in)) /\ studentId s = "ST-001") /\
  handleCheckIn Scenario.envB "ST-001" Scenario.checked_in = (Normal tt, Scenario.checked_in) /\
  sees_open_rows Scenario.online_checked_in /\
  handleCheckIn Scenario.envS "ST-001" Scenario.online_checked_in
    = (Normal tt, Scenario.online_checked_in).
Proof.
  assert (H : exists s, In s (activeSessions (app Scenario.checked_in))
                        /\ studentId s = "ST-001").
  { exists Scenario.john. split; [left; reflexivity|reflexivity]. }
  assert (Hsees : sees_open_rows Scenario.online_checked_in).
  { intros r Hr. vm_compute in Hr. destruct Hr as [<-|[]]. vm_compute. left. reflexivity. }
  split; [exact H|]. split; [|split; [exact Hsees|]].
  - exact (proj1 (check_in_of_present_patron_is_noop Scenario.envB Scenario.checked_in
                    "ST-001") H).
  - apply (proj2 (check_in_of_present_patron_is_noop Scenario.envS
                    Scenario.online_checked_in "ST-001") Hsees).
    eexists. split; [left; reflexivity|reflexivity].
Defined.

Lemma check_out_of_absent_session_is_noop_witness :
  handleCheckOut Scenario.envB "local-9" None Scenario.checked_in
    = (Normal tt, Scenario.checked_in) /\
  (let w1 := snd (handleCheckOut Scenario.envB "local-0" None Scenario.checked_in) in
   handleCheckOut Scenario.envB "local-0" (Some "again") w1 = (Normal tt, w1)) /\
  (let w1 := snd (handleCheckOut Scenario.envS "uuid-2" None Scenario.online_checked_in) in
   let w2 := snd (fetchData Scenario.envS true 0 MOCK_STUDENTS None w1) in
   handleCheckOut Scenario.envS "uuid-2" (Some "again") w2 = (Normal tt, w2)).
Proof.
  split; [|split].
  - apply (proj1 (check_out_of_absent_session_is_noop Scenario.envB Scenario.checked_in
                    "local-9" None None)).
    intros s [<-|[]]. vm_compute. discriminate.
  - apply (proj1 (proj2 (check_out_of_absent_session_is_noop Scenario.envB
                           Scenario.checked_in "local-0" None (Some "again")))).
    reflexivity.
  - refine (proj2 (proj2 (proj2 (check_out_of_absent_session_is_noop Scenario.envS
                             Scenario.online_checked_in "uuid-2" None (Some "again")))
                     true 0 MOCK_STUDENTS None _ eq_refl _ eq_refl eq_refl)).
    reflexivity.
Defined.


Lemma occupancy_figures_witness :
  reachable Scenario.envB [] Scenario.checked_in /\
  List.length (filter is_active (activeSessions (app Scenario.checked_in))) = 1%nat /\
  Dashboard.remainingSeats (activeSessions (app Scenario.checked_in)) DEFAULT_SETTINGS = 119 /\
  Dashboard.occupancyPercentage (activeSessions (app Scenario.checked_in)) DEFAULT_SETTINGS
    = Dashboard.Finite (inject_Z 1 / inject_Z 120 * 100).
Proof.
  assert (H : reachable Scenario.envB [] Scenario.checked_in).
  { apply reachable_exec, reachable_initial. }
  split; [exact H|].
  destruct (occupancy_figures (activeSessions (app Scenario.checked_in)) DEFAULT_SETTINGS)
    as (Hcount & Hrem & _ & Hpct & _).
  split; [|split].
  - apply Nat2Z.inj. rewrite <- Hcount; [reflexivity|].
    exists Scenario.envB, [], Scenario.checked_in. split; [exact H|reflexivity].
  - rewrite Hrem. reflexivity.
  - apply Hpct; vm_compute; congruence.
Defined.



(** * Further properties of the handlers *)

(** X1. Offline, checking in a patron who has no session in the active set
    creates exactly one session: it is appended to the active set and to
    today's list, carries the patron, the clock reading of the call as
    check-in, the id [local-<stamp>] and the registered name of the patron
    if there is one, and has neither check-out, duration, notes nor alert
    flag; the history, the patrons, the settings, the hosted relation and
    the log are untouched. *)
Theorem offline_check_in_creates_session (env : Env) (w : World) (p : string) :
  connected env (app w) = false ->
  (forall s, In s (activeSessions (app w)) -> studentId s <> p) ->
  let w' := snd (handleCheckIn env p w) in
  exists ns,
    activeSessions (app w') = (activeSessions (app w) ++ [ns])%list /\
    todaySessions (app w') = (todaySessions (app w) ++ [ns])%list /\
    studentId ns = p /\
    checkIn ns = clock env (calls w) /\
    id ns = ("local-" ++ Js.to_string (clock env (S (calls w))))%string /\
    studentName ns = option_map Patron.name (Dashboard.getStudent (patrons (app w)) p) /\
    checkOut ns = None /\ duration ns = None /\ notes ns = None /\
    alertTriggered ns = None /\
    sessionHistory (app w') = sessionHistory (app w) /\
    patrons (app w') = patrons (app w) /\
    appSettings (app w') = appSettings (app w) /\
    sessions_table w' = sessions_table w /\
    log w' = log w.
Proof.
  intros Hc Hfree w'.
  assert (E : existsb (fun s => String.eqb (studentId s) p) (activeSessions (app w)) = false).
  { destruct (existsb _ _) eqn:E; auto. apply existsb_exists in E.
    destruct E as (s & Hs & Hp). apply String.eqb_eq in Hp.
    exfalso. exact (Hfree s Hs Hp). }
  subst w'. rewrite (handleCheckIn_offline env _ _ E Hc). cbn.
  exists (newSession env w p). cbn. repeat split.
Qed.

(** X2. Online, when the store refuses the write of a check-in or of a
    check-out, the call still completes normally, no row is added or
    changed, the lists of sessions, the patrons and the settings stay as
    they are, and the status becomes [error] with the message of the
    store. *)
Theorem online_write_failure_is_reported
    (env : Env) (w : World) (message : string) :
  connected env (app w) = true ->
  remote_error env (S (calls w)) = Some message ->
  let reported (w' : World) :=
    sessions_table w' = sessions_table w /\
    activeSessions (app w') = activeSessions (app w) /\
    sessionHistory (app w') = sessionHistory (app w) /\
    todaySessions (app w') = todaySessions (app w) /\
    patrons (app w') = patrons (app w) /\
    appSettings (app w') = appSettings (app w) /\
    syncStatus (app w') = error /\
    syncError (app w') = Some message in
  (forall p, (forall s, In s (activeSessions (app w)) -> studentId s <> p) ->
     fst (handleCheckIn env p w) = Normal tt /\
     reported (snd (handleCheckIn env p w))) /\
  (forall s notes, In s (activeSessions (app w)) ->
     fst (handleCheckOut env (id s) notes w) = Normal tt /\
     reported (snd (handleCheckOut env (id s) notes w))).
Proof.
  intros Hc Hr reported. split.
  - intros p Hfree.
    assert (E : existsb (fun s => String.eqb (studentId s) p) (activeSessions (app w)) = false).
    { destruct (existsb _ _) eqn:E; auto. apply existsb_exists in E.
      destruct E as (s & Hs & Hp). apply String.eqb_eq in Hp.
      exfalso. exact (Hfree s Hs Hp). }
    rewrite (handleCheckIn_online_error env _ _ _ E Hc Hr).
    split; [reflexivity|]. unfold reported. cbn. repeat split.
  - intros s notes Hs.
    destruct (find (has_id (id s)) (activeSessions (app w))) as [s0|] eqn:E.
    + rewrite (handleCheckOut_online_error env _ _ _ _ _ E Hc Hr).
      split; [reflexivity|]. unfold reported. cbn. repeat split.
    + exfalso. apply (find_none _ _ E) in Hs. unfold has_id in Hs.
      rewrite String.eqb_refl in Hs. discriminate.
Qed.

(** X3. Online, an accepted check-out leaves the whole local state as it
    was (the lists are refreshed later by the change feed) and rewrites only
    the rows of that id: the relation keeps its length, a row of another id
    is unchanged, and a row of that id keeps its id, patron, check-in and
    alert flag while its check-out is set to the clock reading of the
    call. *)
Theorem online_check_out_frame
    (env : Env) (w : World) (sessionId : string) (notes : option string) (s : Session) :
  connected env (app w) = true ->
  find (has_id sessionId) (activeSessions (app w)) = Some s ->
  remote_error env (S (calls w)) = None ->
  let w' := snd (handleCheckOut env sessionId notes w) in
  app w' = app w /\
  List.length (sessions_table w') = List.length (sessions_table w) /\
  forall i r, nth_error (sessions_table w) i = Some r ->
    exists r', nth_error (sessions_table w') i = Some r' /\
      (SessionRow.id r <> sessionId -> r' = r) /\
      (SessionRow.id r = sessionId ->
         SessionRow.id r' = SessionRow.id r /\ SessionRow.patron_id r' = SessionRow.patron_id r /\
         SessionRow.check_in r' = SessionRow.check_in r /\
         SessionRow.alert_triggered r' = SessionRow.alert_triggered r /\
         SessionRow.check_out r' = Some (clock env (calls w))).
Proof.
  intros Hc E Hr w'. subst w'.
  rewrite (handleCheckOut_online_ok env _ _ _ _ E Hc Hr). cbn [snd app sessions_table].
  split; [reflexivity|]. split; [apply length_map|].
  intros i r Hi. unfold Remote.update_eq_id. rewrite nth_error_map, Hi. cbn.
  eexists. split; [reflexivity|].
  destruct (String.eqb_spec (SessionRow.id r) sessionId) as [Heq|Hne]; split; intros H;
    try contradiction; cbn; auto.
Qed.

(** X4. The note a check-out records is the text given by the caller,
    except that an absent or empty text is replaced by [Manual Checkout]:
    offline on the closed copy in front of the history, online on the rows
    of the id. *)
Theorem check_out_note
    (env : Env) (w : World) (sessionId : string) (given : option string) (s : Session) :
  find (has_id sessionId) (activeSessions (app w)) = Some s ->
  let recorded :=
    match given with
    | Some (String c rest) => String c rest
    | _ => "Manual Checkout"
    end in
  let w' := snd (handleCheckOut env sessionId given w) in
  (connected env (app w) = false ->
   option_map notes (hd_error (sessionHistory (app w'))) = Some (Some recorded)) /\
  (connected env (app w) = true -> remote_error env (S (calls w)) = None ->
   forall r, In r (sessions_table w') -> SessionRow.id r = sessionId ->
             SessionRow.notes r = Some recorded).
Proof.
  intros E recorded w'.
  assert (Hd : Js.or_default given MANUAL_CHECKOUT_NOTE = recorded).
  { unfold recorded. destruct given as [[|c rest]|]; reflexivity. }
  split.
  - intros Hc. subst w'. rewrite (handleCheckOut_offline env _ _ _ _ E Hc). cbn.
    rewrite Hd. reflexivity.
  - intros Hc Hr r Hin Hid. subst w'.
    rewrite (handleCheckOut_online_ok env _ _ _ _ E Hc Hr) in Hin. cbn in Hin.
    apply update_eq_id_hit in Hin; auto.
    destruct Hin as (r0 & _ & ->). cbn. rewrite Hd. reflexivity.
Qed.

Lemma filter_other_ids (sid : string) (l : list Session) :
  (forall s, In s l -> id s <> sid) ->
  filter (fun s => negb (has_id sid s)) l = l.
Proof.
  induction l as [|x l IH]; simpl; intros Hl; auto.
  unfold has_id at 1. destruct (String.eqb_spec (id x) sid) as [Heq|Hne].
  - exfalso. exact (Hl x (or_introl eq_refl) Heq).
  - simpl. f_equal. apply IH. intros s Hs. apply Hl. right. exact Hs.
Qed.

Lemma find_appended (sid : string) (l : list Session) (ns : Session) :
  (forall s, In s l -> id s <> sid) -> id ns = sid ->
  find (has_id sid) (l ++ [ns]) = Some ns.
Proof.
  intros Hl Hns. induction l as [|x l IH]; simpl.
  - unfold has_id. rewrite Hns, String.eqb_refl. reflexivity.
  - unfold has_id at 1. destruct (String.eqb_spec (id x) sid) as [Heq|Hne].
    + exfalso. exact (Hl x (or_introl eq_refl) Heq).
    + apply IH. intros s Hs. apply Hl. right. exact Hs.
Qed.

(** X5. Offline, a check-in followed by the check-out of the session it
    created, whose id no other session of the active set carries, brings the
    active set back to what it was; the history gains the closed copy of
    that session and today's list holds it closed. *)
Theorem offline_check_in_check_out_round_trip
    (env : Env) (w : World) (p : string) (given : option string) :
  connected env (app w) = false ->
  (forall s, In s (activeSessions (app w)) -> studentId s <> p) ->
  let w1 := snd (handleCheckIn env p w) in
  let ns := newSession env w p in
  (forall s, In s (activeSessions (app w)) -> id s <> id ns) ->
  let w2 := snd (handleCheckOut env (id ns) given w1) in
  activeSessions (app w2) = activeSessions (app w) /\
  (exists c, sessionHistory (app w2) = c :: sessionHistory (app w) /\
             id c = id ns /\ studentId c = p /\ checkIn c = clock env (calls w) /\
             checkOut c = Some (clock env (S (S (calls w)))) /\
             In c (todaySessions (app w2)) /\ ~ In ns (todaySessions (app w2))).
Proof.
  intros Hc Hfree w1 ns Hfresh w2.
  assert (E : existsb (fun s => String.eqb (studentId s) p) (activeSessions (app w)) = false).
  { destruct (existsb _ _) eqn:E; auto. apply existsb_exists in E.
    destruct E as (s & Hs & Hp). apply String.eqb_eq in Hp.
    exfalso. exact (Hfree s Hs Hp). }
  assert (Hw1 : w1 = mkWorld
            (with_todaySessions (fun prev => prev ++ [ns])%list
               (with_activeSessions (fun prev => prev ++ [ns])%list (app w)))
            (sessions_table w) (S (S (calls w))) (log w)).
  { unfold w1. rewrite (handleCheckIn_offline env _ _ E Hc). reflexivity. }
  assert (Hfind : find (has_id (id ns)) (activeSessions (app w1)) = Some ns).
  { rewrite Hw1. cbn [app activeSessions with_todaySessions with_activeSessions].
    apply find_appended; auto. }
  assert (Hc1 : connected env (app w1) = false) by (rewrite Hw1; exact Hc).
  unfold w2. rewrite (handleCheckOut_offline env _ _ _ _ Hfind Hc1).
  rewrite Hw1. cbn [snd app calls activeSessions sessionHistory todaySessions
                    close_locally with_todaySessions with_sessionHistory
                    with_activeSessions].
  split.
  - rewrite filter_app, (filter_other_ids _ _ Hfresh).
    cbn [filter]. unfold has_id. rewrite String.eqb_refl. apply app_nil_r.
  - eexists. split; [reflexivity|]. cbn [id studentId checkIn checkOut closedSession].
    repeat split.
    + rewrite map_app. apply in_or_app. right. cbn [map]. unfold has_id at 1.
      rewrite String.eqb_refl. left. reflexivity.
    + intros Hin. apply in_map_iff in Hin. destruct Hin as (x & Hx & _).
      destruct (has_id (id ns) x) eqn:Ex.
      * discriminate Hx.
      * subst x. unfold has_id in Ex. rewrite String.eqb_refl in Ex. discriminate.
Qed.

(** * Further properties of the monitor and of the alert service *)

(** X6. A tick over an empty active set does nothing, not even read the
    clock; and with automatic check-out and notifications both disabled a
    tick changes neither the state, nor the hosted relation, nor the log. *)
Theorem monitor_idle (env : Env) (w : World) :
  (activeSessions (app w) = [] -> monitor env w = (Normal tt, w)) /\
  (autoCheckoutEnabled (appSettings (app w)) = false ->
   enabled (notifications (appSettings (app w))) = false ->
   app (snd (monitor env w)) = app w /\
   sessions_table (snd (monitor env w)) = sessions_table w /\
   log (snd (monitor env w)) = log w).
Proof.
  split.
  - intros H. rewrite monitor_unfold, H. reflexivity.
  - intros Hauto Hnotif. rewrite monitor_unfold.
    destruct (List.length (activeSessions (app w)) =? 0)%nat; [auto|].
    apply (for_of_invariant
             (fun w0 => app w0 = app w /\ sessions_table w0 = sessions_table w /\
                        log w0 = log w)); [|cbn; auto].
    intros x a _ Ha. rewrite monitor_body_unfold.
    unfold auto_due, alert_due. rewrite Hauto, Hnotif. cbn.
    destruct (skew (clock env (calls w)) x); exact Ha.
Qed.

Section OfflineStore.

Variable env : Env.

Lemma offline_op_leaves_store_alone op w :
  demoMode (app w) = true -> op <> Login ->
  sessions_table (snd (run_op env op w)) = sessions_table w /\
  demoMode (app (snd (run_op env op w))) = true.
Proof.
  intros Hd Hop.
  assert (Hc : forall st, demoMode st = true -> connected env st = false).
  { intros st H. unfold connected. rewrite H. reflexivity. }
  destruct op as [p|sessionId notes0| |silent startOfDay patronRes settingsRes|newSettings| |];
    simpl.
  - destruct (existsb (fun s => String.eqb (studentId s) p) (activeSessions (app w))) eqn:E.
    + rewrite (handleCheckIn_guard env _ _ E). auto.
    + rewrite (handleCheckIn_offline env _ _ E (Hc _ Hd)). cbn. auto.
  - destruct (find (has_id sessionId) (activeSessions (app w))) as [s|] eqn:E.
    + rewrite (handleCheckOut_offline env _ _ _ _ E (Hc _ Hd)). cbn. auto.
    + rewrite (handleCheckOut_not_found env _ _ _ E). auto.
  - rewrite monitor_unfold.
    destruct (List.length (activeSessions (app w)) =? 0)%nat; [auto|].
    apply (for_of_invariant
             (fun w0 => sessions_table w0 = sessions_table w /\
                        demoMode (app w0) = true)); [|cbn; auto].
    intros x a _ (Ht & Hda). rewrite monitor_body_unfold.
    destruct (skew (clock env (calls w)) x); [auto|].
    destruct (auto_due (app w) (clock env (calls w)) x).
    { destruct (find (has_id (id x)) (activeSessions (app a))) as [s|] eqn:E.
      + rewrite (handleCheckOut_offline env _ _ _ _ E (Hc _ Hda)). cbn. auto.
      + rewrite (handleCheckOut_not_found env _ _ _ E). auto. }
    destruct (alert_due (app w) (clock env (calls w)) x); [|auto].
    destruct (find _ (patrons (app w))) as [patron|]; [|auto].
    unfold bind.
    match goal with
    | |- context [sendOverdueAlert env ?p ?m ?e ?w0] =>
        destruct (sendOverdueAlert_run env p m e w0) as (evs & -> & _)
    end.
    rewrite Hd. cbn. auto.
  - unfold fetchData. run_m. rewrite Hd. cbn.
    destruct (List.length (patrons (app w)) =? 0)%nat; cbn; auto.
  - unfold saveGlobalSettings. run_m. rewrite Hd. cbn. auto.
  - cbn. auto.
  - congruence.
Qed.

End OfflineStore.

(** X7. In demo mode nothing reaches the hosted store: whatever sequence of
    check-ins, check-outs, ticks, resynchronisations, changes of settings
    and sign-outs is run from a state in demo mode, the hosted relation
    afterwards is the one before, and the console is still in demo mode. *)
Theorem demo_mode_never_writes_to_store (env : Env) (ops : list Op) (w : World) :
  demoMode (app w) = true ->
  Forall (fun op => op <> Login) ops ->
  sessions_table (exec env ops w) = sessions_table w /\
  demoMode (app (exec env ops w)) = true.
Proof.
  intros Hd Hops. revert w Hd.
  induction Hops as [|op ops Hop _ IH]; intros w Hd; simpl; [auto|].
  destruct (offline_op_leaves_store_alone env op w Hd Hop) as (Ht & Hd').
  destruct (IH _ Hd') as (Ht' & Hd''). unfold exec in *.
  rewrite Ht', Ht. auto.
Qed.

(** X8. Online, a tick never edits the local view: the active set, the
    history, today's list, the patrons and the settings after the tick are
    those before it (what the tick wrote to the store comes back with the
    next refresh). *)
Theorem online_tick_keeps_local_view (env : Env) (w : World) :
  connected env (app w) = true ->
  let w' := snd (monitor env w) in
  activeSessions (app w') = activeSessions (app w) /\
  sessionHistory (app w') = sessionHistory (app w) /\
  todaySessions (app w') = todaySessions (app w) /\
  patrons (app w') = patrons (app w) /\
  appSettings (app w') = appSettings (app w) /\
  demoMode (app w') = demoMode (app w).
Proof.
  intros Hc w'. subst w'. rewrite monitor_unfold.
  destruct (List.length (activeSessions (app w)) =? 0)%nat; [cbn; auto 10|].
  apply (for_of_invariant
           (fun w0 => activeSessions (app w0) = activeSessions (app w) /\
                      sessionHistory (app w0) = sessionHistory (app w) /\
                      todaySessions (app w0) = todaySessions (app w) /\
                      patrons (app w0) = patrons (app w) /\
                      appSettings (app w0) = appSettings (app w) /\
                      demoMode (app w0) = demoMode (app w))); [|cbn; auto 10].
  intros x a _ Ha.
  assert (Hca : connected env (app a) = true).
  { unfold connected in *. destruct Ha as (_ & _ & _ & _ & _ & ->). exact Hc. }
  destruct (monitor_body_cases env (app w) (clock env (calls w)) x a)
    as [(_ & _ & ->)|(_ & -> & _)]; [|exact Ha].
  destruct (handleCheckOut_cases env (id x) (Some AUTO_CHECKOUT_NOTE) a)
    as [[-> _]|[(s0 & c & _ & Hoff & _)|[(t & d & n & _ & -> & _)|(e & -> & _)]]];
    auto.
  congruence.
Qed.

Section AlertCalls.

Variable env : Env.

(** The events one call of the dispatcher adds to the log. *)
Lemma sendOverdueAlert_log student durationMins librarianEmail w :
  let k := calls w in
  let mail :=
    if mail_gate env librarianEmail then
      EdgeFunctionInvoke (Patron.id student) durationMins librarianEmail
      :: match invoke_reply env k with
         | InvokeData => [ConsoleLog]
         | InvokeError e | InvokeRejects e => [ConsoleWarn e]
         end
    else [] in
  log (snd (sendOverdueAlert env student durationMins librarianEmail w)) =
  (log w ++
   OverdueAlert (Patron.id student) durationMins librarianEmail
   :: (if notification_granted env then
         match notification_throws env k with
         | Some e => [ConsoleError e]
         | None =>
             BrowserNotification (Patron.id student) (durationMins / 60)
               (Z.rem durationMins 60) :: mail
         end
       else mail))%list.
Proof.
  unfold sendOverdueAlert, mail_gate. run_m.
  destruct (notification_granted env);
    [destruct (notification_throws env (calls w))|];
    cbn;
    destruct (isSupabaseConfigured env && Js.truthy librarianEmail
              && negb (String.eqb librarianEmail "undefined"));
    cbn; try destruct (invoke_reply env (calls w)); cbn;
    rewrite <- ?app_assoc; reflexivity.
Qed.

Lemma monitor_body_alerts st now x w :
  exists evs,
    log (snd (monitor_body env st now x w)) = (log w ++ evs)%list /\
    (alert_calls evs = [] \/
     exists e, alert_calls evs = [e] /\ alert_justified st now [x] e).
Proof.
  rewrite monitor_body_unfold.
  destruct (skew now x); [exists []; rewrite app_nil_r; auto|].
  destruct (auto_due st now x).
  { exists []. rewrite app_nil_r, handleCheckOut_log. auto. }
  destruct (alert_due st now x) eqn:Hdue; [|exists []; rewrite app_nil_r; auto].
  destruct (find _ (patrons st)) as [patron|] eqn:Hfind;
    [|exists []; rewrite app_nil_r; auto].
  unfold bind.
  destruct (sendOverdueAlert_run env patron ((now - checkIn x) / 60000)
              (email (notifications (appSettings st))) w) as (evs & -> & Hevs).
  exists (OverdueAlert (Patron.id patron) ((now - checkIn x) / 60000)
            (email (notifications (appSettings st))) :: evs).
  split.
  - destruct (negb (demoMode st)); [|reflexivity].
    match goal with
    | |- context [supabase_update env ?a ?b ?w0] =>
        destruct (supabase_update_run env a b w0) as (tbl & -> & _)
    end.
    reflexivity.
  - right. eexists. split.
    + change (alert_calls (?e :: ?l)) with (e :: alert_calls l). rewrite Hevs.
      reflexivity.
    + unfold alert_due in Hdue. apply andb_true_iff in Hdue.
      destruct Hdue as [Hdue Hthr]. apply andb_true_iff in Hdue.
      destruct Hdue as [Hen Hpend]. apply Z.leb_le in Hthr.
      apply find_some in Hfind. destruct Hfind as [Hin Hid].
      apply String.eqb_eq in Hid.
      cbn. repeat split; auto.
      * apply Z.div_le_lower_bound; lia.
      * exists patron. auto.
      * exists x. repeat split; auto.
Qed.

Lemma alert_justified_incl st now l l' e :
  incl l l' -> alert_justified st now l e -> alert_justified st now l' e.
Proof.
  intros Hl. destruct e; cbn; auto.
  intros (H1 & H2 & H3 & H4 & s & Hs & H5). repeat split; auto.
  exists s. split; auto.
Qed.

Lemma fold_alerts st now (l : list Session) :
  forall w,
  exists evs,
    log (fold_left (fun w0 x => snd (monitor_body env st now x w0)) l w)
      = (log w ++ evs)%list /\
    (List.length (alert_calls evs) <= List.length l)%nat /\
    Forall (alert_justified st now l) (alert_calls evs).
Proof.
  induction l as [|x l IH]; intros w; simpl.
  - exists []. rewrite app_nil_r. repeat split; auto.
  - destruct (monitor_body_alerts st now x w) as (e1 & H1 & Hx).
    destruct (IH (snd (monitor_body env st now x w))) as (e2 & H2 & Hlen & Hall).
    exists (e1 ++ e2)%list. rewrite H2, H1, app_assoc. split; [reflexivity|].
    unfold alert_calls in *. rewrite filter_app, length_app. split.
    + destruct Hx as [->|(e & -> & _)]; simpl; lia.
    + apply Forall_app. split.
      * destruct Hx as [->|(e & -> & He)]; constructor; [|constructor].
        apply (alert_justified_incl st now [x]); auto.
        intros y [<-|[]]. left. reflexivity.
      * eapply Forall_impl; [|exact Hall].
        intros e. apply alert_justified_incl. intros y Hy. right. exact Hy.
Qed.

End AlertCalls.


(** X10. One call of the dispatcher: if the browser notification is
    permitted and throws, the edge function is not called at all and the
    failure is logged as an error; otherwise the edge function is called
    exactly when the store is configured and the recipient is neither empty
    nor the text [undefined], and exactly once; a browser notification is
    shown only with permission.  The call never touches the state or the
    hosted relation. *)
Theorem alert_delivery_channels
    (env : Env) (student : Patron.t) (durationMins : Z) (librarianEmail : string)
    (w : World) :
  let w' := snd (sendOverdueAlert env student durationMins librarianEmail w) in
  exists evs,
    log w' = (log w ++ evs)%list /\
    app w' = app w /\ sessions_table w' = sessions_table w /\
    (forall e, notification_granted env = true ->
       notification_throws env (calls w) = Some e ->
       filter is_invoke evs = [] /\ In (ConsoleError e) evs) /\
    (~ (notification_granted env = true /\ notification_throws env (calls w) <> None) ->
       filter is_invoke evs =
         if mail_gate env librarianEmail
         then [EdgeFunctionInvoke (Patron.id student) durationMins librarianEmail]
         else []) /\
    (notification_granted env = false -> filter is_notification evs = []).
Proof.
  intros w'. subst w'. eexists. split; [apply sendOverdueAlert_log|].
  destruct (sendOverdueAlert_run env student durationMins librarianEmail w)
    as (evs0 & -> & _). cbn [snd app sessions_table].
  split; [reflexivity|]. split; [reflexivity|].
  split; [|split].
  - intros e Hg Ht. rewrite Hg, Ht. cbn. auto.
  - intros Hnot.
    destruct (notification_granted env) eqn:Hg.
    + destruct (notification_throws env (calls w)) eqn:Ht.
      * exfalso. apply Hnot. split; [reflexivity|discriminate].
      * destruct (mail_gate env librarianEmail); cbn; [|reflexivity].
        destruct (invoke_reply env (calls w)); reflexivity.
    + destruct (mail_gate env librarianEmail); cbn; [|reflexivity].
      destruct (invoke_reply env (calls w)); reflexivity.
  - intros Hg. rewrite Hg.
    destruct (mail_gate env librarianEmail); cbn; [|reflexivity].
    destruct (invoke_reply env (calls w)); reflexivity.
Qed.

(** X11. The browser notification of an alert for a non-negative number of
    minutes shows hours and minutes that add up to it, the minutes being
    below 60. *)
Theorem alert_notification_body
    (env : Env) (student : Patron.t) (durationMins : Z) (librarianEmail : string)
    (w : World) :
  0 <= durationMins ->
  notification_granted env = true ->
  notification_throws env (calls w) = None ->
  exists hours minutes,
    In (BrowserNotification (Patron.id student) hours minutes)
       (log (snd (sendOverdueAlert env student durationMins librarianEmail w))) /\
    hours * 60 + minutes = durationMins /\ 0 <= minutes < 60 /\ 0 <= hours.
Proof.
  intros Hpos Hg Ht.
  exists (durationMins / 60), (Z.rem durationMins 60).
  rewrite sendOverdueAlert_log, Hg, Ht.
  split; [apply in_or_app; right; right; left; reflexivity|].
  rewrite Z.rem_mod_nonneg by lia.
  pose proof (Z.div_mod durationMins 60 ltac:(lia)).
  pose proof (Z.mod_pos_bound durationMins 60 ltac:(lia)).
  pose proof (Z.div_pos durationMins 60 Hpos ltac:(lia)).
  lia.
Qed.

(** * Further properties of the resynchronisation and of the settings *)

Section Ordering.


Lemma insert_desc_In r l x :
  In x (Remote.insert_desc r l) <-> x = r \/ In x l.
Proof.
  induction l as [|y l IH]; simpl.
  - intuition auto.
  - destruct (Remote.check_out_key y <=? Remote.check_out_key r); simpl.
    + intuition auto.
    + rewrite IH. intuition auto.
Qed.

Lemma insert_desc_length r l :
  List.length (Remote.insert_desc r l) = S (List.length l).
Proof.
  induction l as [|y l IH]; simpl; auto.
  destruct (Remote.check_out_key y <=? Remote.check_out_key r); simpl; auto.
Qed.

Lemma insert_desc_sorted r l :
  Sorted later_row l -> Sorted later_row (Remote.insert_desc r l).
Proof.
  induction 1 as [|y l Hl IH Hy]; simpl.
  - repeat constructor.
  - destruct (Z.leb_spec (Remote.check_out_key y) (Remote.check_out_key r)).
    + constructor; [constructor; assumption|]. constructor. exact H.
    + constructor; [exact IH|].
      destruct l as [|z l]; simpl.
      * constructor. unfold later_row. lia.
      * destruct (Remote.check_out_key z <=? Remote.check_out_key r).
        -- constructor. unfold later_row. lia.
        -- constructor. inversion Hy. assumption.
Qed.

Lemma order_desc_In l x : In x (Remote.order_desc l) <-> In x l.
Proof.
  unfold Remote.order_desc. induction l as [|y l IH]; simpl; [tauto|].
  rewrite insert_desc_In, IH. intuition auto.
Qed.

Lemma order_desc_length l : List.length (Remote.order_desc l) = List.length l.
Proof.
  unfold Remote.order_desc. induction l as [|y l IH]; simpl; auto.
  rewrite insert_desc_length, IH. reflexivity.
Qed.

Lemma order_desc_sorted l : Sorted later_row (Remote.order_desc l).
Proof.
  unfold Remote.order_desc. induction l as [|y l IH]; simpl.
  - constructor.
  - apply insert_desc_sorted. exact IH.
Qed.

Lemma firstn_sorted {A} (R : A -> A -> Prop) n (l : list A) :
  Sorted R l -> Sorted R (firstn n l).
Proof.
  revert l. induction n as [|n IH]; intros l Hl; simpl; [constructor|].
  destruct l as [|x l]; [constructor|].
  inversion Hl as [|? ? Hs Hh]; subst. constructor; [apply IH; exact Hs|].
  destruct n; simpl; [constructor|].
  destruct l as [|y l]; [constructor|]. inversion Hh; subst. constructor. assumption.
Qed.

Lemma history_sorted tbl :
  Sorted later_first (map history_of_row (Remote.select_history tbl)).
Proof.
  unfold Remote.select_history.
  assert (H : Sorted later_row
                (firstn 100 (Remote.order_desc
                               (filter (fun r => negb (Remote.is_open r)) tbl)))).
  { apply firstn_sorted, order_desc_sorted. }
  induction H as [|r l Hl IH Hr]; simpl; constructor; auto.
  destruct l as [|r' l]; simpl; constructor.
  inversion Hr; subst. exact H0.
Qed.

End Ordering.

Section FetchMore.

Variable env : Env.

Lemma fetchData_online_error silent startOfDay patronRes settingsRes w message :
  connected env (app w) = true ->
  remote_error env (calls w) = Some message ->
  fetchData env silent startOfDay patronRes settingsRes w =
  (Normal tt,
   mkWorld (sync_failed message
              (if silent then app w else with_syncStatus syncing (app w)))
     (sessions_table w) (S (calls w)) (log w)).
Proof.
  intros Hc Hr. apply connected_true in Hc. destruct Hc as [Hd Hs].
  unfold fetchData. run_m. rewrite Hd, Hs. cbn.
  destruct silent; run_m; rewrite Hr; reflexivity.
Qed.

Lemma fetchData_online_rest silent startOfDay patronRes settingsRes w :
  connected env (app w) = true ->
  remote_error env (calls w) = None ->
  let w' := snd (fetchData env silent startOfDay patronRes settingsRes w) in
  patrons (app w') = patronRes /\
  appSettings (app w') =
    match settingsRes with Some a => a | None => appSettings (app w) end /\
  syncStatus (app w') = online /\
  syncError (app w') = syncError (app w) /\
  lastSync (app w') = clock env (S (calls w)) /\
  log w' = log w.
Proof.
  intros Hc Hr. apply connected_true in Hc. destruct Hc as [Hd Hs].
  unfold fetchData. run_m. rewrite Hd, Hs. cbn.
  destruct silent, settingsRes; run_m; rewrite Hr; cbn; auto 10.
Qed.

End FetchMore.

(** X12. A resynchronisation that fails keeps everything the console
    holds: patrons, active set, history, today's list and settings are those
    before the call, the hosted relation is untouched, the call completes
    normally, and the status becomes [error] with the message of the
    store. *)
Theorem failed_fetch_keeps_local_data
    (env : Env) (w : World) (silent : bool) (startOfDay : Z)
    (patronRes : list Patron.t) (settingsRes : option AppSettings) (message : string) :
  connected env (app w) = true ->
  remote_error env (calls w) = Some message ->
  let r := fetchData env silent startOfDay patronRes settingsRes w in
  fst r = Normal tt /\
  patrons (app (snd r)) = patrons (app w) /\
  activeSessions (app (snd r)) = activeSessions (app w) /\
  sessionHistory (app (snd r)) = sessionHistory (app w) /\
  todaySessions (app (snd r)) = todaySessions (app w) /\
  appSettings (app (snd r)) = appSettings (app w) /\
  sessions_table (snd r) = sessions_table w /\
  syncStatus (app (snd r)) = error /\
  syncError (app (snd r)) = Some message.
Proof.
  intros Hc Hr r. subst r.
  rewrite (fetchData_online_error env silent _ _ _ _ _ Hc Hr).
  destruct silent; cbn; auto 10.
Qed.

(** X13. After a resynchronisation that succeeds the three lists are
    projections of the hosted relation: the active set is the open rows, in
    their order, each with check-out absent and the alert flag of its row;
    the history holds closed rows only, at most 100 of them, most recent
    check-out first, and all of them when there are no more than 100; today's
    list is the rows checked in at or after the start of the day.  The
    patrons are those received, the status is [online], and the hosted
    relation is not written. *)
Theorem successful_fetch_projects_store
    (env : Env) (w : World) (silent : bool) (startOfDay : Z)
    (patronRes : list Patron.t) (settingsRes : option AppSettings) :
  connected env (app w) = true ->
  remote_error env (calls w) = None ->
  let w' := snd (fetchData env silent startOfDay patronRes settingsRes w) in
  let tbl := sessions_table w in
  let closed := filter (fun r => negb (Remote.is_open r)) tbl in
  sessions_table w' = tbl /\
  map (fun s => (id s, studentId s, checkIn s, alertTriggered s)) (activeSessions (app w'))
    = map (fun r => (SessionRow.id r, SessionRow.patron_id r, SessionRow.check_in r,
                     Some (SessionRow.alert_triggered r)))
          (filter Remote.is_open tbl) /\
  Forall (fun s => is_active s = true) (activeSessions (app w')) /\
  Forall (fun s => is_active s = false) (sessionHistory (app w')) /\
  List.length (sessionHistory (app w')) = Nat.min 100 (List.length closed) /\
  Sorted later_first (sessionHistory (app w')) /\
  (forall s, In s (sessionHistory (app w')) -> exists r, In r closed /\ s = history_of_row r) /\
  ((List.length closed <= 100)%nat ->
   forall r, In r closed -> In (history_of_row r) (sessionHistory (app w'))) /\
  (forall s, In s (todaySessions (app w')) <->
             exists r, In r tbl /\ startOfDay <= SessionRow.check_in r /\ s = today_of_row r) /\
  patrons (app w') = patronRes /\
  syncStatus (app w') = online.
Proof.
  intros Hc Hr w' tbl closed.
  destruct (fetchData_online_ok env silent startOfDay patronRes settingsRes w Hc Hr)
    as (Ha & Ht & Hh & _ & Htbl).
  destruct (fetchData_online_rest env silent startOfDay patronRes settingsRes w Hc Hr)
    as (Hp & _ & Hs & _).
  fold w' in Ha, Ht, Hh, Htbl, Hp, Hs.
  rewrite Ha, Ht, Hh.
  split; [exact Htbl|]. split.
  { unfold Remote.select_active. rewrite map_map. reflexivity. }
  split.
  { apply Forall_forall. intros s Hin. apply in_map_iff in Hin.
    destruct Hin as (r & <- & _). reflexivity. }
  assert (Hin_hist : forall r, In r (Remote.select_history tbl) -> In r closed).
  { intros r Hin. unfold Remote.select_history in Hin.
    apply order_desc_In. rewrite <- (firstn_skipn 100).
    apply in_or_app. left. exact Hin. }
  split.
  { apply Forall_forall. intros s Hin. apply in_map_iff in Hin.
    destruct Hin as (r & <- & Hin). apply Hin_hist in Hin.
    apply filter_In in Hin. destruct Hin as [_ Hin].
    unfold is_active, Remote.is_open in *. cbn. destruct (SessionRow.check_out r); auto. }
  split.
  { rewrite length_map. unfold Remote.select_history.
    rewrite length_firstn, order_desc_length. reflexivity. }
  split; [apply history_sorted|].
  split.
  { intros s Hin. apply in_map_iff in Hin. destruct Hin as (r & <- & Hin).
    exists r. split; [apply Hin_hist; exact Hin|reflexivity]. }
  split.
  { intros Hlen r Hin. apply in_map. unfold Remote.select_history.
    rewrite firstn_all2 by (rewrite order_desc_length; exact Hlen).
    apply order_desc_In. exact Hin. }
  split; [|split; [exact Hp|exact Hs]].
  intros s. rewrite in_map_iff. unfold Remote.select_today. split.
  - intros (r & <- & Hin). apply filter_In in Hin. destruct Hin as [Hin Hge].
    exists r. split; [exact Hin|]. split; [apply Z.leb_le; exact Hge|reflexivity].
  - intros (r & Hin & Hge & ->). exists r. split; [reflexivity|].
    apply filter_In. split; [exact Hin|apply Z.leb_le; exact Hge].
Qed.

(** X14. Resynchronising twice in a row, both times with success and the
    same replies, gives the lists, patrons and settings of resynchronising
    once. *)
Theorem fetch_twice_is_fetch_once
    (env : Env) (w : World) (silent silent' : bool) (startOfDay : Z)
    (patronRes : list Patron.t) (settingsRes : option AppSettings) :
  connected env (app w) = true ->
  remote_error env (calls w) = None ->
  remote_error env (S (S (calls w))) = None ->
  let w1 := snd (fetchData env silent startOfDay patronRes settingsRes w) in
  let w2 := snd (fetchData env silent' startOfDay patronRes settingsRes w1) in
  activeSessions (app w2) = activeSessions (app w1) /\
  sessionHistory (app w2) = sessionHistory (app w1) /\
  todaySessions (app w2) = todaySessions (app w1) /\
  patrons (app w2) = patrons (app w1) /\
  appSettings (app w2) = appSettings (app w1) /\
  sessions_table w2 = sessions_table w.
Proof.
  intros Hc Hr Hr2 w1 w2.
  destruct (fetchData_online_ok env silent startOfDay patronRes settingsRes w Hc Hr)
    as (Ha & Ht & Hh & Hd & Htbl).
  destruct (fetchData_online_rest env silent startOfDay patronRes settingsRes w Hc Hr)
    as (Hp & Hs & _).
  fold w1 in Ha, Ht, Hh, Hd, Htbl, Hp, Hs.
  assert (Hc1 : connected env (app w1) = true).
  { unfold connected in *. rewrite Hd. exact Hc. }
  assert (Hcalls : calls w1 = S (S (calls w))).
  { unfold w1. apply connected_true in Hc. destruct Hc as [Hd0 Hs0].
    unfold fetchData. run_m. rewrite Hd0, Hs0. cbn.
    destruct silent, settingsRes; run_m; rewrite Hr; reflexivity. }
  assert (Hr1 : remote_error env (calls w1) = None) by (rewrite Hcalls; exact Hr2).
  destruct (fetchData_online_ok env silent' startOfDay patronRes settingsRes w1 Hc1 Hr1)
    as (Ha2 & Ht2 & Hh2 & _ & Htbl2).
  destruct (fetchData_online_rest env silent' startOfDay patronRes settingsRes w1 Hc1 Hr1)
    as (Hp2 & Hs2 & _).
  fold w2 in Ha2, Ht2, Hh2, Htbl2, Hp2, Hs2.
  rewrite Ha2, Ht2, Hh2, Hp2, Hs2, Htbl2, Htbl, Ha, Ht, Hh, Hp, Hs.
  repeat split. destruct settingsRes; reflexivity.
Qed.

(** X15. In demo mode, or without a configured store, a resynchronisation
    makes no request: it sets the status to [offline], loads the mock
    patrons if and only if the console holds no patron, and leaves the lists
    of sessions, the settings, the hosted relation and the oracle alone. *)
Theorem offline_fetch_only_seeds_patrons
    (env : Env) (w : World) (silent : bool) (startOfDay : Z)
    (patronRes : list Patron.t) (settingsRes : option AppSettings) :
  demoMode (app w) = true \/ isSupabaseConfigured env = false ->
  let w' := snd (fetchData env silent startOfDay patronRes settingsRes w) in
  syncStatus (app w') = offline /\
  patrons (app w') =
    match patrons (app w) with [] => MOCK_STUDENTS | _ :: _ => patrons (app w) end /\
  activeSessions (app w') = activeSessions (app w) /\
  sessionHistory (app w') = sessionHistory (app w) /\
  todaySessions (app w') = todaySessions (app w) /\
  appSettings (app w') = appSettings (app w) /\
  sessions_table w' = sessions_table w /\
  calls w' = calls w /\ log w' = log w.
Proof.
  intros Hoff w'. subst w'. unfold fetchData. run_m.
  assert (E : demoMode (app w) || negb (isSupabaseConfigured env) = true).
  { destruct Hoff as [-> | ->]; [reflexivity|apply orb_true_r]. }
  rewrite E. destruct (patrons (app w)) eqn:Ep; cbn; repeat split; auto.
Qed.

(** X16. Saving the settings: in demo mode, or without a configured store,
    the settings of the console become the saved ones at once, and saving
    twice keeps the last; online the local settings stay as they are (the
    saved row comes back with a resynchronisation) and a refusal of the
    store sets the status to [error] with its message.  In no case are the
    sessions, the patrons or the hosted relation of sessions touched. *)
Theorem save_settings_effect (env : Env) (w : World) (a b : AppSettings) :
  let w' := snd (saveGlobalSettings env a w) in
  (activeSessions (app w') = activeSessions (app w) /\
   sessionHistory (app w') = sessionHistory (app w) /\
   todaySessions (app w') = todaySessions (app w) /\
   patrons (app w') = patrons (app w) /\
   sessions_table w' = sessions_table w) /\
  (demoMode (app w) = true \/ isSupabaseConfigured env = false ->
   appSettings (app w') = a /\
   appSettings (app (snd (saveGlobalSettings env b w'))) = b /\
   syncStatus (app w') = syncStatus (app w)) /\
  (connected env (app w) = true ->
   appSettings (app w') = appSettings (app w) /\
   (forall message, remote_error env (calls w) = Some message ->
      syncStatus (app w') = error /\ syncError (app w') = Some message) /\
   (remote_error env (calls w) = None -> app w' = app w)).
Proof.
  intros w'. subst w'. split; [|split].
  - unfold saveGlobalSettings. run_m.
    destruct (demoMode (app w) || negb (isSupabaseConfigured env)); cbn; auto.
    destruct (remote_error env (calls w)); cbn; auto.
  - intros Hoff.
    assert (E : demoMode (app w) || negb (isSupabaseConfigured env) = true).
    { destruct Hoff as [-> | ->]; [reflexivity|apply orb_true_r]. }
    unfold saveGlobalSettings. run_m. rewrite E. cbn. rewrite E. cbn. auto.
  - intros Hc. apply connected_true in Hc. destruct Hc as [Hd Hs].
    unfold saveGlobalSettings. run_m. rewrite Hd, Hs. cbn.
    destruct (remote_error env (calls w)) as [e|]; cbn; split; auto; split.
    + intros m Hm. injection Hm as ->. auto.
    + discriminate.
    + discriminate.
    + reflexivity.
Qed.

(** * The dashboard counters, the cards and the desk *)

Lemma visits_fold students (l : list Session) (acc : Dashboard.Visits) :
  let v := fold_left (Dashboard.count_visit students) l acc in
  Dashboard.of_Student v = Dashboard.of_Student acc + count (counts_as_student students) l /\
  Dashboard.of_Staff v = Dashboard.of_Staff acc + count (counts_as_staff students) l /\
  Dashboard.of_Visitor v = Dashboard.of_Visitor acc + count (counts_as_visitor students) l.
Proof.
  revert acc. induction l as [|s l IH]; intros acc; simpl.
  - unfold count. simpl. lia.
  - destruct (IH (Dashboard.count_visit students acc s)) as (H1 & H2 & H3).
    rewrite H1, H2, H3. clear IH H1 H2 H3.
    unfold count, counts_as_student, counts_as_staff, counts_as_visitor,
      category_of, Dashboard.count_visit. simpl.
    destruct (option_map Patron.category (Dashboard.getStudent students (studentId s)))
      as [[| | |]|]; simpl; lia.
Qed.

(** X17. The visits of the day are split into students, staff and visitors
    without loss or double count: the three counters add up to the number
    of today's sessions.  A session counts as a student's or as staff's by
    the category of its registered patron, and as a visitor's when the
    patron is an external visitor or is not in the registry at all. *)
Theorem visits_by_category_partition
    (todaySessions : list Session) (students : list Patron.t) :
  let v := Dashboard.visitsByCategory todaySessions students in
  Dashboard.of_Student v = count (counts_as_student students) todaySessions /\
  Dashboard.of_Staff v = count (counts_as_staff students) todaySessions /\
  Dashboard.of_Visitor v = count (counts_as_visitor students) todaySessions /\
  Dashboard.of_Student v + Dashboard.of_Staff v + Dashboard.of_Visitor v
    = Dashboard.todayVisits todaySessions /\
  (forall s, In s todaySessions ->
     Dashboard.getStudent students (studentId s) = None ->
     counts_as_visitor students s = true).
Proof.
  intros v.
  destruct (visits_fold students todaySessions (Dashboard.mkVisits 0 0 0))
    as (H1 & H2 & H3).
  fold (Dashboard.visitsByCategory todaySessions students) in H1, H2, H3.
  fold v in H1, H2, H3. cbn in H1, H2, H3.
  split; [exact H1|]. split; [exact H2|]. split; [exact H3|]. split.
  - rewrite H1, H2, H3. unfold Dashboard.todayVisits, count.
    clear. induction todaySessions as [|s l IH]; simpl; [reflexivity|].
    unfold counts_as_student, counts_as_staff, counts_as_visitor in *.
    destruct (category_of students s) as [[| | |]|]; simpl List.length; lia.
  - intros s _ Hnone. unfold counts_as_visitor, category_of. rewrite Hnone.
    reflexivity.
Qed.

(** X18. The two counters of the active patrons split the active set: the
    students counted are the sessions whose patron is a registered student,
    there are never more of them than sessions, and the others are the
    rest, so neither counter is negative and they add up to the size of the
    active set. *)
Theorem active_counters_split
    (activeSessions : list Session) (students : list Patron.t) :
  let n := Z.of_nat (List.length activeSessions) in
  Dashboard.activeStudentsCount activeSessions students
    = count (counts_as_student students) activeSessions /\
  0 <= Dashboard.activeStudentsCount activeSessions students <= n /\
  0 <= Dashboard.activeOthersCount activeSessions students /\
  Dashboard.activeStudentsCount activeSessions students
  + Dashboard.activeOthersCount activeSessions students = n.
Proof.
  intros n. unfold Dashboard.activeOthersCount, Dashboard.activeStudentsCount.
  assert (Hf : filter (Dashboard.is_student students) activeSessions
               = filter (counts_as_student students) activeSessions).
  { apply filter_ext. intros s.
    unfold Dashboard.is_student, counts_as_student, category_of.
    destruct (Dashboard.getStudent students (studentId s)) as [p|]; simpl; auto. }
  rewrite Hf. fold (count (counts_as_student students) activeSessions).
  pose proof (filter_length_le (counts_as_student students) activeSessions) as Hle.
  unfold count. fold n. unfold n. split; [reflexivity|]. lia.
Qed.

Lemma floor_div (a k : Z) :
  0 < k -> Js.Math_floor (inject_Z a / inject_Z k) = a / k.
Proof.
  intros Hk. destruct k as [|p|p]; try lia.
  unfold Js.Math_floor, Qdiv, Qmult, Qinv, inject_Z. cbn -[Z.mul Z.div Pos.mul].
  rewrite Z.mul_1_r, Pos.mul_1_l. reflexivity.
Qed.

(** X19. For a check-in that is not in the future, the three numbers a card
    shows as [h m s] are the elapsed time cut into hours, minutes below 60
    and seconds below 60: together they are the elapsed milliseconds up to
    the last, incomplete second. *)
Theorem format_duration_parts (now checkIn_ : Z) :
  checkIn_ <= now ->
  let '(hours, mins, secs) := ActiveSessions.duration_parts now checkIn_ in
  0 <= hours /\ 0 <= mins < 60 /\ 0 <= secs < 60 /\
  hours * 3600000 + mins * 60000 + secs * 1000 <= now - checkIn_
    < hours * 3600000 + mins * 60000 + secs * 1000 + 1000.
Proof.
  intros Hle. unfold ActiveSessions.duration_parts.
  change (inject_Z (now - checkIn_) / 3600000)%Q
    with (inject_Z (now - checkIn_) / inject_Z 3600000)%Q.
  change (inject_Z (Z.rem (now - checkIn_) 3600000) / 60000)%Q
    with (inject_Z (Z.rem (now - checkIn_) 3600000) / inject_Z 60000)%Q.
  change (inject_Z (Z.rem (now - checkIn_) 60000) / 1000)%Q
    with (inject_Z (Z.rem (now - checkIn_) 60000) / inject_Z 1000)%Q.
  rewrite !floor_div by lia.
  set (d := now - checkIn_). assert (Hd : 0 <= d) by (unfold d; lia).
  rewrite !Z.rem_mod_nonneg by lia.
  pose proof (Z.div_mod d 3600000 ltac:(lia)) as H1.
  pose proof (Z.mod_pos_bound d 3600000 ltac:(lia)) as H2.
  pose proof (Z.div_mod (d mod 3600000) 60000 ltac:(lia)) as H3.
  pose proof (Z.mod_pos_bound (d mod 3600000) 60000 ltac:(lia)) as H4.
  pose proof (Z.div_mod (d mod 60000) 1000 ltac:(lia)) as H5.
  pose proof (Z.mod_pos_bound (d mod 60000) 1000 ltac:(lia)) as H6.
  pose proof (Z.mod_pos_bound d 60000 ltac:(lia)) as H7.
  assert (H8 : (d mod 3600000) mod 60000 = d mod 60000).
  { apply Z.mod_mod_divide. exists 60. reflexivity. }
  pose proof (Z.div_pos d 3600000 Hd ltac:(lia)).
  assert (0 <= (d mod 3600000) / 60000 < 60).
  { split; [apply Z.div_pos; lia|apply Z.div_lt_upper_bound; lia]. }
  assert (0 <= (d mod 60000) / 1000 < 60).
  { split; [apply Z.div_pos; lia|apply Z.div_lt_upper_bound; lia]. }
  lia.
Qed.

(** X20. The countdown to the automatic check-out is never negative; it
    shows minutes and seconds below 60 that make up the remaining time up to
    the last, incomplete second; and it is at zero exactly when the elapsed
    time has reached the limit, which is the test by which the monitor
    closes the session. *)
Theorem time_remaining_countdown (now checkIn_ limitHours : Z) :
  let r := ActiveSessions.remainingMs now checkIn_ limitHours in
  let '(mins, secs) := ActiveSessions.remaining_parts now checkIn_ limitHours in
  0 <= r /\ 0 <= mins /\ 0 <= secs < 60 /\
  mins * 60000 + secs * 1000 <= r < mins * 60000 + secs * 1000 + 1000 /\
  (r = 0 <-> limitHours * 3600000 <= now - checkIn_) /\
  (r = 0 <-> (inject_Z (limitHours * 60) <= Js.minutes_between now checkIn_)%Q).
Proof.
  unfold ActiveSessions.remaining_parts.
  set (r := ActiveSessions.remainingMs now checkIn_ limitHours).
  change (inject_Z r / 60000)%Q with (inject_Z r / inject_Z 60000)%Q.
  change (inject_Z (Z.rem r 60000) / 1000)%Q
    with (inject_Z (Z.rem r 60000) / inject_Z 1000)%Q.
  rewrite !floor_div by lia.
  assert (Hr : 0 <= r) by (unfold r, ActiveSessions.remainingMs; lia).
  rewrite Z.rem_mod_nonneg by lia.
  pose proof (Z.div_mod r 60000 ltac:(lia)) as H1.
  pose proof (Z.mod_pos_bound r 60000 ltac:(lia)) as H2.
  pose proof (Z.div_mod (r mod 60000) 1000 ltac:(lia)) as H3.
  pose proof (Z.mod_pos_bound (r mod 60000) 1000 ltac:(lia)) as H4.
  pose proof (Z.div_pos r 60000 Hr ltac:(lia)).
  assert (0 <= (r mod 60000) / 1000 < 60).
  { split; [apply Z.div_pos; lia|apply Z.div_lt_upper_bound; lia]. }
  assert (Hz : r = 0 <-> limitHours * 3600000 <= now - checkIn_).
  { unfold r, ActiveSessions.remainingMs. lia. }
  repeat split; try lia; try tauto.
  - intros Hzero. apply ge_iff. rewrite JsFacts.ge_minutes. apply Z.leb_le. lia.
  - intros Hq. apply ge_iff in Hq. rewrite JsFacts.ge_minutes in Hq.
    apply Z.leb_le in Hq. lia.
Qed.

Lemma floor_minutes_ge (now checkIn_ n : Z) :
  (n <=? (now - checkIn_) / 60000) = (n * 60000 <=? now - checkIn_).
Proof.
  pose proof (Z.div_mod (now - checkIn_) 60000 ltac:(lia)).
  pose proof (Z.mod_pos_bound (now - checkIn_) 60000 ltac:(lia)).
  destruct (Z.leb_spec n ((now - checkIn_) / 60000)),
           (Z.leb_spec (n * 60000) (now - checkIn_)); try reflexivity; lia.
Qed.

(** X21. The flags of a card agree with the monitor, at the same clock
    reading and under the same settings.  A card is marked overdue exactly
    when the elapsed time has reached the alert threshold, so the monitor's
    alert test is: notifications enabled, flag not set, card overdue.  A
    card marked as nearing the limit is one the monitor would not close yet,
    and it has at most 30 whole minutes left. *)
Theorem card_flags_agree_with_monitor (st : AppState) (now : Z) (s : Session) :
  (ActiveSessions.isOverdue (appSettings st) now s = true <->
   (inject_Z (thresholdMinutes (notifications (appSettings st)))
    <= Js.minutes_between now (checkIn s))%Q) /\
  alert_due st now s =
    enabled (notifications (appSettings st)) && alert_pending s
    && ActiveSessions.isOverdue (appSettings st) now s /\
  (ActiveSessions.isNearingLimit (appSettings st) now s = true ->
   auto_due st now s = false /\
   0 < autoCheckoutHours (appSettings st) * 60 - ActiveSessions.durationMins now s <= 30).
Proof.
  assert (Hd : ActiveSessions.durationMins now s = (now - checkIn s) / 60000).
  { apply JsFacts.Math_floor_minutes. }
  unfold ActiveSessions.isOverdue, ActiveSessions.isNearingLimit.
  rewrite Hd, floor_minutes_ge.
  split; [|split].
  - rewrite <- ge_iff, JsFacts.ge_minutes. reflexivity.
  - reflexivity.
  - intros H. apply andb_true_iff in H. destruct H as [H H2].
    apply andb_true_iff in H. destruct H as [H0 H1].
    apply Z.leb_le in H1. apply Z.ltb_lt in H2.
    split; [|lia]. unfold auto_due. rewrite H0. cbn.
    apply Z.leb_gt.
    pose proof (Z.div_mod (now - checkIn s) 60000 ltac:(lia)).
    pose proof (Z.mod_pos_bound (now - checkIn s) 60000 ltac:(lia)).
    lia.
Qed.

(** X22. The quick check-out of a card needs two clicks in a row on the same
    session: a click on a session that is not the armed one only arms it and
    leaves the store as it is; a click on the armed session disarms and is a
    check-out without notes.  So, offline, two clicks on a session of the
    active set, with the second one before the timer of three seconds
    disarms the session, close it with the note [Manual Checkout] and take
    every session of that id out of the active set. *)
Theorem quick_out_needs_two_clicks
    (env : Env) (confirmingId : option string) (sessionId : string) (w : World) :
  (confirmingId <> Some sessionId ->
   fst (ActiveSessions.handleQuickOut env confirmingId sessionId) = Some sessionId /\
   snd (ActiveSessions.handleQuickOut env confirmingId sessionId) w = (Normal tt, w)) /\
  (fst (ActiveSessions.handleQuickOut env (Some sessionId) sessionId) = None /\
   snd (ActiveSessions.handleQuickOut env (Some sessionId) sessionId) w
     = handleCheckOut env sessionId None w) /\
  (confirmingId <> Some sessionId ->
   connected env (app w) = false ->
   (exists s, In s (activeSessions (app w)) /\ id s = sessionId) ->
   let click1 := ActiveSessions.handleQuickOut env confirmingId sessionId in
   let click2 := ActiveSessions.handleQuickOut env (fst click1) sessionId in
   let w2 := snd (snd click2 (snd (snd click1 w))) in
   fst click2 = None /\
   (forall s, In s (activeSessions (app w2)) -> id s <> sessionId) /\
   option_map notes (hd_error (sessionHistory (app w2))) = Some (Some "Manual Checkout")).
Proof.
  assert (H1 : confirmingId <> Some sessionId ->
               ActiveSessions.handleQuickOut env confirmingId sessionId
               = (Some sessionId, ret tt)).
  { intros Hne. unfold ActiveSessions.handleQuickOut.
    destruct confirmingId as [c|]; [|reflexivity].
    destruct (String.eqb_spec c sessionId) as [->|Hc]; [congruence|reflexivity]. }
  assert (H2 : ActiveSessions.handleQuickOut env (Some sessionId) sessionId
               = (None, handleCheckOut env sessionId None)).
  { unfold ActiveSessions.handleQuickOut. rewrite String.eqb_refl. reflexivity. }
  split; [|split].
  - intros Hne. rewrite (H1 Hne). auto.
  - rewrite H2. auto.
  - intros Hne Hc (s & Hs & Hid) click1 click2 w2. subst w2 click2 click1.
    rewrite (H1 Hne).
    change (fst (Some sessionId, @ret unit tt)) with (Some sessionId).
    rewrite H2.
    change (snd (snd (Some sessionId, @ret unit tt) w)) with w.
    destruct (find (has_id sessionId) (activeSessions (app w))) as [s0|] eqn:E.
    + change (snd (None (A:=string), handleCheckOut env sessionId None) w)
        with (handleCheckOut env sessionId None w).
      rewrite (handleCheckOut_offline env _ _ _ _ E Hc).
      split; [reflexivity|]. split; [|reflexivity].
      cbn [snd app activeSessions close_locally with_todaySessions
           with_sessionHistory with_activeSessions].
      intros x Hx. apply filter_In in Hx. destruct Hx as [_ Hx].
      unfold has_id in Hx. apply negb_true_iff, String.eqb_neq in Hx. exact Hx.
    + exfalso. apply (find_none _ _ E) in Hs. unfold has_id in Hs.
      rewrite Hid, String.eqb_refl in Hs. discriminate.
Qed.

(** X23. Offline, a badge toggles its patron.  Scanning the badge of a
    patron who has no session in the active set checks the patron in: the
    active set gains one session, of that patron.  Scanning it again checks
    the patron out: no session of the patron is left in the active set, and
    the closed session in front of the history carries the note
    [Badge Scanner Checkout]. *)
Theorem badge_scan_toggles (env : Env) (w : World) (student : Patron.t) :
  connected env (app w) = false ->
  (forall s, In s (activeSessions (app w)) -> studentId s <> Patron.id student) ->
  let w1 := snd (CheckIn.scan_action env student w) in
  let w2 := snd (CheckIn.scan_action env student w1) in
  (exists ns, activeSessions (app w1) = (activeSessions (app w) ++ [ns])%list /\
              studentId ns = Patron.id student /\ is_active ns = true) /\
  (forall s, In s (activeSessions (app w2)) -> studentId s <> Patron.id student) /\
  option_map notes (hd_error (sessionHistory (app w2)))
    = Some (Some "Badge Scanner Checkout") /\
  List.length (sessionHistory (app w2)) = S (List.length (sessionHistory (app w))).
Proof.
  intros Hc Hfree w1 w2.
  set (p := Patron.id student) in *.
  assert (E : existsb (fun s => String.eqb (studentId s) p) (activeSessions (app w)) = false).
  { destruct (existsb _ _) eqn:E; auto. apply existsb_exists in E.
    destruct E as (s & Hs & Hp). apply String.eqb_eq in Hp.
    exfalso. exact (Hfree s Hs Hp). }
  assert (Hnone : forall l, (forall s, In s l -> studentId s <> p) ->
            find (fun s => String.eqb (studentId s) p) l = None).
  { intros l Hl. destruct (find _ l) as [s|] eqn:F; auto.
    apply find_some in F. destruct F as [Hs Hp]. apply String.eqb_eq in Hp.
    exfalso. exact (Hl s Hs Hp). }
  set (ns := newSession env w p).
  assert (Hw1 : w1 = mkWorld
            (with_todaySessions (fun prev => prev ++ [ns])%list
               (with_activeSessions (fun prev => prev ++ [ns])%list (app w)))
            (sessions_table w) (S (S (calls w))) (log w)).
  { unfold w1, CheckIn.scan_action, bind, get_app. fold p.
    rewrite (Hnone _ Hfree). rewrite (handleCheckIn_offline env _ _ E Hc). reflexivity. }
  split.
  { exists ns. rewrite Hw1. cbn. auto. }
  assert (Hfind1 : find (fun s => String.eqb (studentId s) p) (activeSessions (app w1))
                   = Some ns).
  { rewrite Hw1. cbn [app activeSessions with_todaySessions with_activeSessions].
    clear -Hfree. induction (activeSessions (app w)) as [|x l IH]; simpl.
    - rewrite String.eqb_refl. reflexivity.
    - destruct (String.eqb_spec (studentId x) p) as [Heq|Hne].
      + exfalso. exact (Hfree x (or_introl eq_refl) Heq).
      + apply IH. intros s Hs. apply Hfree. right. exact Hs. }
  assert (Hc1 : connected env (app w1) = false) by (rewrite Hw1; exact Hc).
  assert (Hex : exists s0, find (has_id (id ns)) (activeSessions (app w1)) = Some s0).
  { destruct (find (has_id (id ns)) (activeSessions (app w1))) as [s0|] eqn:F; eauto.
    exfalso. apply find_some in Hfind1. destruct Hfind1 as [Hin _].
    apply (find_none _ _ F) in Hin. unfold has_id in Hin.
    rewrite String.eqb_refl in Hin. discriminate. }
  destruct Hex as (s0 & Hs0).
  assert (Hw2 : w2 = snd (handleCheckOut env (id ns) (Some "Badge Scanner Checkout") w1)).
  { unfold w2, CheckIn.scan_action, bind, get_app. fold p. rewrite Hfind1. reflexivity. }
  rewrite Hw2, (handleCheckOut_offline env _ _ _ _ Hs0 Hc1).
  cbn [snd app activeSessions sessionHistory close_locally with_todaySessions
       with_sessionHistory with_activeSessions].
  split; [|split].
  - intros s Hs. apply filter_In in Hs. destruct Hs as [Hs Hid].
    rewrite Hw1 in Hs.
    cbn [app activeSessions with_todaySessions with_activeSessions] in Hs.
    apply in_app_or in Hs. destruct Hs as [Hs|[<-|[]]].
    + apply Hfree. exact Hs.
    + unfold has_id in Hid. rewrite String.eqb_refl in Hid. discriminate.
  - reflexivity.
  - rewrite Hw1. reflexivity.
Qed.

(** X24. The connection probe never throws and never touches the console or
    the hosted relation.  It reports success exactly when the store is
    configured and the probe query returns no error; without configuration
    it makes no request at all; and a failure always comes with a message
    that is not empty. *)
Theorem connection_probe_outcome (env : Env) (w : World) :
  exists success message w',
    Supabase.verifyDatabaseConnection env w = (Normal (success, message), w') /\
    app w' = app w /\ sessions_table w' = sessions_table w /\ log w' = log w /\
    (success = true <->
     isSupabaseConfigured env = true /\ remote_error env (calls w) = None) /\
    (isSupabaseConfigured env = false -> w' = w) /\
    message <> EmptyString.
Proof.
  unfold Supabase.verifyDatabaseConnection.
  destruct (isSupabaseConfigured env) eqn:Hs; cbn [negb].
  - unfold try_catch, bind, next_call. cbv beta iota.
    destruct (remote_error env (calls w)) as [m|] eqn:Hr.
    + destruct (Supabase.includes m Supabase.SCHEMA_MISSING_MARK).
      * do 3 eexists. split; [reflexivity|]. cbn [app sessions_table log].
        repeat split; try discriminate. intros (_ & H). discriminate.
      * do 3 eexists. split; [reflexivity|]. cbn [app sessions_table log].
        repeat split; try discriminate.
        -- intros (_ & H). discriminate.
        -- destruct m; cbn; discriminate.
    + do 3 eexists. split; [reflexivity|]. cbn [app sessions_table log].
      repeat split; discriminate.
  - do 3 eexists. split; [reflexivity|]. repeat split; try discriminate.
    intros (H & _). discriminate.
Qed.

(** * What the hosted relation and the records keep over any run *)

Section Growth.

Variable env : Env.

Lemma same_identity_refl r : same_identity r r.
Proof. unfold same_identity. auto. Qed.

Lemma same_identity_trans a b c :
  same_identity a b -> same_identity b c -> same_identity a c.
Proof.
  unfold same_identity.
  intros (A1 & A2 & A3 & A4 & A5) (B1 & B2 & B3 & B4 & B5).
  repeat split; try congruence; auto.
Qed.

Lemma grows_from_refl tbl : grows_from tbl tbl.
Proof.
  exists tbl, []. split; [symmetry; apply app_nil_r|].
  induction tbl; constructor; auto using same_identity_refl.
Qed.

Lemma Forall2_same_identity_trans l1 :
  forall l2 l3,
    Forall2 same_identity l1 l2 -> Forall2 same_identity l2 l3 ->
    Forall2 same_identity l1 l3.
Proof.
  induction l1 as [|a l1 IH]; intros l2 l3 H12 H23.
  - inversion H12; subst. inversion H23; subst. constructor.
  - inversion H12 as [|? b ? l2' Hab Hl]; subst.
    inversion H23 as [|? c ? l3' Hbc Hl']; subst.
    constructor; [eapply same_identity_trans; eauto|eapply IH; eauto].
Qed.

Lemma grows_from_trans t1 t2 t3 :
  grows_from t1 t2 -> grows_from t2 t3 -> grows_from t1 t3.
Proof.
  intros (c1 & a1 & -> & H1) (c2 & a2 & -> & H2).
  apply Forall2_app_inv_l in H2. destruct H2 as (c2' & a2' & Hc & Ha & ->).
  exists c2', (a2' ++ a2)%list. split; [symmetry; apply app_assoc|].
  eapply Forall2_same_identity_trans; eauto.
Qed.

Lemma grows_from_update sessionId patch tbl :
  (forall r, same_identity r (patch r)) ->
  grows_from tbl (Remote.update_eq_id sessionId patch tbl).
Proof.
  intros Hp. exists (Remote.update_eq_id sessionId patch tbl), [].
  split; [symmetry; apply app_nil_r|].
  unfold Remote.update_eq_id. induction tbl as [|r tbl IH]; simpl; constructor; auto.
  destruct (String.eqb (SessionRow.id r) sessionId); auto using same_identity_refl.
Qed.

Lemma same_identity_close t d n r : same_identity r (Remote.close t d n r).
Proof. unfold same_identity. cbn. repeat split; auto. discriminate. Qed.

Lemma same_identity_flag r : same_identity r (Remote.flag_alert r).
Proof. unfold same_identity. cbn. repeat split; auto. Qed.

Lemma grows_from_insert uuid p t tbl : grows_from tbl (Remote.insert uuid p t tbl).
Proof.
  unfold Remote.insert. eexists tbl, _. split; [reflexivity|].
  induction tbl; constructor; auto using same_identity_refl.
Qed.

Lemma grows_handleCheckOut sessionId notes w :
  grows_from (sessions_table w) (sessions_table (snd (handleCheckOut env sessionId notes w))).
Proof.
  destruct (handleCheckOut_cases env sessionId notes w)
    as [[_ ->]|[(s0 & c & _ & _ & _ & _ & ->)|[(t & d & n & _ & _ & ->)|(e & _ & ->)]]];
    auto using grows_from_refl.
  apply grows_from_update. intros r. apply same_identity_close.
Qed.

Lemma grows_monitor_body st now x tbl w :
  grows_from tbl (sessions_table w) ->
  grows_from tbl (sessions_table (snd (monitor_body env st now x w))).
Proof.
  intros H. apply (grows_from_trans _ _ _ H).
  destruct (monitor_body_cases env st now x w) as [(_ & _ & ->)|(_ & _ & [->| ->])].
  - apply grows_handleCheckOut.
  - apply grows_from_refl.
  - apply grows_from_update. apply same_identity_flag.
Qed.

Lemma grows_run_op op w :
  grows_from (sessions_table w) (sessions_table (snd (run_op env op w))).
Proof.
  destruct op as [p|sessionId notes0| |silent startOfDay patronRes settingsRes|newSettings| |];
    simpl.
  - destruct (handleCheckIn_cases env p w)
      as [[_ ->]|[(_ & ns & _ & _ & _ & ->)|[(_ & _ & uuid & t & _ & ->)|(e & _ & ->)]]];
      auto using grows_from_refl, grows_from_insert.
  - apply grows_handleCheckOut.
  - rewrite monitor_unfold.
    destruct (List.length (activeSessions (app w)) =? 0)%nat; [apply grows_from_refl|].
    apply (for_of_invariant (fun w0 => grows_from (sessions_table w) (sessions_table w0))).
    + intros x w0 _. apply grows_monitor_body.
    + apply grows_from_refl.
  - destruct (fetchData_cases env silent startOfDay patronRes settingsRes w) as (-> & _).
    apply grows_from_refl.
  - destruct (saveGlobalSettings_frame env newSettings w) as (_ & _ & ->).
    apply grows_from_refl.
  - apply grows_from_refl.
  - apply grows_from_refl.
Qed.

End Growth.


Section WellFormed.

Variable env : Env.

Lemma or_default_not_empty x d : d <> EmptyString -> Js.or_default x d <> EmptyString.
Proof.
  intros Hd. unfold Js.or_default. destruct x as [s|]; auto.
  destruct s; simpl; auto. discriminate.
Qed.

Lemma checkout_duration_pos now s : 1 <= checkout_duration now s.
Proof. unfold checkout_duration. lia. Qed.

Lemma closing_fields_closed t d n :
  1 <= d -> n <> EmptyString -> closing_fields (Some t) (Some d) (Some n).
Proof. intros Hd Hn. split; eauto. Qed.

Lemma well_formed_update sessionId patch tbl :
  (forall r, row_well_formed r -> row_well_formed (patch r)) ->
  Forall row_well_formed tbl ->
  Forall row_well_formed (Remote.update_eq_id sessionId patch tbl).
Proof.
  intros Hp H. unfold Remote.update_eq_id. apply Forall_forall.
  intros r Hr. apply in_map_iff in Hr. destruct Hr as (r0 & <- & Hin).
  rewrite Forall_forall in H.
  destruct (String.eqb (SessionRow.id r0) sessionId); auto.
Qed.

Lemma well_formed_eq w w' :
  sessions_table w' = sessions_table w ->
  activeSessions (app w') = activeSessions (app w) ->
  sessionHistory (app w') = sessionHistory (app w) ->
  todaySessions (app w') = todaySessions (app w) ->
  well_formed w -> well_formed w'.
Proof. unfold well_formed. intros -> -> -> ->. auto. Qed.

Lemma well_formed_handleCheckOut sessionId notes w :
  well_formed w -> well_formed (snd (handleCheckOut env sessionId notes w)).
Proof.
  intros H.
  assert (Hn : Js.or_default notes MANUAL_CHECKOUT_NOTE <> EmptyString)
    by (apply or_default_not_empty; discriminate).
  destruct (find (has_id sessionId) (activeSessions (app w))) as [s|] eqn:E.
  - destruct (connected env (app w)) eqn:Hc.
    + destruct (remote_error env (S (calls w))) as [e|] eqn:Hr.
      * rewrite (handleCheckOut_online_error env _ _ _ _ _ E Hc Hr).
        apply (well_formed_eq w); auto.
      * rewrite (handleCheckOut_online_ok env _ _ _ _ E Hc Hr).
        destruct H as (Ht & Ha & Hh & Hd & Hcl).
        split; [|repeat split; assumption].
        apply well_formed_update; [|exact Ht].
        intros r _. apply closing_fields_closed;
          [apply checkout_duration_pos|exact Hn].
    + rewrite (handleCheckOut_offline env _ _ _ _ E Hc).
      destruct H as (Ht & Ha & Hh & Hd & Hcl).
      assert (Hclosed : session_well_formed
                (closedSession s (clock env (calls w))
                   (checkout_duration (clock env (calls w)) s)
                   (Js.or_default notes MANUAL_CHECKOUT_NOTE))).
      { apply closing_fields_closed; [apply checkout_duration_pos|exact Hn]. }
      unfold well_formed.
      cbn [snd app sessions_table activeSessions sessionHistory todaySessions
           close_locally with_todaySessions with_sessionHistory with_activeSessions].
      split; [exact Ht|]. split; [|split; [|split]].
      * apply Forall_forall. intros x Hx. apply filter_In in Hx.
        rewrite Forall_forall in Ha. apply Ha. tauto.
      * constructor; assumption.
      * apply Forall_forall. intros x Hx. apply in_map_iff in Hx.
        destruct Hx as (y & <- & Hy). rewrite Forall_forall in Hd.
        destruct (has_id sessionId y); auto.
      * constructor; [reflexivity|exact Hcl].
  - rewrite (handleCheckOut_not_found env _ _ _ E). exact H.
Qed.

Lemma well_formed_monitor_body st now x w :
  well_formed w -> well_formed (snd (monitor_body env st now x w)).
Proof.
  intros H.
  destruct (monitor_body_cases env st now x w) as [(_ & _ & ->)|(_ & Ha & [Ht|Ht])].
  - apply well_formed_handleCheckOut. exact H.
  - apply (well_formed_eq w); auto; rewrite Ha; reflexivity.
  - destruct H as (H1 & H2 & H3 & H4 & H5).
    unfold well_formed. rewrite Ha, Ht. split; [|auto].
    apply well_formed_update; [|exact H1]. intros r Hr. exact Hr.
Qed.

Lemma well_formed_handleCheckIn p w :
  well_formed w -> well_formed (snd (handleCheckIn env p w)).
Proof.
  intros H.
  destruct (existsb (fun s => String.eqb (studentId s) p) (activeSessions (app w))) eqn:E.
  - rewrite (handleCheckIn_guard env _ _ E). exact H.
  - destruct (connected env (app w)) eqn:Hc.
    + destruct (remote_error env (S (calls w))) as [e|] eqn:Hr.
      * rewrite (handleCheckIn_online_error env _ _ _ E Hc Hr).
        apply (well_formed_eq w); auto.
      * rewrite (handleCheckIn_online_ok env _ _ E Hc Hr).
        destruct H as (H1 & H2 & H3 & H4 & H5).
        split; [|repeat split; assumption].
        cbn [snd sessions_table]. unfold Remote.insert.
        apply Forall_app. split; [exact H1|].
        constructor; [split; reflexivity|constructor].
    + rewrite (handleCheckIn_offline env _ _ E Hc).
      destruct H as (H1 & H2 & H3 & H4 & H5).
      unfold well_formed.
      cbn [snd app sessions_table activeSessions sessionHistory todaySessions
           with_todaySessions with_activeSessions].
      assert (Hns : Forall session_well_formed [newSession env w p])
        by (constructor; [split; reflexivity|constructor]).
      repeat split; auto; apply Forall_app; auto.
Qed.

Lemma well_formed_fetchData silent startOfDay patronRes settingsRes w :
  well_formed w ->
  well_formed (snd (fetchData env silent startOfDay patronRes settingsRes w)).
Proof.
  intros H.
  assert (Hfetched :
    forall w', sessions_table w' = sessions_table w ->
      activeSessions (app w') = map active_of_row (Remote.select_active (sessions_table w)) ->
      sessionHistory (app w') = map history_of_row (Remote.select_history (sessions_table w)) ->
      todaySessions (app w') = map today_of_row (Remote.select_today startOfDay (sessions_table w)) ->
      well_formed w').
  { intros w' Et Ea Eh Ed. destruct H as (H1 & _).
    unfold well_formed. rewrite Et, Ea, Eh, Ed. rewrite Forall_forall in H1.
    split; [apply Forall_forall; exact H1|].
    assert (Hhist : forall r, In r (Remote.select_history (sessions_table w)) ->
              In r (sessions_table w) /\ Remote.is_open r = false).
    { intros r Hr. unfold Remote.select_history in Hr.
      assert (Hin : In r (Remote.order_desc
                (filter (fun r => negb (Remote.is_open r)) (sessions_table w)))).
      { rewrite <- (firstn_skipn 100). apply in_or_app. left. exact Hr. }
      apply order_desc_In, filter_In in Hin. destruct Hin as [Hin Ho].
      apply negb_true_iff in Ho. auto. }
    repeat split; apply Forall_forall; intros x Hx; apply in_map_iff in Hx;
      destruct Hx as (r & <- & Hr).
    - split; reflexivity.
    - apply (H1 r). apply Hhist. exact Hr.
    - apply filter_In in Hr. apply (H1 r). tauto.
    - apply Hhist in Hr. destruct Hr as [_ Ho]. unfold Remote.is_open in Ho.
      unfold is_active, history_of_row. cbn. destruct (SessionRow.check_out r); congruence. }
  destruct (connected env (app w)) eqn:Hc.
  - destruct (remote_error env (calls w)) as [e|] eqn:Hr.
    + rewrite (fetchData_online_error env _ _ _ _ _ _ Hc Hr).
      apply (well_formed_eq w); auto; destruct silent; reflexivity.
    + destruct (fetchData_online_ok env silent startOfDay patronRes settingsRes w Hc Hr)
        as (Ea & Ed & Eh & _ & Et).
      apply Hfetched; assumption.
  - revert Hc. unfold connected, fetchData. run_m.
    destruct (demoMode (app w)), (isSupabaseConfigured env); cbn; try discriminate;
      intros _; destruct (List.length (patrons (app w)) =? 0)%nat; cbn;
      apply (well_formed_eq w); auto.
Qed.

Lemma well_formed_saveGlobalSettings a w :
  well_formed w -> well_formed (snd (saveGlobalSettings env a w)).
Proof.
  intros H. unfold saveGlobalSettings. run_m.
  destruct (demoMode (app w) || negb (isSupabaseConfigured env)); cbn.
  - apply (well_formed_eq w); auto.
  - destruct (remote_error env (calls w)); cbn; apply (well_formed_eq w); auto.
Qed.

Lemma well_formed_run_op op w :
  well_formed w -> well_formed (snd (run_op env op w)).
Proof.
  intros H.
  destruct op as [p|sessionId notes0| |silent startOfDay patronRes settingsRes|newSettings| |];
    simpl.
  - apply well_formed_handleCheckIn. exact H.
  - apply well_formed_handleCheckOut. exact H.
  - rewrite monitor_unfold.
    destruct (List.length (activeSessions (app w)) =? 0)%nat; [exact H|].
    apply for_of_invariant; [|exact H].
    intros x w0 _. apply well_formed_monitor_body.
  - apply well_formed_fetchData. exact H.
  - apply well_formed_saveGlobalSettings. exact H.
  - apply (well_formed_eq w); auto.
  - apply (well_formed_eq w); auto.
Qed.

End WellFormed.

(** X26. The shape of the records is kept by every run.  If in the hosted
    relation and in the three local lists each closed record has a duration
    of at least one minute and a note that is not empty, each open record
    has neither, and the history holds closed records only, then the same is
    true after any sequence of check-ins, check-outs, ticks,
    resynchronisations, changes of settings, sign-outs and logins, whatever
    the store replies. *)
Theorem records_stay_well_formed (env : Env) (ops : list Op) (w : World) :
  well_formed w -> well_formed (exec env ops w).
Proof.
  unfold exec. revert w. induction ops as [|op ops IH]; intros w H; simpl.
  - exact H.
  - apply IH. apply well_formed_run_op. exact H.
Qed.


(** * The further properties at concrete runs *)

Lemma offline_check_in_creates_session_witness :
  connected Scenario.envB (app Scenario.checked_in) = false /\
  exists ns,
    activeSessions (app (snd (handleCheckIn Scenario.envB "ST-002" Scenario.checked_in)))
      = [Scenario.john; ns] /\
    studentId ns = "ST-002" /\ studentName ns = Some "Jane Smith".
Proof.
  split; [reflexivity|].
  destruct (offline_check_in_creates_session Scenario.envB Scenario.checked_in "ST-002"
              eq_refl) as (ns & Ha & _ & Hp & _ & _ & Hn & _).
  - intros s [<-|[]]. vm_compute. discriminate.
  - exists ns. split; [exact Ha|]. split; [exact Hp|]. rewrite Hn. reflexivity.
Defined.

Lemma online_write_failure_is_reported_witness :
  connected Scenario.failing (app (initial Scenario.failing [])) = true /\
  remote_error Scenario.failing (S (calls (initial Scenario.failing [])))
    = Some "network down" /\
  syncError (app (snd (handleCheckIn Scenario.failing "ST-001" (initial Scenario.failing []))))
    = Some "network down" /\
  activeSessions (app (snd (handleCheckIn Scenario.failing "ST-001"
                              (initial Scenario.failing [])))) = [].
Proof.
  split; [reflexivity|]. split; [reflexivity|].
  destruct (online_write_failure_is_reported Scenario.failing (initial Scenario.failing [])
              "network down" eq_refl eq_refl) as (Hin & _).
  destruct (Hin "ST-001") as (_ & _ & Ha & _ & _ & _ & _ & _ & He).
  - intros s [].
  - split; [exact He|exact Ha].
Defined.

Lemma online_check_out_frame_witness :
  connected Scenario.envS (app Scenario.online_checked_in) = true /\
  find (has_id "uuid-2") (activeSessions (app Scenario.online_checked_in))
    = Some (mkSession "uuid-2" "ST-001" None 60000 None None None (Some false)) /\
  remote_error Scenario.envS (S (calls Scenario.online_checked_in)) = None /\
  app (snd (handleCheckOut Scenario.envS "uuid-2" None Scenario.online_checked_in))
    = app Scenario.online_checked_in.
Proof.
  split; [reflexivity|]. split; [reflexivity|]. split; [reflexivity|].
  exact (proj1 (online_check_out_frame Scenario.envS Scenario.online_checked_in "uuid-2"
                  None _ eq_refl eq_refl eq_refl)).
Defined.

Lemma check_out_note_witness :
  find (has_id "local-0") (activeSessions (app Scenario.checked_in)) = Some Scenario.john /\
  option_map notes
    (hd_error (sessionHistory
       (app (snd (handleCheckOut Scenario.envB "local-0" (Some EmptyString)
                    Scenario.checked_in)))))
    = Some (Some "Manual Checkout").
Proof.
  split; [reflexivity|].
  exact (proj1 (check_out_note Scenario.envB Scenario.checked_in "local-0"
                  (Some EmptyString) Scenario.john eq_refl) eq_refl).
Defined.

Lemma offline_check_in_check_out_round_trip_witness :
  connected Scenario.envB (app Scenario.checked_in) = false /\
  activeSessions
    (app (snd (handleCheckOut Scenario.envB
                 (id (newSession Scenario.envB Scenario.checked_in "ST-002")) None
                 (snd (handleCheckIn Scenario.envB "ST-002" Scenario.checked_in)))))
    = activeSessions (app Scenario.checked_in).
Proof.
  split; [reflexivity|].
  refine (proj1 (offline_check_in_check_out_round_trip Scenario.envB Scenario.checked_in
                   "ST-002" None eq_refl _ _)).
  - intros s [<-|[]]. vm_compute. discriminate.
  - intros s [<-|[]]. vm_compute. discriminate.
Defined.

Lemma demo_mode_never_writes_to_store_witness :
  demoMode (app Scenario.checked_in) = true /\
  sessions_table
    (exec Scenario.envB [CheckIn "ST-002"; Tick; CheckOut "local-0" None; SaveSettings
                           Scenario.one_hour_limit] Scenario.checked_in)
    = [].
Proof.
  split; [reflexivity|].
  refine (proj1 (demo_mode_never_writes_to_store Scenario.envB _ Scenario.checked_in
                   eq_refl _)).
  repeat constructor; discriminate.
Defined.

Lemma online_tick_keeps_local_view_witness :
  connected Scenario.envS (app Scenario.online_checked_in) = true /\
  activeSessions (app (snd (monitor Scenario.envS Scenario.online_checked_in)))
    = activeSessions (app Scenario.online_checked_in).
Proof.
  split; [reflexivity|].
  exact (proj1 (online_tick_keeps_local_view Scenario.envS Scenario.online_checked_in
                  eq_refl)).
Defined.

Lemma alert_notification_body_witness :
  0 <= 185 /\
  exists hours minutes,
    In (BrowserNotification "ST-002" hours minutes)
       (log (snd (sendOverdueAlert Scenario.notifying Scenario.jane 185
                    "desk@example.com" (initial Scenario.notifying [])))) /\
    hours * 60 + minutes = 185 /\ 0 <= minutes < 60 /\ 0 <= hours.
Proof.
  split; [lia|].
  apply (alert_notification_body Scenario.notifying Scenario.jane 185 "desk@example.com"
           (initial Scenario.notifying [])); [lia|reflexivity|reflexivity].
Defined.

Lemma failed_fetch_keeps_local_data_witness :
  connected Scenario.failing (app (initial Scenario.failing [])) = true /\
  syncError (app (snd (fetchData Scenario.failing true 0 MOCK_STUDENTS None
                         (initial Scenario.failing []))))
    = Some "network down" /\
  patrons (app (snd (fetchData Scenario.failing true 0 MOCK_STUDENTS None
                       (initial Scenario.failing [])))) = [].
Proof.
  split; [reflexivity|].
  destruct (failed_fetch_keeps_local_data Scenario.failing (initial Scenario.failing [])
              true 0 MOCK_STUDENTS None "network down" eq_refl eq_refl)
    as (_ & Hp & _ & _ & _ & _ & _ & _ & He).
  split; [exact He|exact Hp].
Defined.

Lemma successful_fetch_projects_store_witness :
  connected Scenario.envS (app Scenario.online_before_refresh) = true /\
  remote_error Scenario.envS (calls Scenario.online_before_refresh) = None /\
  map (fun s => (id s, studentId s, checkIn s, alertTriggered s))
      (activeSessions
         (app (snd (fetchData Scenario.envS true 0 MOCK_STUDENTS None
                      Scenario.online_before_refresh))))
    = [("uuid-2", "ST-001", 60000, Some false)].
Proof.
  split; [reflexivity|]. split; [reflexivity|].
  destruct (successful_fetch_projects_store Scenario.envS Scenario.online_before_refresh
              true 0 MOCK_STUDENTS None eq_refl eq_refl) as (_ & Ha & _).
  rewrite Ha. reflexivity.
Defined.

Lemma fetch_twice_is_fetch_once_witness :
  connected Scenario.envS (app Scenario.online_before_refresh) = true /\
  activeSessions
    (app (snd (fetchData Scenario.envS false 0 MOCK_STUDENTS None
                 (snd (fetchData Scenario.envS true 0 MOCK_STUDENTS None
                         Scenario.online_before_refresh)))))
    = activeSessions
        (app (snd (fetchData Scenario.envS true 0 MOCK_STUDENTS None
                     Scenario.online_before_refresh))).
Proof.
  split; [reflexivity|].
  exact (proj1 (fetch_twice_is_fetch_once Scenario.envS Scenario.online_before_refresh
                  true false 0 MOCK_STUDENTS None eq_refl eq_refl eq_refl)).
Defined.

Lemma offline_fetch_only_seeds_patrons_witness :
  demoMode (app (snd (run_op Scenario.envB SignOut (initial Scenario.envB [])))) = true /\
  patrons (app (snd (fetchData Scenario.envB true 0 [] None
                       (snd (run_op Scenario.envB SignOut (initial Scenario.envB []))))))
    = MOCK_STUDENTS.
Proof.
  split; [reflexivity|].
  destruct (offline_fetch_only_seeds_patrons Scenario.envB
              (snd (run_op Scenario.envB SignOut (initial Scenario.envB [])))
              true 0 [] None (or_introl eq_refl)) as (_ & Hp & _).
  exact Hp.
Defined.

Lemma format_duration_parts_witness :
  0 <= 3725000 /\
  let '(hours, mins, secs) := ActiveSessions.duration_parts 3725000 0 in
  0 <= hours /\ 0 <= mins < 60 /\ 0 <= secs < 60 /\
  hours * 3600000 + mins * 60000 + secs * 1000 <= 3725000 - 0
    < hours * 3600000 + mins * 60000 + secs * 1000 + 1000.
Proof.
  split; [lia|]. apply (format_duration_parts 3725000 0). lia.
Defined.

Lemma badge_scan_toggles_witness :
  connected Scenario.envB (app Scenario.checked_in) = false /\
  option_map notes
    (hd_error (sessionHistory
       (app (snd (CheckIn.scan_action Scenario.envB Scenario.jane
                    (snd (CheckIn.scan_action Scenario.envB Scenario.jane
                            Scenario.checked_in)))))))
    = Some (Some "Badge Scanner Checkout").
Proof.
  split; [reflexivity|].
  refine (proj1 (proj2 (proj2 (badge_scan_toggles Scenario.envB Scenario.checked_in
                                 Scenario.jane eq_refl _)))).
  intros s [<-|[]]. vm_compute. discriminate.
Defined.

Lemma records_stay_well_formed_witness :
  well_formed (initial Scenario.envB []) /\
  well_formed
    (exec Scenario.envB
       (Scenario.offline_check_in ++ [Tick; CheckOut "local-0" None; CheckIn "ST-002"])%list
       (initial Scenario.envB [])).
Proof.
  assert (H : well_formed (initial Scenario.envB [])) by (repeat split; constructor).
  split; [exact H|].
  exact (records_stay_well_formed Scenario.envB _ (initial Scenario.envB []) H).
Defined.
